(** * The wallet synchronisation engine and its admission semaphore

    A shallow embedding of two source files of the repository:

    - [chia/util/limited_semaphore.py]: the [LimitedSemaphore] class, a
      counting semaphore with a bounded number of waiting entrants;
    - [chia/wallet/wallet_node.py]: the [WalletNode] handlers that react to
      new peaks and coin-state updates of full-node peers.

    Python integers are unbounded and are modelled by [Z]; [bytes32] values
    are only compared and used as dictionary keys and are modelled by the
    integer they encode.  Dictionaries are [gmap]s, sets are [gset]s.
    Exceptions are values of [exn]; a computation returns a [Result]. *)

From stdpp Require Import gmap list strings.
From Stdlib Require Import ZArith Lia.

Local Open Scope Z_scope.

(** ** Python results *)

Inductive exn :=
| AssertionError
| ValueError
| RuntimeError
| KeyError
| IndexError
| AttributeError
| LimitedSemaphoreFullError
| ExternalError (code : Z).

Inductive Result (A : Type) :=
| Ok (a : A)
| Raise (e : exn)
| OutOfFuel.
Arguments Ok {A} a.
Arguments Raise {A} e.
Arguments OutOfFuel {A}.

#[global] Instance exn_eq_dec : EqDecision exn.
Proof. solve_decision. Defined.

#[global] Instance Result_eq_dec {A} `{EqDecision A} : EqDecision (Result A).
Proof. solve_decision. Defined.

(** ** [chia/util/limited_semaphore.py] *)

Module LimitedSemaphore.

(** The identity of an [asyncio.Task]. *)
Definition Task := positive.

(** [TaskInfo]: the task and the reading of [time.monotonic] taken when the
    guarded section was entered (a clock reading is an opaque integer). *)
Record TaskInfo := { task : Task; acquired_time : Z }.

(** The dataclass.  [_semaphore] is the counter of the inner
    [asyncio.Semaphore]; the tasks parked on it are the [Waiting] frames of
    a [system] below.  The logger and the monitor task only print and are
    left out. *)
Record t := {
  _semaphore : Z;
  _available_count : Z;
  _active_tasks : gmap Task TaskInfo
}.

(** [LimitedSemaphore.create].  [asyncio.Semaphore(value)] raises
    [ValueError] on a negative initial value. *)
Definition create (active_limit waiting_limit : Z) : Result t :=
  if decide (active_limit < 0) then Raise ValueError
  else Ok {| _semaphore := active_limit;
             _available_count := active_limit + waiting_limit;
             _active_tasks := ∅ |}.

(** [acquire], up to the [try]: the current task must exist, a waiting slot
    must be available, and the slot is taken. *)
Definition acquire_begin (task : option Task) (self : t) : Result t :=
  match task with
  | None => Raise AssertionError
  | Some _ =>
      if decide (_available_count self < 1) then Raise LimitedSemaphoreFullError
      else Ok {| _semaphore := _semaphore self;
                 _available_count := _available_count self - 1;
                 _active_tasks := _active_tasks self |}
  end.

(** [async with self._semaphore] lets the entrant through once the inner
    counter is positive; the entrant then records itself in [_active_tasks]
    and yields [_available_count].  [None]: the entrant stays parked. *)
Definition acquire_granted (task : Task) (now : Z) (self : t) : option (Z * t) :=
  if decide (0 < _semaphore self) then
    Some (_available_count self,
          {| _semaphore := _semaphore self - 1;
             _available_count := _available_count self;
             _active_tasks :=
               <[task := {| task := task; acquired_time := now |}]> (_active_tasks self) |})
  else None.

(** The release of the inner semaphore when the [async with] block is left,
    by a return or by an exception alike. *)
Definition semaphore_release (self : t) : t :=
  {| _semaphore := _semaphore self + 1;
     _available_count := _available_count self;
     _active_tasks := _active_tasks self |}.

(** The [finally] block: the slot is given back and the task's entry, if
    any, is popped. *)
Definition acquire_finally (task : Task) (self : t) : t :=
  {| _semaphore := _semaphore self;
     _available_count := _available_count self + 1;
     _active_tasks := delete task (_active_tasks self) |}.

(** Leaving the guarded section. *)
Definition acquire_exit (task : Task) (self : t) : t :=
  acquire_finally task (semaphore_release self).

(** An entrant is a suspended [acquire] coroutine: parked on the inner
    semaphore or inside the guarded section. *)
Inductive phase := Waiting | Active.

Definition frame : Type := Task * phase.

Record system := { sem : t; frames : list frame }.

#[global] Instance phase_eq_dec : EqDecision phase.
Proof. solve_decision. Defined.

(** Removes one occurrence of a frame. *)
Fixpoint remove_frame (f : frame) (l : list frame) : option (list frame) :=
  match l with
  | [] => None
  | x :: l' =>
      if decide (x = f) then Some l'
      else match remove_frame f l' with
           | Some r => Some (x :: r)
           | None => None
           end
  end.

(** What the event loop can do next. *)
Inductive action :=
| Acquire (task : option Task)
| Grant (task : Task) (now : Z)
| Leave (task : Task) (raised : bool)
| Cancel (task : Task).

(** One scheduling step; [None] when the action is not enabled.  A refused
    [Acquire] raises in the caller and parks nothing. *)
Definition step (a : action) (s : system) : option system :=
  match a with
  | Acquire None => Some s
  | Acquire (Some tk) =>
      match acquire_begin (Some tk) (sem s) with
      | Ok self' => Some {| sem := self'; frames := (tk, Waiting) :: frames s |}
      | _ => Some s
      end
  | Grant tk now =>
      match remove_frame (tk, Waiting) (frames s), acquire_granted tk now (sem s) with
      | Some fs, Some (_, self') => Some {| sem := self'; frames := (tk, Active) :: fs |}
      | _, _ => None
      end
  | Leave tk _ =>
      match remove_frame (tk, Active) (frames s) with
      | Some fs => Some {| sem := acquire_exit tk (sem s); frames := fs |}
      | None => None
      end
  | Cancel tk =>
      match remove_frame (tk, Waiting) (frames s) with
      | Some fs => Some {| sem := acquire_finally tk (sem s); frames := fs |}
      | None => None
      end
  end.

Fixpoint run (acts : list action) (s : system) : option system :=
  match acts with
  | [] => Some s
  | a :: acts' =>
      match step a s with
      | Some s' => run acts' s'
      | None => None
      end
  end.

(** The entrants that took a slot and have not given it back. *)
Definition outstanding (s : system) : Z := Z.of_nat (length (frames s)).

(** The entrants inside the guarded section. *)
Definition actives (l : list frame) : nat :=
  length (filter (λ f : frame, f.2 = Active) l).

Definition fresh (self : t) : system := {| sem := self; frames := [] |}.

(** A departure: an entrant leaves the guarded section or is cancelled
    while parked. *)
Definition departure (a : action) : bool :=
  match a with
  | Leave _ _ | Cancel _ => true
  | _ => false
  end.


(** *** The invariant and the scenarios *)

(** The invariant of every system reached from [create a w]. *)
Record inv (a w : Z) (s : system) : Prop := {
  inv_available : _available_count (sem s) = a + w - outstanding s;
  inv_semaphore : _semaphore (sem s) = a - Z.of_nat (actives (frames s));
  inv_semaphore_nonneg : 0 <= _semaphore (sem s);
  inv_available_nonneg : 0 <= _available_count (sem s);
  inv_active_tasks : ∀ tk, is_Some (_active_tasks (sem s) !! tk) → (tk, Active) ∈ frames s
}.

(** Three entrants of a semaphore created with limits 2 and 1: two inside
    the guarded section, one parked. *)
Definition three_entrants : list action :=
  [Acquire (Some 1%positive); Acquire (Some 2%positive); Acquire (Some 3%positive);
   Grant 1%positive 10; Grant 2%positive 11].

Definition full_2_1 : system :=
  {| sem := {| _semaphore := 0; _available_count := 0;
               _active_tasks :=
                 <[2%positive := {| task := 2%positive; acquired_time := 11 |}]>
                 (<[1%positive := {| task := 1%positive; acquired_time := 10 |}]> ∅) |};
     frames := [(2%positive, Active); (1%positive, Active); (3%positive, Waiting)] |}.

(** A task that is inside the guarded section and enters it again. *)
Definition one_active : system :=
  {| sem := {| _semaphore := 1; _available_count := 2;
               _active_tasks := <[1%positive := {| task := 1%positive; acquired_time := 10 |}]> ∅ |};
     frames := [(1%positive, Active)] |}.

Definition reentrant_pair : list action :=
  [Acquire (Some 1%positive); Grant 1%positive 20; Leave 1%positive false].

(** One entrant inside the guarded section of a semaphore created with
    limits 2 and 1, and one parked. *)
Definition one_parked_run : list action :=
  [Acquire (Some 1%positive); Grant 1%positive 10; Acquire (Some 2%positive)].

Definition one_parked : system :=
  {| sem := {| _semaphore := 1; _available_count := 1;
               _active_tasks := <[1%positive := {| task := 1%positive; acquired_time := 10 |}]> ∅ |};
     frames := [(2%positive, Waiting); (1%positive, Active)] |}.

End LimitedSemaphore.

(** ** [chia/wallet/wallet_node.py] *)

Module WalletNode.

(** *** Protocol data

    The classes of [chia.protocols] and [chia.types] are declared outside
    the two source files; a record lists the attributes the handlers read.
    [bytes32] values (hashes, peer ids, coin names) are integers. *)

Record Coin := { parent_coin_info : Z; puzzle_hash : Z; amount : Z }.

Record CoinState := {
  coin : Coin;
  spent_height : option Z;
  created_height : option Z
}.

#[global] Instance Coin_eq_dec : EqDecision Coin.
Proof. solve_decision. Defined.

#[global] Instance Coin_countable : Countable Coin :=
  inj_countable' (λ c, (parent_coin_info c, puzzle_hash c, amount c))
                 (λ '(p, h, a), {| parent_coin_info := p; puzzle_hash := h; amount := a |})
                 (λ c, match c with Build_Coin _ _ _ => eq_refl end).

#[global] Instance CoinState_eq_dec : EqDecision CoinState.
Proof. solve_decision. Defined.

#[global] Instance CoinState_countable : Countable CoinState :=
  inj_countable' (λ c, (coin c, spent_height c, created_height c))
                 (λ '(c, s, h), {| coin := c; spent_height := s; created_height := h |})
                 (λ c, match c with Build_CoinState _ _ _ => eq_refl end).

Record FoliageTransactionBlock := {
  additions_root : Z;
  removals_root : Z;
  timestamp : Z
}.

(** [reward_chain.get_hash()] and [reward_chain.end_of_slot_vdf.challenge]
    of a finished sub-slot. *)
Record EndOfSubSlotBundle := {
  reward_chain_get_hash : Z;
  end_of_slot_vdf_challenge : Z
}.

Record RewardChainBlock := {
  rcb_height : Z;
  rcb_weight : Z;
  rcb_get_hash : Z;
  reward_chain_ip_vdf_challenge : Z;
  plot_public_key : Z
}.

Record HeaderBlock := {
  hb_height : Z;
  hb_weight : Z;
  hb_header_hash : Z;
  prev_header_hash : Z;
  foliage_transaction_block : option FoliageTransactionBlock;
  reward_chain_block : RewardChainBlock;
  finished_sub_slots : list EndOfSubSlotBundle;
  foliage_block_data_get_hash : Z;
  foliage_block_data_signature : Z
}.

Record SubEpochData := { reward_chain_hash : Z }.

Record WeightProof := {
  sub_epochs : list SubEpochData;
  recent_chain_data : list HeaderBlock
}.

Record BlockRecord := { br_header_hash : Z }.

(** A [SubEpochSummary] is only passed on. *)
Abbreviation SubEpochSummary := Z (only parsing).

Record NewPeakWallet := {
  np_header_hash : Z;
  np_height : Z;
  np_weight : Z;
  fork_point_with_previous_peak : Z
}.

Record WalletCoinRecord := {
  confirmed_block_height : Z;
  spent_block_height : Z
}.

Record RespondSESInfo := {
  ses_reward_chain_hash : list Z;
  ses_heights : list (list Z)
}.

Record CoinStateUpdate := {
  csu_height : Z;
  csu_fork_height : Z;
  csu_peak_hash : Z;
  csu_items : list CoinState
}.

Inductive ReceiveBlockResult :=
| NEW_PEAK
| ADDED_AS_ORPHAN
| INVALID_BLOCK
| ALREADY_HAVE_BLOCK
| DISCONNECTED_BLOCK.

(** [PeerRequestCache] of [wallet_sync_utils]: four dictionaries. *)
Record PeerRequestCache := {
  blocks : gmap Z HeaderBlock;
  block_requests : gmap (Z * Z) (list HeaderBlock);
  ses_requests : gmap Z (option RespondSESInfo);
  states_validated : gmap Z CoinState
}.

Definition empty_cache : PeerRequestCache :=
  {| blocks := ∅; block_requests := ∅; ses_requests := ∅; states_validated := ∅ |}.

(** The result tuple of [validate_weight_proof], also the value type of
    [valid_wp_cache]. *)
Abbreviation WpValidation :=
  (bool * Z * list SubEpochSummary * list BlockRecord)%type (only parsing).

(** The two locks a handler takes. *)
Inductive lock := NewPeakLock (priority : Z) | WalletStateManagerLock.

(** *** The collaborators

    Every call that leaves [wallet_node.py] is a constructor of [Ext],
    indexed by the type of its answer: the wallet state manager and its
    stores and blockchain, the peer connection, the server, the helpers of
    [wallet_sync_utils], the clock and the locks. *)
Inductive Ext : Type → Type :=
(* server and clock *)
| IsTrustedPeer (peer : Z) : Ext bool
| GetFullNodeConnections : Ext (list Z)
| WalletPeersEnsureIsClosed : Ext unit
| TimeTime : Ext Z
| LockAcquire (l : lock) : Ext unit
| LockRelease (l : lock) : Ext unit
(* wallet_state_manager.blockchain *)
| GetPeakBlock : Ext (option HeaderBlock)
| GetPeakHeight : Ext Z
| SetPeakBlock (hb : HeaderBlock) (latest_timestamp : Z) : Ext unit
| ContainsBlock (header_hash : Z) : Ext bool
| ContainsHeight (height : Z) : Ext bool
| HeightToHash (height : Z) : Ext Z
| TryBlockRecord (header_hash : Z) : Ext (option BlockRecord)
| ReceiveBlock (hb : HeaderBlock) : Ext (ReceiveBlockResult * option Z)
| GetFinishedSyncUpTo : Ext Z
| SetFinishedSyncUpTo (height : Z) : Ext unit
| SyncedWeightProof : Ext (option WeightProof)
| NewWeightProof (wp : WeightProof) (records : list BlockRecord) : Ext unit
(* wallet_state_manager and its stores *)
| ReorgRollback (height : Z) : Ext unit
| SetSyncMode (mode : bool) : Ext unit
| StateChanged (state : string) (wallet_id : option Z) : Ext unit
| Wallets : Ext (list Z)
| NewCoinState (states : list CoinState) (peer : Z) (fork_height : option Z) : Ext unit
| NewPeak (peak : NewPeakWallet) : Ext unit
| CreateMorePuzzleHashes : Ext unit
| GetAllPuzzleHashes : Ext (list Z)
| GetInterestedPuzzleHashes : Ext (list (Z * Z))
| GetCoinsToCheck (min_height : Z) : Ext (list Z)
| GetCoinsOfInterest : Ext (list Z)
| GetInterestedCoinIds : Ext (list Z)
| GetCoinRecord (name : Z) : Ext (option WalletCoinRecord)
| ValidateWeightProof (wp : WeightProof) : Ext WpValidation
| GetForkPoint (old_proof new_proof : WeightProof) : Ext Z
(* the peer *)
| PeerClose (peer : Z) (code : option Z) : Ext unit
| RequestBlockHeader (peer : Z) (height : Z) : Ext (option HeaderBlock)
| RequestHeaderBlocks (peer : Z) (start_height end_height : Z) : Ext (option (list HeaderBlock))
| RequestProofOfWeight (peer : Z) (height : Z) (header_hash : Z) : Ext (option WeightProof)
| RequestSesHashes (peer : Z) (start_height end_height : Z) : Ext (option RespondSESInfo)
| RegisterInterestInPuzzleHash (peer : Z) (puzzle_hashes : list Z) (min_height : Z)
    : Ext (option (list CoinState))
| RegisterInterestInCoin (peer : Z) (coin_names : list Z) (min_height : Z)
    : Ext (option (list CoinState))
(* wallet_sync_utils *)
| FetchLastTxFromPeer (height : Z) (peer : Z) : Ext (option HeaderBlock)
| RequestAndValidateAdditions (peer : Z) (height header_hash puzzle_hash additions_root : Z)
    : Ext bool
| RequestAndValidateRemovals (peer : Z) (height header_hash coin_name removals_root : Z)
    : Ext bool.

(** A call together with its outcome. *)
Inductive Event : Type :=
| Called : ∀ X : Type, Ext X → Result X → Event.
Arguments Called {X} e r.

(** The environment of a [WalletNode]: the state [W] of everything outside
    it, [handle] answering each call from that state (an answer, an
    exception, or no answer at all), and the pure helpers and constants
    declared outside the source files. *)
Class Env := {
  W : Type;
  handle : ∀ X, Ext X → W → Result X * W;
  coin_name : Coin → Z;
  coin_state_get_hash : CoinState → Z;
  weight_proof_get_hash : WeightProof → Z;
  filter_coin_states : list CoinState → Z → list CoinState;
  clear_after_height : PeerRequestCache → Z → PeerRequestCache;
  can_use_peer_request_cache : CoinState → PeerRequestCache → option Z → bool;
  AugSchemeMPL_verify : Z → Z → Z → bool;
  WEIGHT_PROOF_RECENT_BLOCKS : Z;
  config_testing : bool
}.
Arguments handle {_ X} e w.

(** *** The node

    The attributes of [WalletNode] the handlers read or write.  The two
    optional collaborators are recorded by presence; the lazily created
    [validation_semaphore] and [new_state_lock] likewise. *)
Record WalletNode := {
  wallet_state_manager : bool;
  server : bool;
  wallet_peers : bool;
  synced_peers : gset Z;
  valid_wp_cache : gmap Z WpValidation;
  untrusted_caches : gmap Z PeerRequestCache;
  race_cache : gmap Z (gset CoinState);
  race_cache_hashes : list (Z * Z);
  _node_peaks : gmap Z (Z * Z);
  validation_semaphore : bool;
  new_state_lock : bool;
  local_node_synced : bool
}.

Definition LONG_SYNC_THRESHOLD : Z := 200.

(** [WalletNode.__init__] followed by a successful [_start]. *)
Definition started_node : WalletNode :=
  {| wallet_state_manager := true; server := true; wallet_peers := false;
     synced_peers := ∅; valid_wp_cache := ∅; untrusted_caches := ∅;
     race_cache := ∅; race_cache_hashes := []; _node_peaks := ∅;
     validation_semaphore := false; new_state_lock := false;
     local_node_synced := false |}.

Definition set_wallet_peers (v : bool) (n : WalletNode) : WalletNode :=
  {| wallet_state_manager := wallet_state_manager n; server := server n;
     wallet_peers := v; synced_peers := synced_peers n;
     valid_wp_cache := valid_wp_cache n; untrusted_caches := untrusted_caches n;
     race_cache := race_cache n; race_cache_hashes := race_cache_hashes n;
     _node_peaks := _node_peaks n; validation_semaphore := validation_semaphore n;
     new_state_lock := new_state_lock n; local_node_synced := local_node_synced n |}.

Definition set_synced_peers (v : gset Z) (n : WalletNode) : WalletNode :=
  {| wallet_state_manager := wallet_state_manager n; server := server n;
     wallet_peers := wallet_peers n; synced_peers := v;
     valid_wp_cache := valid_wp_cache n; untrusted_caches := untrusted_caches n;
     race_cache := race_cache n; race_cache_hashes := race_cache_hashes n;
     _node_peaks := _node_peaks n; validation_semaphore := validation_semaphore n;
     new_state_lock := new_state_lock n; local_node_synced := local_node_synced n |}.

Definition set_valid_wp_cache (v : gmap Z WpValidation) (n : WalletNode) : WalletNode :=
  {| wallet_state_manager := wallet_state_manager n; server := server n;
     wallet_peers := wallet_peers n; synced_peers := synced_peers n;
     valid_wp_cache := v; untrusted_caches := untrusted_caches n;
     race_cache := race_cache n; race_cache_hashes := race_cache_hashes n;
     _node_peaks := _node_peaks n; validation_semaphore := validation_semaphore n;
     new_state_lock := new_state_lock n; local_node_synced := local_node_synced n |}.

Definition set_untrusted_caches (v : gmap Z PeerRequestCache) (n : WalletNode) : WalletNode :=
  {| wallet_state_manager := wallet_state_manager n; server := server n;
     wallet_peers := wallet_peers n; synced_peers := synced_peers n;
     valid_wp_cache := valid_wp_cache n; untrusted_caches := v;
     race_cache := race_cache n; race_cache_hashes := race_cache_hashes n;
     _node_peaks := _node_peaks n; validation_semaphore := validation_semaphore n;
     new_state_lock := new_state_lock n; local_node_synced := local_node_synced n |}.

Definition set_race_cache (v : gmap Z (gset CoinState)) (n : WalletNode) : WalletNode :=
  {| wallet_state_manager := wallet_state_manager n; server := server n;
     wallet_peers := wallet_peers n; synced_peers := synced_peers n;
     valid_wp_cache := valid_wp_cache n; untrusted_caches := untrusted_caches n;
     race_cache := v; race_cache_hashes := race_cache_hashes n;
     _node_peaks := _node_peaks n; validation_semaphore := validation_semaphore n;
     new_state_lock := new_state_lock n; local_node_synced := local_node_synced n |}.

Definition set_race_cache_hashes (v : list (Z * Z)) (n : WalletNode) : WalletNode :=
  {| wallet_state_manager := wallet_state_manager n; server := server n;
     wallet_peers := wallet_peers n; synced_peers := synced_peers n;
     valid_wp_cache := valid_wp_cache n; untrusted_caches := untrusted_caches n;
     race_cache := race_cache n; race_cache_hashes := v;
     _node_peaks := _node_peaks n; validation_semaphore := validation_semaphore n;
     new_state_lock := new_state_lock n; local_node_synced := local_node_synced n |}.

Definition set_node_peaks (v : gmap Z (Z * Z)) (n : WalletNode) : WalletNode :=
  {| wallet_state_manager := wallet_state_manager n; server := server n;
     wallet_peers := wallet_peers n; synced_peers := synced_peers n;
     valid_wp_cache := valid_wp_cache n; untrusted_caches := untrusted_caches n;
     race_cache := race_cache n; race_cache_hashes := race_cache_hashes n;
     _node_peaks := v; validation_semaphore := validation_semaphore n;
     new_state_lock := new_state_lock n; local_node_synced := local_node_synced n |}.

Definition set_validation_primitives (n : WalletNode) : WalletNode :=
  {| wallet_state_manager := wallet_state_manager n; server := server n;
     wallet_peers := wallet_peers n; synced_peers := synced_peers n;
     valid_wp_cache := valid_wp_cache n; untrusted_caches := untrusted_caches n;
     race_cache := race_cache n; race_cache_hashes := race_cache_hashes n;
     _node_peaks := _node_peaks n; validation_semaphore := true;
     new_state_lock := true; local_node_synced := local_node_synced n |}.

Definition set_local_node_synced (v : bool) (n : WalletNode) : WalletNode :=
  {| wallet_state_manager := wallet_state_manager n; server := server n;
     wallet_peers := wallet_peers n; synced_peers := synced_peers n;
     valid_wp_cache := valid_wp_cache n; untrusted_caches := untrusted_caches n;
     race_cache := race_cache n; race_cache_hashes := race_cache_hashes n;
     _node_peaks := _node_peaks n; validation_semaphore := validation_semaphore n;
     new_state_lock := new_state_lock n; local_node_synced := v |}.

Section Handlers.
Context `{env : Env}.

(** *** The monad of a handler

    A handler runs on the node, the state of the collaborators and the log
    of the calls made so far, and ends with a value, with an exception, or
    not at all ([OutOfFuel]: a loop or a call that does not come back). *)
Record State := { node : WalletNode; world : W; trace : list Event }.

Definition M (A : Type) : Type := State → Result A * State.

Definition ret {A} (a : A) : M A := λ s, (Ok a, s).

Definition bind {A B} (m : M A) (k : A → M B) : M B :=
  λ s, match m s with
       | (Ok a, s') => k a s'
       | (Raise e, s') => (Raise e, s')
       | (OutOfFuel, s') => (OutOfFuel, s')
       end.

Definition raise {A} (e : exn) : M A := λ s, (Raise e, s).

Definition out_of_fuel {A} : M A := λ s, (OutOfFuel, s).

Definition get_node : M WalletNode := λ s, (Ok (node s), s).

Definition modify_node (f : WalletNode → WalletNode) : M unit :=
  λ s, (Ok tt, {| node := f (node s); world := world s; trace := trace s |}).

(** A call to a collaborator, logged with its outcome. *)
Definition call {X} (e : Ext X) : M X :=
  λ s, let '(r, w) := handle e (world s) in
       (r, {| node := node s; world := w; trace := trace s ++ [Called e r] |}).

(** [assert cond]. *)
Definition assert (cond : bool) : M unit :=
  if cond then ret tt else raise AssertionError.

(** [try: body / except Exception: handler]. *)
Definition try_except {A} (body : M A) (handler : exn → M A) : M A :=
  λ s, match body s with
       | (Raise e, s') => handler e s'
       | other => other
       end.

(** [try: body / finally: cleanup]; also the exit of a [with] block. *)
Definition try_finally {A} (body : M A) (cleanup : M unit) : M A :=
  λ s, match body s with
       | (Ok a, s') =>
           match cleanup s' with
           | (Ok _, s'') => (Ok a, s'')
           | (Raise e, s'') => (Raise e, s'')
           | (OutOfFuel, s'') => (OutOfFuel, s'')
           end
       | (Raise e, s') =>
           match cleanup s' with
           | (Ok _, s'') => (Raise e, s'')
           | (Raise e', s'') => (Raise e', s'')
           | (OutOfFuel, s'') => (OutOfFuel, s'')
           end
       | (OutOfFuel, s') => (OutOfFuel, s')
       end.

End Handlers.

Notation "'let*' x := m 'in' k" := (bind m (λ x, k))
  (at level 10, x pattern, m at level 100, k at level 200).
Notation "m ;; k" := (bind m (λ _, k))
  (at level 100, k at level 200, right associativity).

Section Handlers2.
Context `{env : Env}.

(** [async with lock: body]. *)
Definition with_lock {A} (l : lock) (body : M A) : M A :=
  call (LockAcquire l) ;;
  try_finally body (call (LockRelease l)).

(** [for x in xs: body x]. *)
Fixpoint for_each {A} (xs : list A) (body : A → M unit) : M unit :=
  match xs with
  | [] => ret tt
  | x :: xs' => body x ;; for_each xs' body
  end.

(** [is_trusted]. *)
Definition is_trusted (peer : Z) : M bool :=
  let* n := get_node in
  assert (server n) ;;
  call (IsTrustedPeer peer).

(** The cache object of a peer, by the key it is stored under. *)
Definition cache_of (peer : Z) (n : WalletNode) : PeerRequestCache :=
  default empty_cache (untrusted_caches n !! peer).

Definition set_cache (peer : Z) (c : PeerRequestCache) : M unit :=
  modify_node (λ n, set_untrusted_caches (<[peer := c]> (untrusted_caches n)) n).

(** [get_cache_for_peer]: the cache is created on first use. *)
Definition get_cache_for_peer (peer : Z) : M PeerRequestCache :=
  let* n := get_node in
  match untrusted_caches n !! peer with
  | Some c => ret c
  | None => set_cache peer empty_cache ;; ret empty_cache
  end.

(** [rollback_request_caches]. *)
Definition rollback_request_caches (reorg_height : Z) : M unit :=
  modify_node (λ n,
    set_untrusted_caches ((λ c, clear_after_height c reorg_height) <$> untrusted_caches n) n).

(** [update_ui]. *)
Definition update_ui : M unit :=
  let* wallets := call Wallets in
  for_each wallets (λ wallet_id,
    call (StateChanged "coin_removed" (Some wallet_id)) ;;
    call (StateChanged "coin_added" (Some wallet_id))).

(** [subscribe_to_phs]. *)
Definition subscribe_to_phs (puzzle_hashes : list Z) (peer : Z) (syncing : option bool)
    (min_height : Z) (fork_height : option Z) : M (list CoinState) :=
  let* n := get_node in
  assert (wallet_state_manager n) ;;
  let* trusted := is_trusted peer in
  let* all_coins_state := call (RegisterInterestInPuzzleHash peer puzzle_hashes min_height) in
  match all_coins_state with
  | Some coin_states =>
      if negb trusted && bool_decide (syncing = Some false) then
        match fork_height with
        | None => raise AssertionError
        | Some fh => ret (filter_coin_states coin_states fh)
        end
      else ret coin_states
  | None => ret []
  end.

(** [subscribe_to_coin_updates]. *)
Definition subscribe_to_coin_updates (coin_names : list Z) (peer : Z) (syncing : option bool)
    (min_height : Z) (fork_height : option Z) : M (list CoinState) :=
  let* trusted := is_trusted peer in
  let* all_coins_state := call (RegisterInterestInCoin peer coin_names min_height) in
  match all_coins_state with
  | Some coin_states =>
      if negb trusted && bool_decide (syncing = Some false) then
        match fork_height with
        | None => raise AssertionError
        | Some fh => ret (filter_coin_states coin_states fh)
        end
      else ret coin_states
  | None => ret []
  end.

(** [is_peer_synced]. *)
Definition is_peer_synced (peer : Z) (height : Z) (request_time : Z) : M (option Z) :=
  let* header_response := call (RequestBlockHeader peer height) in
  assert (bool_decide (is_Some header_response)) ;;
  let* last_tx := call (FetchLastTxFromPeer height peer) in
  let* latest_timestamp :=
    match last_tx with
    | Some tx =>
        match foliage_transaction_block tx with
        | Some ftb => ret (Some (timestamp ftb))
        | None => raise AssertionError
        end
    | None => ret None
    end in
  match latest_timestamp with
  | None => ret None
  | Some ts =>
      if negb config_testing && bool_decide (ts < request_time - 600) then ret None
      else ret (Some ts)
  end.

(** [add_state_to_race_cache]. *)
Definition add_state_to_race_cache (header_hash : Z) (height : Z) (coin_state : CoinState)
    : M unit :=
  let delete_threshold := 100 in
  let* n := get_node in
  for_each (race_cache_hashes n) (λ '(rc_height, rc_hh),
    if bool_decide (height - delete_threshold >= rc_height) then
      let* n := get_node in
      match race_cache n !! rc_hh with
      | Some _ => modify_node (λ n, set_race_cache (delete rc_hh (race_cache n)) n)
      | None => raise KeyError
      end
    else ret tt) ;;
  modify_node (λ n,
    set_race_cache_hashes
      (filter (λ '(rc_height, rc_hh), height - delete_threshold < rc_height)
              (race_cache_hashes n)) n) ;;
  let* n := get_node in
  (if bool_decide (is_Some (race_cache n !! header_hash)) then ret tt
   else modify_node (λ n, set_race_cache (<[header_hash := ∅]> (race_cache n)) n)) ;;
  modify_node (λ n,
    set_race_cache
      (<[header_hash := {[coin_state]} ∪ default ∅ (race_cache n !! header_hash)]> (race_cache n)) n).

(** [disconnect_and_stop_wpeers]. *)
Definition disconnect_and_stop_wpeers : M unit :=
  let* connections := call GetFullNodeConnections in
  (if bool_decide (Z.of_nat (length connections) > 1) then
     let* connections := call GetFullNodeConnections in
     for_each connections (λ peer,
       let* trusted := is_trusted peer in
       if trusted then ret tt else call (PeerClose peer None))
   else ret tt) ;;
  let* n := get_node in
  if wallet_peers n then
    call WalletPeersEnsureIsClosed ;;
    modify_node (set_wallet_peers false)
  else ret tt.

(** [get_puzzle_hashes_to_subscribe]. *)
Definition get_puzzle_hashes_to_subscribe : M (list Z) :=
  let* n := get_node in
  assert (wallet_state_manager n) ;;
  let* all_puzzle_hashes := call GetAllPuzzleHashes in
  let* interested := call GetInterestedPuzzleHashes in
  ret (all_puzzle_hashes ++ (fst <$> interested)).

(** [get_coin_ids_to_subscribe]. *)
Definition get_coin_ids_to_subscribe (min_height : Z) : M (list Z) :=
  let* n := get_node in
  assert (wallet_state_manager n) ;;
  let* all_coins := call (GetCoinsToCheck min_height) in
  let* removed := call GetCoinsOfInterest in
  let* interested := call GetInterestedCoinIds in
  ret (elements ((list_to_set all_coins ∪ list_to_set removed ∪ list_to_set interested) : gset Z)).

(** Python's [l[i]]: a negative index counts from the end. *)
Definition py_index {A} (l : list A) (i : Z) : M A :=
  let j := if bool_decide (i < 0) then Z.of_nat (length l) + i else i in
  if bool_decide (j < 0) then raise IndexError
  else match l !! Z.to_nat j with
       | Some x => ret x
       | None => raise IndexError
       end.

(** [range(a, b, step)] for a positive step. *)
Definition py_range (a b step : Z) : list Z :=
  (λ k, a + step * Z.of_nat k) <$> seq 0 (Z.to_nat ((b - a + step - 1) / step)).

(** [uint32(z)] of [chia.util.ints] refuses what does not fit 32 bits. *)
Definition uint32 (z : Z) : M Z :=
  if bool_decide (0 <= z < 2 ^ 32) then ret z else raise ValueError.

(** [chunks] of [chia.full_node.weight_proof]: consecutive slices of
    [chunk_size] elements. *)
Fixpoint chunks_aux {A} (fuel : nat) (l : list A) (chunk_size : nat) : list (list A) :=
  match fuel, l with
  | _, [] => []
  | O, _ => []
  | S fuel', _ => take chunk_size l :: chunks_aux fuel' (drop chunk_size l) chunk_size
  end.

Definition chunks {A} (l : list A) (chunk_size : nat) : list (list A) :=
  chunks_aux (length l) l (Nat.max 1 chunk_size).

Definition modify_cache (peer : Z) (f : PeerRequestCache → PeerRequestCache) : M unit :=
  modify_node (λ n, set_untrusted_caches (<[peer := f (cache_of peer n)]> (untrusted_caches n)) n).

Definition set_blocks (v : gmap Z HeaderBlock) (c : PeerRequestCache) : PeerRequestCache :=
  {| blocks := v; block_requests := block_requests c;
     ses_requests := ses_requests c; states_validated := states_validated c |}.

Definition set_block_requests (v : gmap (Z * Z) (list HeaderBlock)) (c : PeerRequestCache)
    : PeerRequestCache :=
  {| blocks := blocks c; block_requests := v;
     ses_requests := ses_requests c; states_validated := states_validated c |}.

Definition set_ses_requests (v : gmap Z (option RespondSESInfo)) (c : PeerRequestCache)
    : PeerRequestCache :=
  {| blocks := blocks c; block_requests := block_requests c;
     ses_requests := v; states_validated := states_validated c |}.

Definition set_states_validated (v : gmap Z CoinState) (c : PeerRequestCache)
    : PeerRequestCache :=
  {| blocks := blocks c; block_requests := block_requests c;
     ses_requests := ses_requests c; states_validated := v |}.

(** The search of [validate_block_inclusion] for the sub-epoch whose
    reward-chain hash is [ses_0]: [current_ses] and [inserted]. *)
Fixpoint find_sub_epoch (all : list SubEpochData) (idx : nat) (rest : list SubEpochData)
    (ses_0 : Z) : option (SubEpochData * option SubEpochData) :=
  match rest with
  | [] => None
  | ses :: rest' =>
      if bool_decide (Z.of_nat idx > Z.of_nat (length all) - 3) then None
      else if bool_decide (reward_chain_hash ses = ses_0) then Some (ses, all !! (idx + 2)%nat)
      else find_sub_epoch all (S idx) rest' ses_0
  end.

(** The inner loop over the reversed finished sub-slots of a block. *)
Fixpoint slots_linked (reversed_slots : list EndOfSubSlotBundle) : bool :=
  match reversed_slots with
  | slot :: rest =>
      match rest with
      | next :: _ =>
          bool_decide (reward_chain_get_hash next = end_of_slot_vdf_challenge slot)
          && slots_linked rest
      | [] => true
      end
  | [] => true
  end.

(** The last loop of [validate_block_inclusion] over [reversed_blocks],
    from position [idx]; [total] is [len(reversed_blocks)]. *)
Fixpoint blocks_linked (block : HeaderBlock) (total : nat) (idx : nat)
    (reversed_blocks : list HeaderBlock) : bool :=
  match reversed_blocks with
  | [] => true
  | en_block :: rest =>
      let next := match rest with
                  | [] => block
                  | b :: _ => b
                  end in
      let next_block_rc_hash := rcb_get_hash (reward_chain_block next) in
      let prev_hash := hb_header_hash next in
      if negb (bool_decide (prev_header_hash en_block = prev_hash)) then false
      else if negb (match rev (finished_sub_slots en_block) with
                    | [] =>
                        bool_decide (next_block_rc_hash
                                     = reward_chain_ip_vdf_challenge (reward_chain_block en_block))
                    | slot :: slots =>
                        slots_linked (slot :: slots)
                        && bool_decide (next_block_rc_hash
                                        = end_of_slot_vdf_challenge (List.last slots slot))
                    end) then false
      else if bool_decide (Z.of_nat idx > Z.of_nat total - 50)
              && negb (AugSchemeMPL_verify (plot_public_key (reward_chain_block en_block))
                                           (foliage_block_data_get_hash en_block)
                                           (foliage_block_data_signature en_block)) then false
      else blocks_linked block total (S idx) rest
  end.

(** The header-block fetches of [validate_block_inclusion], one per
    32-block batch; [None] is the [return False] of a missing response. *)
Fixpoint fetch_blocks (peer : Z) (start end_ : Z) (batches : list Z)
    (acc : list HeaderBlock) : M (option (list HeaderBlock)) :=
  match batches with
  | [] => ret (Some acc)
  | i :: batches' =>
      let* ui := uint32 i in
      let request_start := Z.min ui end_ in
      let* ui31 := uint32 (i + 31) in
      let request_end := Z.min ui31 end_ in
      let* n := get_node in
      let* res_h_blocks :=
        match block_requests (cache_of peer n) !! (request_start, request_end) with
        | Some cached => ret (Some cached)
        | None =>
            let* res := call (RequestHeaderBlocks peer request_start request_end) in
            match res with
            | None => ret None
            | Some r =>
                modify_cache peer (λ c,
                  set_block_requests (<[(request_start, request_end) := r]> (block_requests c)) c) ;;
                ret (Some r)
            end
        end in
      match res_h_blocks with
      | None => ret None
      | Some r =>
          fetch_blocks peer start end_ batches'
            (acc ++ filter (λ bl, hb_height bl >= start) r)
      end
  end.

(** [validate_block_inclusion]. *)
Definition validate_block_inclusion (block : HeaderBlock) (peer : Z) : M bool :=
  let* n := get_node in
  assert (wallet_state_manager n) ;;
  let* has_height := call (ContainsHeight (hb_height block)) in
  let* stored :=
    (if has_height then
       let* stored_hash := call (HeightToHash (hb_height block)) in
       let* stored_record := call (TryBlockRecord stored_hash) in
       match stored_record with
       | Some r => ret (bool_decide (br_header_hash r = hb_header_hash block))
       | None => ret false
       end
     else ret false) in
  if stored then ret true
  else
    let* weight_proof := call SyncedWeightProof in
    match weight_proof with
    | None => ret false
    | Some wp =>
        let* first_recent := py_index (recent_chain_data wp) 0 in
        if bool_decide (hb_height block >= hb_height first_recent) then
          let index := hb_height block - hb_height first_recent in
          let* at_index := py_index (recent_chain_data wp) index in
          ret (bool_decide (hb_header_hash at_index = hb_header_hash block))
        else
          let start := hb_height block + 1 in
          let first_height_recent := hb_height first_recent in
          let* range :=
            (if bool_decide (start > first_height_recent - 1000) then
               ret (Some (true, first_height_recent, None))
             else
               let* n := get_node in
               let* res_ses :=
                 match ses_requests (cache_of peer n) !! hb_height block with
                 | Some cached => ret cached
                 | None =>
                     let* res :=
                       call (RequestSesHashes peer (hb_height block) (hb_height block + 32)) in
                     modify_cache peer (λ c,
                       set_ses_requests (<[hb_height block := res]> (ses_requests c)) c) ;;
                     ret res
                 end in
               match res_ses with
               | None => raise AttributeError
               | Some ses_info =>
                   let* ses_0 := py_index (ses_reward_chain_hash ses_info) 0 in
                   let* heights_0 := py_index (ses_heights ses_info) 0 in
                   let* last_height := py_index heights_0 (-1) in
                   match find_sub_epoch (sub_epochs wp) 0 (sub_epochs wp) ses_0 with
                   | None => ret None
                   | Some (_, inserted) => ret (Some (false, last_height, inserted))
                   end
               end) in
          match range with
          | None => ret false
          | Some (compare_to_recent, end_, inserted) =>
              let* fetched :=
                fetch_blocks peer start end_ (py_range (start - start `mod` 32) (end_ + 1) 32) [] in
              match fetched with
              | None => ret false
              | Some blocks_ =>
                  let* mismatch_recent :=
                    (if compare_to_recent then
                       let* last_block := py_index blocks_ (-1) in
                       ret (negb (bool_decide (hb_header_hash first_recent
                                               = hb_header_hash last_block)))
                     else ret false) in
                  if mismatch_recent then ret false
                  else
                    let reversed_blocks := rev blocks_ in
                    let* mismatch_inserted :=
                      (if compare_to_recent then ret false
                       else
                         let* first_reversed := py_index reversed_blocks 0 in
                         let* last_slot := py_index (finished_sub_slots first_reversed) (-1) in
                         match inserted with
                         | None => ret true
                         | Some ins =>
                             ret (negb (bool_decide (reward_chain_get_hash last_slot
                                                     = reward_chain_hash ins)))
                         end) in
                    if mismatch_inserted then ret false
                    else ret (blocks_linked block (length reversed_blocks) 0 reversed_blocks)
              end
          end
    end.

(** The header block of [validate_received_state_from_peer] at a height:
    from the peer's cache when [use_cache] allows, else requested from the
    peer and stored in the cache.  [check_height] is the [assert] of the
    two spent-height fetches. *)
Definition header_block_at (peer : Z) (height : Z) (use_cache : bool) (check_height : bool)
    : M HeaderBlock :=
  let* n := get_node in
  match (if use_cache then blocks (cache_of peer n) !! height else None) with
  | Some hb => ret hb
  | None =>
      let* res := call (RequestHeaderBlocks peer height height) in
      match res with
      | None => raise AttributeError
      | Some header_blocks =>
          let* hb := py_index header_blocks 0 in
          assert (negb check_height || bool_decide (hb_height hb = height)) ;;
          modify_cache peer (λ c, set_blocks (<[height := hb]> (blocks c)) c) ;;
          ret hb
      end
  end.

(** The end of [validate_received_state_from_peer], once the additions
    proof of the creation block is accepted: the inclusion of the creation
    block, and the removal proofs with the inclusion of their blocks. *)
Definition validate_inclusions (coin_state : CoinState) (peer : Z)
    (current : option WalletCoinRecord) (state_block : HeaderBlock) : M bool :=
  let spent_height := spent_height coin_state in
  let* validated := validate_block_inclusion state_block peer in
  if negb validated then ret false
  else
    let* unspent_ok :=
      match spent_height, current with
      | None, Some c =>
          if bool_decide (spent_block_height c ≠ 0) then
            (* [current.spent_block_height != spent_height] holds, the spent
               height being [None]: reorg_mode is set and the cache is not
               consulted *)
            let* spent_state_block :=
              header_block_at peer (spent_block_height c) false true in
            match foliage_transaction_block spent_state_block with
            | None => raise AssertionError
            | Some sftb =>
                let* validate_removals_result :=
                  call (RequestAndValidateRemovals peer (spent_block_height c)
                          (hb_header_hash spent_state_block)
                          (coin_name (coin coin_state)) (removals_root sftb)) in
                if negb validate_removals_result then
                  call (PeerClose peer (Some 9999)) ;; ret false
                else validate_block_inclusion spent_state_block peer
            end
          else ret true
      | _, _ => ret true
      end in
    if negb unspent_ok then ret false
    else
      let* spent_ok :=
        match spent_height with
        | Some sh =>
            let* spent_state_block := header_block_at peer sh true true in
            match foliage_transaction_block spent_state_block with
            | None => raise AssertionError
            | Some sftb =>
                let* validate_removals_result :=
                  call (RequestAndValidateRemovals peer (hb_height spent_state_block)
                          (hb_header_hash spent_state_block)
                          (coin_name (coin coin_state)) (removals_root sftb)) in
                if negb validate_removals_result then
                  call (PeerClose peer (Some 9999)) ;; ret false
                else validate_block_inclusion spent_state_block peer
            end
        | None => ret true
        end in
      if negb spent_ok then ret false
      else
        modify_cache peer (λ c,
          set_states_validated
            (<[coin_state_get_hash coin_state := coin_state]> (states_validated c)) c) ;;
        ret true.

(** [validate_received_state_from_peer].  The cache argument is the cache
    object of [peer], as at every call site. *)
Definition validate_received_state_from_peer (coin_state : CoinState) (peer : Z)
    (fork_height : option Z) : M bool :=
  let* n := get_node in
  assert (wallet_state_manager n) ;;
  if can_use_peer_request_cache coin_state (cache_of peer n) fork_height then ret true
  else
    let spent_height := spent_height coin_state in
    let confirmed_height := created_height coin_state in
    let* current := call (GetCoinRecord (coin_name (coin coin_state))) in
    let current_spent_height :=
      match current with
      | Some c => if bool_decide (spent_block_height c ≠ 0) then Some (spent_block_height c)
                  else None
      | None => None
      end in
    if match current with
       | Some c => bool_decide (current_spent_height = spent_height)
                   && bool_decide (Some (confirmed_block_height c) = confirmed_height)
       | None => false
       end
    then ret true
    else
      let reorg_mode :=
        match current, confirmed_height with
        | Some _, None => true
        | _, _ => false
        end in
      let confirmed_height :=
        match current, confirmed_height with
        | Some c, None => Some (confirmed_block_height c)
        | _, _ => confirmed_height
        end in
      match confirmed_height with
      | None => ret false
      | Some confirmed_height =>
          let* state_block := header_block_at peer confirmed_height (negb reorg_mode) false in
          match foliage_transaction_block state_block with
          | None => raise AssertionError
          | Some ftb =>
              let* validate_additions_result :=
                call (RequestAndValidateAdditions peer (hb_height state_block)
                        (hb_header_hash state_block) (puzzle_hash (coin coin_state))
                        (additions_root ftb)) in
              if negb validate_additions_result then
                call (PeerClose peer (Some 9999)) ;; ret false
              else validate_inclusions coin_state peer current state_block
          end
      end.

(** The coroutine [receive_and_validate] of [receive_state_from_peer]. *)
Definition receive_and_validate (trusted : bool) (peer : Z) (fork_height height : option Z)
    (header_hash : option Z) (inner_state : CoinState) : M unit :=
  let* n := get_node in
  assert (wallet_state_manager n) ;;
  assert (validation_semaphore n) ;;
  try_except
    ((match header_hash with
      | Some hh =>
          match height with
          | Some h => add_state_to_race_cache hh h inner_state
          | None => raise AssertionError
          end
      | None => ret tt
      end) ;;
     let* valid :=
       (if trusted then ret true
        else validate_received_state_from_peer inner_state peer fork_height) in
     if valid then
       let* n := get_node in
       assert (new_state_lock n) ;;
       call (NewCoinState [inner_state] peer fork_height)
     else ret tt)
    (λ _, ret tt).

(** [receive_state_from_peer].  The coroutines gathered at the end are run
    one after the other, in the order of [items]. *)
Definition receive_state_from_peer (items : list CoinState) (peer : Z)
    (fork_height height : option Z) (header_hash : option Z) : M unit :=
  let* n := get_node in
  assert (wallet_state_manager n) ;;
  let* trusted := is_trusted peer in
  modify_node set_validation_primitives ;;
  (match fork_height, height with
   | Some fh, Some h =>
       if trusted && bool_decide (fh ≠ h - 1) then call (ReorgRollback fh) else ret tt
   | _, _ => ret tt
   end) ;;
  let* cache := get_cache_for_peer peer in
  (match fork_height with
   | Some fh => set_cache peer (clear_after_height cache fh)
   | None => ret tt
   end) ;;
  for_each items (receive_and_validate trusted peer fork_height height header_hash) ;;
  update_ui.

(** [state_update_received]. *)
Definition state_update_received (request : CoinStateUpdate) (peer : Z) : M unit :=
  let* n := get_node in
  assert (wallet_state_manager n) ;;
  assert (server n) ;;
  with_lock (NewPeakLock 1)
    (with_lock WalletStateManagerLock
       (receive_state_from_peer (csu_items request) peer (Some (csu_fork_height request))
          (Some (csu_height request)) (Some (csu_peak_hash request)))).

(** The statement that ends [long_sync] (with [target_height]) and
    [new_peak_wallet] (with [peak.height]): [finished_sync_up_to] is set
    to a height only if the height is greater than the stored one. *)
Definition advance_finished_sync_up_to (height : Z) : M unit :=
  let* finished := call GetFinishedSyncUpTo in
  if bool_decide (height > finished) then call (SetFinishedSyncUpTo height)
  else ret tt.

(** The [for] loop over the chunks of puzzle hashes in [long_sync]; the
    result is [already_checked_ph]. *)
Fixpoint subscribe_ph_chunks (full_node : Z) (syncing : bool) (min_height : Z)
    (fork_height : option Z) (ph_chunks : list (list Z)) (already_checked_ph : gset Z)
    : M (gset Z) :=
  match ph_chunks with
  | [] => ret already_checked_ph
  | chunk :: ph_chunks' =>
      let* ph_update_res :=
        subscribe_to_phs (filter (λ p, p ∉ already_checked_ph) chunk)
          full_node (Some syncing) min_height fork_height in
      receive_state_from_peer ph_update_res full_node None None None ;;
      subscribe_ph_chunks full_node syncing min_height fork_height ph_chunks'
        (already_checked_ph ∪ list_to_set chunk)
  end.

(** The first [while] loop of [long_sync], over the puzzle hashes. *)
Fixpoint subscribe_all_puzzle_hashes (fuel : nat) (full_node : Z) (syncing : bool)
    (min_height : Z) (fork_height : option Z) (continue_while : bool)
    (all_puzzle_hashes : list Z) (already_checked_ph : gset Z) : M (gset Z) :=
  if negb continue_while then ret already_checked_ph
  else
    match fuel with
    | O => out_of_fuel
    | S fuel' =>
        let* already_checked_ph :=
          subscribe_ph_chunks full_node syncing min_height fork_height
            (chunks all_puzzle_hashes 1000) already_checked_ph in
        call CreateMorePuzzleHashes ;;
        let* all_puzzle_hashes := get_puzzle_hashes_to_subscribe in
        let continue_while :=
          bool_decide (Exists (λ ph, ph ∉ already_checked_ph) all_puzzle_hashes) in
        subscribe_all_puzzle_hashes fuel' full_node syncing min_height fork_height
          continue_while all_puzzle_hashes already_checked_ph
    end.

(** The [for] loop over the chunks of coin ids in [long_sync]. *)
Fixpoint subscribe_coin_chunks (full_node : Z) (syncing : bool) (min_height : Z)
    (fork_height : option Z) (one_k_chunks : list (list Z)) (already_checked_coin_ids : gset Z)
    : M (gset Z) :=
  match one_k_chunks with
  | [] => ret already_checked_coin_ids
  | chunk :: one_k_chunks' =>
      let* c_update_res :=
        subscribe_to_coin_updates chunk full_node (Some syncing) min_height fork_height in
      receive_state_from_peer c_update_res full_node None None None ;;
      subscribe_coin_chunks full_node syncing min_height fork_height one_k_chunks'
        (already_checked_coin_ids ∪ list_to_set chunk)
  end.

(** The second [while] loop of [long_sync], over the coin ids. *)
Fixpoint subscribe_all_coin_ids (fuel : nat) (full_node : Z) (syncing : bool)
    (min_height : Z) (fork_height : option Z) (continue_while : bool)
    (all_coin_ids : list Z) (already_checked_coin_ids : gset Z) : M (gset Z) :=
  if negb continue_while then ret already_checked_coin_ids
  else
    match fuel with
    | O => out_of_fuel
    | S fuel' =>
        let* already_checked_coin_ids :=
          subscribe_coin_chunks full_node syncing min_height fork_height
            (chunks all_coin_ids 1000) already_checked_coin_ids in
        let* all_coin_ids := get_coin_ids_to_subscribe min_height in
        let continue_while :=
          bool_decide (Exists (λ coin_id, coin_id ∉ already_checked_coin_ids) all_coin_ids) in
        subscribe_all_coin_ids fuel' full_node syncing min_height fork_height
          continue_while all_coin_ids already_checked_coin_ids
    end.

(** [long_sync]. *)
Definition long_sync (fuel : nat) (target_height : Z) (full_node : Z) (syncing : bool)
    (fork_height : option Z) : M unit :=
  let* trusted := is_trusted full_node in
  let* n := get_node in
  assert (wallet_state_manager n) ;;
  let* current_height := call GetFinishedSyncUpTo in
  let* min_height := uint32 (Z.max 0 (current_height - 32)) in
  (if syncing then
     call (ReorgRollback min_height) ;;
     rollback_request_caches min_height ;;
     update_ui
   else ret tt) ;;
  let* all_puzzle_hashes := get_puzzle_hashes_to_subscribe in
  subscribe_all_puzzle_hashes fuel full_node syncing min_height fork_height
    true all_puzzle_hashes ∅ ;;
  let* all_coin_ids := get_coin_ids_to_subscribe min_height in
  subscribe_all_coin_ids fuel full_node syncing min_height fork_height
    false all_coin_ids ∅ ;;
  advance_finished_sync_up_to target_height ;;
  (if trusted then modify_node (set_local_node_synced true) else ret tt) ;;
  call (StateChanged "new_block" None) ;;
  modify_node (λ n, set_synced_peers ({[full_node]} ∪ synced_peers n) n) ;;
  update_ui.

(** The [while] loop of [wallet_short_sync_backtrack]: headers are fetched
    backwards until one whose predecessor the local chain contains, or
    height 0.  The result is [(blocks, fork_height)], [blocks] in the
    order they were appended. *)
Fixpoint fetch_back (fuel : nat) (peer : Z) (top : HeaderBlock)
    (blocks_ : list HeaderBlock) (fork_height : Z) : M (list HeaderBlock * Z) :=
  let* known := call (ContainsBlock (prev_header_hash top)) in
  if negb known && bool_decide (hb_height top > 0) then
    match fuel with
    | O => out_of_fuel
    | S fuel' =>
        let* response_prev := call (RequestBlockHeader peer (hb_height top - 1)) in
        match response_prev with
        | None => raise RuntimeError
        | Some prev_head =>
            fetch_back fuel' peer prev_head (blocks_ ++ [prev_head]) (hb_height prev_head - 1)
        end
    end
  else ret (blocks_, fork_height).

(** [wallet_short_sync_backtrack]. *)
Definition wallet_short_sync_backtrack (fuel : nat) (header_block : HeaderBlock) (peer : Z)
    : M Z :=
  let* n := get_node in
  assert (wallet_state_manager n) ;;
  let* peak := call GetPeakBlock in
  let* known := call (ContainsBlock (prev_header_hash header_block)) in
  let fork_height := if known then hb_height header_block - 1 else 0 in
  let* (blocks_, fork_height) := fetch_back fuel peer header_block [header_block] fork_height in
  let blocks_ := rev blocks_ in
  let* peak_height := call GetPeakHeight in
  (if bool_decide (fork_height < peak_height) then
     call (ReorgRollback fork_height) ;;
     update_ui
   else ret tt) ;;
  rollback_request_caches fork_height ;;
  (match peak with
   | Some pk => assert (bool_decide (hb_weight header_block >= hb_weight pk))
   | None => ret tt
   end) ;;
  for_each blocks_ (λ block,
    let* (res, err) := call (ReceiveBlock block) in
    match res with
    | INVALID_BLOCK => raise ValueError
    | _ => ret tt
    end) ;;
  ret fork_height.

(** [fetch_and_validate_the_weight_proof]. *)
Definition fetch_and_validate_the_weight_proof (peer : Z) (peak : HeaderBlock)
    : M (bool * option WeightProof * list SubEpochSummary * list BlockRecord) :=
  let* n := get_node in
  assert (wallet_state_manager n) ;;
  let* weight_proof_response :=
    call (RequestProofOfWeight peer (hb_height peak) (hb_header_hash peak)) in
  match weight_proof_response with
  | None => ret (false, None, [], [])
  | Some weight_proof =>
      let* last := py_index (recent_chain_data weight_proof) (-1) in
      if bool_decide (rcb_height (reward_chain_block last) ≠ hb_height peak) then
        ret (false, None, [], [])
      else
        let* last := py_index (recent_chain_data weight_proof) (-1) in
        if bool_decide (rcb_weight (reward_chain_block last) ≠ hb_weight peak) then
          ret (false, None, [], [])
        else
          let* n := get_node in
          let* (valid, fork_point, summaries, block_records) :=
            match valid_wp_cache n !! weight_proof_get_hash weight_proof with
            | Some cached => ret cached
            | None =>
                let* (valid, fork_point, summaries, block_records) :=
                  call (ValidateWeightProof weight_proof) in
                (if valid then
                   modify_node (λ n,
                     set_valid_wp_cache
                       (<[weight_proof_get_hash weight_proof :=
                            (valid, fork_point, summaries, block_records)]> (valid_wp_cache n)) n)
                 else ret tt) ;;
                ret (valid, fork_point, summaries, block_records)
            end in
          ret (valid, Some weight_proof, summaries, block_records)
  end.

(** [uint64(z)] of [chia.util.ints]. *)
Definition uint64 (z : Z) : M Z :=
  if bool_decide (0 <= z < 2 ^ 64) then ret z else raise ValueError.

(** The test of [new_peak_wallet] that discards a peak:
    [peak_hb is not None and peak.weight < peak_hb.weight]. *)
Definition discards (peak : NewPeakWallet) (peak_hb : option HeaderBlock) : bool :=
  match peak_hb with
  | Some hb => bool_decide (np_weight peak < hb_weight hb)
  | None => false
  end.

(** The loop of [new_peak_wallet] that applies the race cache to every
    height above the fork of the short sync. *)
Definition replay_race_cache (backtrack_fork_height : Z) (peak : NewPeakWallet) (peer : Z)
    : M unit :=
  for_each (py_range (backtrack_fork_height + 1) (np_height peak + 1) 1) (λ potential_height,
    let* h := uint32 potential_height in
    let* header_hash := call (HeightToHash h) in
    let* n := get_node in
    match race_cache n !! header_hash with
    | Some states => receive_state_from_peer (elements states) peer None None None
    | None => ret tt
    end).

(** The trusted branch of [new_peak_wallet]. *)
Definition sync_to_trusted (fuel : nat) (peak : NewPeakWallet) (peer : Z)
    (header_block : HeaderBlock) (latest_timestamp : Z) : M unit :=
  with_lock WalletStateManagerLock
    (call (SetPeakBlock header_block latest_timestamp) ;;
     disconnect_and_stop_wpeers ;;
     let* n := get_node in
     if bool_decide (peer ∉ synced_peers n) then
       long_sync fuel (np_height peak) peer true None ;;
       call (SetSyncMode false)
     else ret tt).

(** The untrusted branch with a weight proof; [true] when the handler
    returned from inside the branch. *)
Definition sync_with_weight_proof (fuel : nat) (peak : NewPeakWallet) (peer : Z)
    (header_block : HeaderBlock) (far_behind : bool) : M bool :=
  let* n := get_node in
  let syncing := far_behind || bool_decide (size (synced_peers n) = 0%nat) in
  (if syncing then call (SetSyncMode true) else ret tt) ;;
  let* returned :=
    try_except
      (let* (valid_weight_proof, weight_proof, summaries, block_records) :=
         fetch_and_validate_the_weight_proof peer header_block in
       if negb valid_weight_proof then
         (if syncing then call (SetSyncMode false) else ret tt) ;;
         call (PeerClose peer None) ;;
         ret true
       else
         match weight_proof with
         | None => raise AssertionError
         | Some wp =>
             let* old_proof := call SyncedWeightProof in
             let* fork_point :=
               match old_proof with
               | Some old => call (GetForkPoint old wp)
               | None => ret 0
               end in
             call (NewWeightProof wp block_records) ;;
             (if syncing then
                with_lock WalletStateManagerLock
                  (long_sync fuel (np_height peak) peer syncing (Some fork_point))
              else long_sync fuel (np_height peak) peer syncing (Some fork_point)) ;;
             let* synced := call SyncedWeightProof in
             let* heavier :=
               match synced with
               | None => ret true
               | Some synced_wp =>
                   let* new_last := py_index (recent_chain_data wp) (-1) in
                   let* old_last := py_index (recent_chain_data synced_wp) (-1) in
                   ret (bool_decide (hb_weight new_last > hb_weight old_last))
               end in
             (if heavier then call (NewWeightProof wp block_records) else ret tt) ;;
             ret false
         end)
      (λ _,
         (if syncing then call (SetSyncMode false) else ret tt) ;;
         call (PeerClose peer None) ;;
         ret true) in
  if returned then ret true
  else (if syncing then call (SetSyncMode false) else ret tt) ;; ret false.

(** The untrusted branch of a peer that is synced and not far behind. *)
Definition short_sync (fuel : nat) (peak : NewPeakWallet) (peer : Z)
    (header_block : HeaderBlock) : M unit :=
  with_lock WalletStateManagerLock
    (let* backtrack_fork_height := wallet_short_sync_backtrack fuel header_block peer in
     let* n := get_node in
     (if bool_decide (peer ∉ synced_peers n) then
        let* zero := uint32 0 in
        let* all_coin_ids := get_coin_ids_to_subscribe zero in
        let* phs := get_puzzle_hashes_to_subscribe in
        let* zero := uint32 0 in
        let* ph_updates := subscribe_to_phs phs peer (Some true) zero None in
        let* zero := uint32 0 in
        let* coin_updates := subscribe_to_coin_updates all_coin_ids peer (Some true) zero None in
        let* n := get_node in
        match _node_peaks n !! peer with
        | None => raise KeyError
        | Some (peer_new_peak_height, peer_new_peak_hash) =>
            receive_state_from_peer (ph_updates ++ coin_updates) peer None
              (Some peer_new_peak_height) (Some peer_new_peak_hash) ;;
            modify_node (λ n, set_synced_peers ({[peer]} ∪ synced_peers n) n)
        end
      else ret tt) ;;
     replay_race_cache backtrack_fork_height peak peer ;;
     call (SetSyncMode false) ;;
     call (StateChanged "new_block" None)).

(** The last statements of [new_peak_wallet]. *)
Definition finish_new_peak (peak : NewPeakWallet) (peer : Z) : M unit :=
  let* n := get_node in
  (if bool_decide (peer ∈ synced_peers n) then advance_finished_sync_up_to (np_height peak)
   else ret tt) ;;
  call (NewPeak peak).

(** [new_peak_wallet]. *)
Definition new_peak_wallet (fuel : nat) (peak : NewPeakWallet) (peer : Z) : M unit :=
  let* n := get_node in
  assert (wallet_state_manager n) ;;
  assert (server n) ;;
  modify_node (λ n,
    set_node_peaks (<[peer := (np_height peak, np_header_hash peak)]> (_node_peaks n)) n) ;;
  let* now := call TimeTime in
  let* request_time := uint64 now in
  let* trusted := is_trusted peer in
  let* peak_hb := call GetPeakBlock in
  if discards peak peak_hb then ret tt
  else
    with_lock (NewPeakLock 2)
      (let* peak_hb := call GetPeakBlock in
       if discards peak peak_hb then ret tt
       else
         let* n := get_node in
         if negb (wallet_state_manager n) then ret tt
         else
           let* latest_timestamp := is_peer_synced peer (np_height peak) request_time in
           match latest_timestamp with
           | None => if trusted then ret tt else call (PeerClose peer (Some 120))
           | Some latest_timestamp =>
               let* response := call (RequestBlockHeader peer (np_height peak)) in
               match response with
               | None => call (PeerClose peer (Some 120))
               | Some header_block =>
                   let* trusted_now := is_trusted peer in
                   let* returned :=
                     (if trusted_now then
                        sync_to_trusted fuel peak peer header_block latest_timestamp ;;
                        ret false
                      else
                        let* peak_height := call GetPeakHeight in
                        let far_behind :=
                          bool_decide (np_height peak - peak_height > LONG_SYNC_THRESHOLD) in
                        let* n := get_node in
                        if (bool_decide (peer ∉ synced_peers n) || far_behind)
                           && bool_decide (np_height peak >= WEIGHT_PROOF_RECENT_BLOCKS)
                        then sync_with_weight_proof fuel peak peer header_block far_behind
                        else short_sync fuel peak peer header_block ;; ret false) in
                   if returned then ret tt else finish_new_peak peak peer
               end
           end).

(** The peaks of a list of notifications, handled one after the other;
    what a handler raises is caught by the caller. *)
Definition new_peaks (fuel : nat) (peaks : list (NewPeakWallet * Z)) (s : State) : State :=
  foldl (λ s '(peak, peer), (new_peak_wallet fuel peak peer s).2) s peaks.

End Handlers2.

(** *** A small world for running the handlers

    A deterministic collaborator: a local chain, one served header per
    height, one weight proof, one answer to every subscription.  It never
    raises except for an unknown height. *)
Record Toy := {
  toy_peak : option HeaderBlock;
  toy_peak_height : Z;
  toy_known : list Z;
  toy_hashes : list (Z * Z);
  toy_finished_sync_up_to : Z;
  toy_trusted : list Z;
  toy_served : list (Z * HeaderBlock);
  toy_weight_proof : option WeightProof;
  toy_weight_proof_valid : bool;
  toy_additions_valid : bool;
  toy_coin_states : option (list CoinState);
  toy_now : Z
}.

Fixpoint assoc {A} (k : Z) (l : list (Z * A)) : option A :=
  match l with
  | [] => None
  | (k', v) :: l' => if bool_decide (k = k') then Some v else assoc k l'
  end.

Definition toy_set_finished (h : Z) (w : Toy) : Toy :=
  {| toy_peak := toy_peak w; toy_peak_height := toy_peak_height w; toy_known := toy_known w;
     toy_hashes := toy_hashes w; toy_finished_sync_up_to := h; toy_trusted := toy_trusted w;
     toy_served := toy_served w; toy_weight_proof := toy_weight_proof w;
     toy_weight_proof_valid := toy_weight_proof_valid w;
     toy_additions_valid := toy_additions_valid w; toy_coin_states := toy_coin_states w;
     toy_now := toy_now w |}.

Definition toy_set_peak (hb : HeaderBlock) (w : Toy) : Toy :=
  {| toy_peak := Some hb; toy_peak_height := hb_height hb;
     toy_known := hb_header_hash hb :: toy_known w;
     toy_hashes := (hb_height hb, hb_header_hash hb) :: toy_hashes w;
     toy_finished_sync_up_to := toy_finished_sync_up_to w; toy_trusted := toy_trusted w;
     toy_served := toy_served w; toy_weight_proof := toy_weight_proof w;
     toy_weight_proof_valid := toy_weight_proof_valid w;
     toy_additions_valid := toy_additions_valid w; toy_coin_states := toy_coin_states w;
     toy_now := toy_now w |}.

Definition toy_handle (X : Type) (e : Ext X) (w : Toy) : Result X * Toy :=
  match e in Ext X return Result X * Toy with
  | IsTrustedPeer peer => (Ok (bool_decide (peer ∈ toy_trusted w)), w)
  | GetFullNodeConnections => (Ok [], w)
  | WalletPeersEnsureIsClosed => (Ok tt, w)
  | TimeTime => (Ok (toy_now w), w)
  | LockAcquire _ => (Ok tt, w)
  | LockRelease _ => (Ok tt, w)
  | GetPeakBlock => (Ok (toy_peak w), w)
  | GetPeakHeight => (Ok (toy_peak_height w), w)
  | SetPeakBlock hb _ => (Ok tt, toy_set_peak hb w)
  | ContainsBlock hh => (Ok (bool_decide (hh ∈ toy_known w)), w)
  | ContainsHeight h => (Ok (bool_decide (is_Some (assoc h (toy_hashes w)))), w)
  | HeightToHash h =>
      match assoc h (toy_hashes w) with
      | Some hh => (Ok hh, w)
      | None => (Raise KeyError, w)
      end
  | TryBlockRecord hh =>
      (Ok (if bool_decide (hh ∈ toy_known w) then Some {| br_header_hash := hh |} else None), w)
  | ReceiveBlock hb => (Ok (NEW_PEAK, None), toy_set_peak hb w)
  | GetFinishedSyncUpTo => (Ok (toy_finished_sync_up_to w), w)
  | SetFinishedSyncUpTo h => (Ok tt, toy_set_finished h w)
  | SyncedWeightProof => (Ok None, w)
  | NewWeightProof _ _ => (Ok tt, w)
  | ReorgRollback _ => (Ok tt, w)
  | SetSyncMode _ => (Ok tt, w)
  | StateChanged _ _ => (Ok tt, w)
  | Wallets => (Ok [1], w)
  | NewCoinState _ _ _ => (Ok tt, w)
  | NewPeak _ => (Ok tt, w)
  | CreateMorePuzzleHashes => (Ok tt, w)
  | GetAllPuzzleHashes => (Ok [], w)
  | GetInterestedPuzzleHashes => (Ok [], w)
  | GetCoinsToCheck _ => (Ok [], w)
  | GetCoinsOfInterest => (Ok [], w)
  | GetInterestedCoinIds => (Ok [], w)
  | GetCoinRecord _ => (Ok None, w)
  | ValidateWeightProof _ => (Ok (toy_weight_proof_valid w, 0, [], []), w)
  | GetForkPoint _ _ => (Ok 0, w)
  | PeerClose _ _ => (Ok tt, w)
  | RequestBlockHeader _ h => (Ok (assoc h (toy_served w)), w)
  | RequestHeaderBlocks _ h _ =>
      (Ok (match assoc h (toy_served w) with Some hb => Some [hb] | None => None end), w)
  | RequestProofOfWeight _ _ _ => (Ok (toy_weight_proof w), w)
  | RequestSesHashes _ _ _ => (Ok None, w)
  | RegisterInterestInPuzzleHash _ _ _ => (Ok (toy_coin_states w), w)
  | RegisterInterestInCoin _ _ _ => (Ok (toy_coin_states w), w)
  | FetchLastTxFromPeer h _ => (Ok (assoc h (toy_served w)), w)
  | RequestAndValidateAdditions _ _ _ _ _ => (Ok (toy_additions_valid w), w)
  | RequestAndValidateRemovals _ _ _ _ _ => (Ok true, w)
  end.

Definition toy_env : Env :=
  {| W := Toy;
     handle := toy_handle;
     coin_name := λ c, amount c;
     coin_state_get_hash := λ cs, amount (coin cs);
     weight_proof_get_hash := λ wp, Z.of_nat (length (recent_chain_data wp));
     filter_coin_states := λ l fork_height,
       List.filter (λ cs, match created_height cs with
                          | Some h => bool_decide (h <= fork_height)
                          | None => true
                          end) l;
     clear_after_height := λ c h,
       {| blocks := filter (λ kv, kv.1 <= h) (blocks c);
          block_requests := filter (λ kv, kv.1.2 <= h) (block_requests c);
          ses_requests := filter (λ kv, kv.1 <= h) (ses_requests c);
          states_validated := states_validated c |};
     can_use_peer_request_cache := λ _ _ _, false;
     AugSchemeMPL_verify := λ _ _ _, true;
     WEIGHT_PROOF_RECENT_BLOCKS := 1000;
     config_testing := true |}.

(** A header block at a height; its hash is [1000 + height] on the chain
    of the peers and [2000 + height] on a chain of our own. *)
Definition header (own : bool) (prev_own : bool) (height weight : Z) : HeaderBlock :=
  {| hb_height := height; hb_weight := weight;
     hb_header_hash := (if own then 2000 else 1000) + height;
     prev_header_hash := (if prev_own then 2000 else 1000) + height - 1;
     foliage_transaction_block :=
       Some {| additions_root := 7; removals_root := 8; timestamp := 500 + height |};
     reward_chain_block :=
       {| rcb_height := height; rcb_weight := weight; rcb_get_hash := 3000 + height;
          reward_chain_ip_vdf_challenge := 3000 + height + 1; plot_public_key := 1 |};
     finished_sub_slots := [];
     foliage_block_data_get_hash := 4000 + height;
     foliage_block_data_signature := 5000 + height |}.

Definition init `{env : Env} (n : WalletNode) (w : W) : State :=
  {| node := n; world := w; trace := [] |}.

(** *** Reading the log of calls *)

(** The blocks handed to [receive_block], in order. *)
Definition received_blocks (tr : list Event) : list HeaderBlock :=
  omap (λ ev, match ev with
              | Called e _ => match e with
                              | ReceiveBlock hb => Some hb
                              | _ => None
                              end
              end) tr.

(** The heights [reorg_rollback] was called with. *)
Definition rollbacks (tr : list Event) : list Z :=
  omap (λ ev, match ev with
              | Called e _ => match e with
                              | ReorgRollback h => Some h
                              | _ => None
                              end
              end) tr.

(** The heights of the headers requested from peers with
    [request_block_header]. *)
Definition requested_heights (tr : list Event) : list Z :=
  omap (λ ev, match ev with
              | Called e _ => match e with
                              | RequestBlockHeader _ h => Some h
                              | _ => None
                              end
              end) tr.

(** The weight proofs handed to the external validator. *)
Definition validated_proofs (tr : list Event) : list WeightProof :=
  omap (λ ev, match ev with
              | Called e _ => match e with
                              | ValidateWeightProof wp => Some wp
                              | _ => None
                              end
              end) tr.

(** The calls of [peer.close]: the peer, the code and the outcome. *)
Definition peer_closes (tr : list Event) : list (Z * option Z * Result unit) :=
  omap (λ ev, match ev with
              | Called e r =>
                  match e in Ext X return Result X → option (Z * option Z * Result unit) with
                  | PeerClose peer code => λ r, Some (peer, code, r)
                  | _ => λ _, None
                  end r
              end) tr.

(** The answers of [request_and_validate_additions]. *)
Definition additions_answers (tr : list Event) : list (Result bool) :=
  omap (λ ev, match ev with
              | Called e r =>
                  match e in Ext X return Result X → option (Result bool) with
                  | RequestAndValidateAdditions _ _ _ _ _ => λ r, Some r
                  | _ => λ _, None
                  end r
              end) tr.

(** The coin states handed to [new_coin_state], call by call. *)
Definition applied_coin_states (tr : list Event) : list (list CoinState) :=
  omap (λ ev, match ev with
              | Called e _ => match e with
                              | NewCoinState states _ _ => Some states
                              | _ => None
                              end
              end) tr.

(** The answer of a [get_finished_sync_up_to]. *)
Definition get_finished_answer (ev : Event) : option Z :=
  match ev with
  | Called e r =>
      match e in Ext X return Result X → option Z with
      | GetFinishedSyncUpTo => λ r, match r with
                                     | Ok finished => Some finished
                                     | _ => None
                                     end
      | _ => λ _, None
      end r
  end.

(** The height of a [set_finished_sync_up_to]. *)
Definition set_finished_height (ev : Event) : option Z :=
  match ev with
  | Called e _ => match e with
                  | SetFinishedSyncUpTo h => Some h
                  | _ => None
                  end
  end.

(** An event may follow an event that answered [previous]: a
    [set_finished_sync_up_to(h)] only directly after a
    [get_finished_sync_up_to] that answered less than [h]. *)
Definition may_follow (previous : option Z) (ev : Event) : bool :=
  match set_finished_height ev with
  | Some h => match previous with
              | Some finished => bool_decide (h > finished)
              | None => false
              end
  | None => true
  end.

Fixpoint guarded_after (previous : option Z) (tr : list Event) : bool :=
  match tr with
  | [] => true
  | ev :: tr' => may_follow previous ev && guarded_after (get_finished_answer ev) tr'
  end.

(** Every [set_finished_sync_up_to(h)] of the log directly follows a
    [get_finished_sync_up_to] that answered a height strictly below [h]. *)
Definition sets_are_guarded (tr : list Event) : bool := guarded_after None tr.

(** The call is [request_and_validate_additions]. *)
Definition is_request_and_validate_additions {X} (e : Ext X) : bool :=
  match e with
  | RequestAndValidateAdditions _ _ _ _ _ => true
  | _ => false
  end.

(** A relation between the state before and after that a computation
    maintains whatever its outcome. *)
Definition keeps `{env : Env} (R : State → State → Prop) {A} (m : M A) : Prop :=
  ∀ s, R s (m s).2.

(** The call is [set_finished_sync_up_to]. *)
Definition is_set_finished_sync_up_to {X} (e : Ext X) : bool :=
  match e with
  | SetFinishedSyncUpTo _ => true
  | _ => false
  end.

(** The relations the handlers are shown to maintain. *)

(** [finished_sync_up_to], read off the collaborators by [finished], is
    not lowered. *)
Definition finished_not_lowered `{env : Env} (finished : W → Z) (s s' : State) : Prop :=
  finished (world s) <= finished (world s').

(** The guard of [set_finished_sync_up_to] is kept up. *)
Definition guards_kept `{env : Env} (s s' : State) : Prop :=
  sets_are_guarded (trace s) = true → sets_are_guarded (trace s') = true.

(** The race cache is not written. *)
Definition same_race_cache `{env : Env} (s s' : State) : Prop :=
  race_cache (node s') = race_cache (node s).

(** No additions proof is requested. *)
Definition same_additions_answers `{env : Env} (s s' : State) : Prop :=
  additions_answers (trace s') = additions_answers (trace s).

(** A relation maintained by the calls (the two singled out above apart)
    and by the updates of the peer caches and of the validation
    primitives. *)
Class Maintained `{env : Env} (R : State → State → Prop) : Prop := {
  maintained_preorder :: PreOrder R;
  maintained_call :
    ∀ X (e : Ext X),
      is_set_finished_sync_up_to e = false →
      is_request_and_validate_additions e = false →
      keeps R (call e);
  maintained_caches :
    ∀ f, keeps R (modify_node (λ n, set_untrusted_caches (f n) n));
  maintained_validation : keeps R (modify_node set_validation_primitives)
}.

(** A relation maintained, besides, by the call of the additions proof,
    by every update of the node and by the guarded update of
    [finished_sync_up_to]: enough for every handler. *)
Class MaintainedThroughout `{env : Env} (R : State → State → Prop) : Prop := {
  throughout_maintained :: Maintained R;
  throughout_additions :
    ∀ peer height header_hash ph root,
      keeps R (call (RequestAndValidateAdditions peer height header_hash ph root));
  throughout_advance : ∀ height, keeps R (advance_finished_sync_up_to height);
  throughout_node : ∀ f, keeps R (modify_node f)
}.

(** A handler of the small world starts with an empty log. *)
Definition toy_init (n : WalletNode) (w : Toy) : State (env := toy_env) :=
  init (env := toy_env) n w.

(** *** Scenarios

    A local chain that shares the heights up to 99 with the chain of the
    peers and has a block of its own at height 100, the local peak; the
    peers serve their blocks 100 to 103.  Peer 7 is not trusted. *)
(** Two coin states, created at heights 5 and 50. *)
Definition coin_state_5 : CoinState :=
  {| coin := {| parent_coin_info := 1; puzzle_hash := 11; amount := 100 |};
     spent_height := None; created_height := Some 5 |}.

Definition coin_state_50 : CoinState :=
  {| coin := {| parent_coin_info := 2; puzzle_hash := 12; amount := 200 |};
     spent_height := None; created_height := Some 50 |}.

Definition scenario_world : Toy :=
  {| toy_peak := Some (header true false 100 100); toy_peak_height := 100;
     toy_known := [2100; 1099; 1098; 1005];
     toy_hashes := [(100, 2100); (99, 1099); (98, 1098); (5, 1005)];
     toy_finished_sync_up_to := 100; toy_trusted := [];
     toy_served := [(103, header false false 103 103); (102, header false false 102 102);
                    (101, header false false 101 101); (100, header false false 100 100);
                    (5, header false false 5 5)];
     toy_weight_proof := None; toy_weight_proof_valid := false;
     toy_additions_valid := true; toy_coin_states := Some [];
     toy_now := 600 |}.

(** A node that has long-synced to peer 7. *)
Definition synced_node : WalletNode := set_synced_peers {[7]} started_node.

(** The same node, holding in its race cache a coin state received ahead
    of the block of the peers at height 103. *)
Definition racing_node : WalletNode :=
  set_race_cache {[1103 := {[coin_state_5]}]} synced_node.

Definition peak_103 : NewPeakWallet :=
  {| np_header_hash := 1103; np_height := 103; np_weight := 103;
     fork_point_with_previous_peak := 99 |}.

(** The block of the peers at height 100: as heavy as the local peak. *)
Definition peak_100 : NewPeakWallet :=
  {| np_header_hash := 1100; np_height := 100; np_weight := 100;
     fork_point_with_previous_peak := 99 |}.

(** A lighter peak. *)
Definition peak_99 : NewPeakWallet :=
  {| np_header_hash := 1099; np_height := 99; np_weight := 99;
     fork_point_with_previous_peak := 98 |}.

(** A weight proof whose tail ends at height 2000, and a peer that serves
    it; [valid] is the verdict of the external validator. *)
Definition proof_2000 : WeightProof :=
  {| sub_epochs := []; recent_chain_data := [header false false 2000 2000] |}.

Definition proof_world (valid : bool) : Toy :=
  {| toy_peak := None; toy_peak_height := 0; toy_known := []; toy_hashes := [];
     toy_finished_sync_up_to := 0; toy_trusted := [];
     toy_served := [(2000, header false false 2000 2000)];
     toy_weight_proof := Some proof_2000; toy_weight_proof_valid := valid;
     toy_additions_valid := true; toy_coin_states := Some [];
     toy_now := 600 |}.

(** A peer that answers every subscription with [response]; peer 7 is
    trusted when [trusted]. *)
Definition subscription_world (trusted : bool) (response : option (list CoinState)) : Toy :=
  {| toy_peak := None; toy_peak_height := 0; toy_known := []; toy_hashes := [];
     toy_finished_sync_up_to := 0; toy_trusted := if trusted then [7] else [];
     toy_served := []; toy_weight_proof := None; toy_weight_proof_valid := false;
     toy_additions_valid := true; toy_coin_states := response;
     toy_now := 600 |}.

(** The wallet of the scenario after the short sync to the peak at height
    103, with the coin state of [racing_node] in the race cache. *)
Definition after_short_sync : State (env := toy_env) :=
  (wallet_short_sync_backtrack (env := toy_env) 5 (header false false 103 103) 7
     (toy_init racing_node scenario_world)).2.

(** The world of the scenario with a peer whose additions proofs fail. *)
Definition refusing_world : Toy :=
  {| toy_peak := toy_peak scenario_world; toy_peak_height := toy_peak_height scenario_world;
     toy_known := toy_known scenario_world; toy_hashes := toy_hashes scenario_world;
     toy_finished_sync_up_to := toy_finished_sync_up_to scenario_world;
     toy_trusted := toy_trusted scenario_world; toy_served := toy_served scenario_world;
     toy_weight_proof := None; toy_weight_proof_valid := false;
     toy_additions_valid := false; toy_coin_states := Some [];
     toy_now := 600 |}.

(** Coin-state updates for the blocks of the peers at heights 10, 100, 150
    and 260, added to the race cache in this order. *)
Definition four_inserts : M (env := toy_env) unit :=
  add_state_to_race_cache (env := toy_env) 1010 10 coin_state_5 ;;
  add_state_to_race_cache (env := toy_env) 1100 100 coin_state_50 ;;
  add_state_to_race_cache (env := toy_env) 1150 150 coin_state_5 ;;
  add_state_to_race_cache (env := toy_env) 1260 260 coin_state_50.

(** *** The other handlers and what the log says of them *)

Section Handlers3.
Context `{env : Env}.

(** [on_disconnect]. *)
Definition on_disconnect (peer : Z) : M unit :=
  let* trusted := is_trusted peer in
  (if trusted then modify_node (set_local_node_synced false) else ret tt) ;;
  let* n := get_node in
  (if bool_decide (is_Some (untrusted_caches n !! peer)) then
     modify_node (λ n, set_untrusted_caches (delete peer (untrusted_caches n)) n)
   else ret tt) ;;
  let* n := get_node in
  (if bool_decide (peer ∈ synced_peers n) then
     modify_node (λ n, set_synced_peers (synced_peers n ∖ {[peer]}) n)
   else ret tt) ;;
  let* n := get_node in
  (if bool_decide (is_Some (_node_peaks n !! peer)) then
     modify_node (λ n, set_node_peaks (delete peer (_node_peaks n)) n)
   else ret tt).

(** A peer that [is_peer_synced] does not count as synced: it has no last
    transaction block, or that block is more than 600 seconds older than
    the request and the node is not testing. *)
Definition not_synced (last_tx : option HeaderBlock) (request_time : Z) : Prop :=
  match last_tx with
  | None => True
  | Some tx =>
      ∃ ftb, foliage_transaction_block tx = Some ftb
             ∧ config_testing = false ∧ timestamp ftb < request_time - 600
  end.

End Handlers3.

(** Every weight proof of the cache was accepted by the validator. *)
Definition only_valid (c : gmap Z (bool * Z * list Z * list BlockRecord)) : Prop :=
  map_Forall (λ _ v, v.1.1.1 = true) c.

(** Each block of the list names the next one as its predecessor. *)
Fixpoint hash_chain (l : list HeaderBlock) : Prop :=
  match l with
  | a :: rest =>
      match rest with
      | b :: _ => prev_header_hash a = hb_header_hash b ∧ hash_chain rest
      | [] => True
      end
  | [] => True
  end.

(** The header blocks the peers answered [request_block_header] with. *)
Definition served_headers (tr : list Event) : list HeaderBlock :=
  omap (λ ev, match ev with
              | Called e r =>
                  match e in Ext X return Result X → option HeaderBlock with
                  | RequestBlockHeader _ _ => λ r, match r with
                                                   | Ok (Some hb) => Some hb
                                                   | _ => None
                                                   end
                  | _ => λ _, None
                  end r
              end) tr.

(** The notifications sent with [state_changed]. *)
Definition state_changes (tr : list Event) : list (string * option Z) :=
  omap (λ ev, match ev with
              | Called e _ => match e with
                              | StateChanged state wallet_id => Some (state, wallet_id)
                              | _ => None
                              end
              end) tr.

(** The three readings of the log a short sync is described by. *)
Definition sync_log (tr : list Event)
    : list HeaderBlock * list HeaderBlock * list Z :=
  (served_headers tr, received_blocks tr, rollbacks tr).

Definition same_sync_log `{env : Env} (s s' : State) : Prop :=
  sync_log (trace s') = sync_log (trace s).

(** What the log says of the validation and of the application of coin
    states. *)
Definition validation_log (tr : list Event)
    : list (list CoinState) * list (Result bool) * list (Z * option Z * Result unit) :=
  (applied_coin_states tr, additions_answers tr, peer_closes tr).

Definition same_validation_log `{env : Env} (s s' : State) : Prop :=
  validation_log (trace s') = validation_log (trace s).

(** The call is [reorg_rollback]. *)
Definition is_reorg_rollback {X} (e : Ext X) : bool :=
  match e with
  | ReorgRollback _ => true
  | _ => false
  end.

(** A relation maintained by every call but [reorg_rollback] and by the
    updates of the node that concern no peer's standing: the request
    caches, the validation primitives, [wallet_peers] and
    [local_node_synced]. *)
Class Framed `{env : Env} (R : State → State → Prop) : Prop := {
  framed_preorder :: PreOrder R;
  framed_call : ∀ X (e : Ext X), is_reorg_rollback e = false → keeps R (call e);
  framed_caches : ∀ f, keeps R (modify_node (λ n, set_untrusted_caches (f n) n));
  framed_validation : keeps R (modify_node set_validation_primitives);
  framed_wallet_peers : ∀ v, keeps R (modify_node (set_wallet_peers v));
  framed_local_node_synced : ∀ v, keeps R (modify_node (set_local_node_synced v))
}.

(** No rollback. *)
Definition same_rollbacks `{env : Env} (s s' : State) : Prop :=
  rollbacks (trace s') = rollbacks (trace s).

(** Every coin state of the race cache of [n] is in the race cache of
    [n'], under the same header hash. *)
Definition race_cache_included (n n' : WalletNode) : Prop :=
  ∀ header_hash states,
    race_cache n !! header_hash = Some states →
    ∃ states', race_cache n' !! header_hash = Some states' ∧ states ⊆ states'.

(** While [race_cache_hashes] is empty it stays empty, and every coin state
    of the race cache stays where it is. *)
Definition race_cache_grows `{env : Env} (s s' : State) : Prop :=
  race_cache_hashes (node s) = [] →
  race_cache_hashes (node s') = [] ∧ race_cache_included (node s) (node s').

(** No peer leaves [synced_peers]. *)
Definition synced_peers_grow `{env : Env} (s s' : State) : Prop :=
  synced_peers (node s) ⊆ synced_peers (node s').

(** [_node_peaks] is not written. *)
Definition same_node_peaks `{env : Env} (s s' : State) : Prop :=
  _node_peaks (node s') = _node_peaks (node s).

(** The node is not written. *)
Definition same_node `{env : Env} (s s' : State) : Prop := node s' = node s.

(** The log only grows. *)
Definition trace_extends `{env : Env} (s s' : State) : Prop :=
  ∃ tr, trace s' = trace s ++ tr.

(** The wallet state manager and the server stay, and so do the validation
    semaphore and the lock of the new coin states once they are created. *)
Definition primitives_kept `{env : Env} (s s' : State) : Prop :=
  wallet_state_manager (node s') = wallet_state_manager (node s)
  ∧ server (node s') = server (node s)
  ∧ (validation_semaphore (node s) = true → validation_semaphore (node s') = true)
  ∧ (new_state_lock (node s) = true → new_state_lock (node s') = true).

(** *** A second small world

    The small world with three full nodes connected, of which peer 7 is
    trusted whatever the state of the world, two wallets, coin ids from
    three overlapping sources, and [config testing] off. *)
Definition busy_handle (X : Type) (e : Ext X) (w : Toy) : Result X * Toy :=
  match e in Ext X return Result X * Toy with
  | IsTrustedPeer peer => (Ok (bool_decide (peer = 7)), w)
  | GetFullNodeConnections => (Ok [7; 8; 9], w)
  | Wallets => (Ok [1; 2], w)
  | GetCoinsToCheck _ => (Ok [1; 2], w)
  | GetCoinsOfInterest => (Ok [2; 3], w)
  | GetInterestedCoinIds => (Ok [3; 1], w)
  | e' => toy_handle _ e' w
  end.

Definition busy_env : Env :=
  {| W := Toy;
     handle := busy_handle;
     coin_name := coin_name (Env := toy_env);
     coin_state_get_hash := coin_state_get_hash (Env := toy_env);
     weight_proof_get_hash := weight_proof_get_hash (Env := toy_env);
     filter_coin_states := filter_coin_states (Env := toy_env);
     clear_after_height := clear_after_height (Env := toy_env);
     can_use_peer_request_cache := can_use_peer_request_cache (Env := toy_env);
     AugSchemeMPL_verify := AugSchemeMPL_verify (Env := toy_env);
     WEIGHT_PROOF_RECENT_BLOCKS := 1000;
     config_testing := false |}.

(** The states of the two small worlds. *)
Definition toy_state (n : WalletNode) (w : Toy) (tr : list Event) : State (env := toy_env) :=
  @Build_State toy_env n w tr.

Definition busy_state (n : WalletNode) (w : Toy) (tr : list Event) : State (env := busy_env) :=
  @Build_State busy_env n w tr.

Definition busy_init (n : WalletNode) (w : Toy) : State (env := busy_env) :=
  init (env := busy_env) n w.

(** The world of the scenario, at second 5000. *)
Definition late_world : Toy :=
  {| toy_peak := toy_peak scenario_world; toy_peak_height := toy_peak_height scenario_world;
     toy_known := toy_known scenario_world; toy_hashes := toy_hashes scenario_world;
     toy_finished_sync_up_to := toy_finished_sync_up_to scenario_world;
     toy_trusted := toy_trusted scenario_world; toy_served := toy_served scenario_world;
     toy_weight_proof := None; toy_weight_proof_valid := false;
     toy_additions_valid := true; toy_coin_states := Some [];
     toy_now := 5000 |}.

(** A block of the chain of the peers whose infusion-point VDF has the
    reward-chain hash of the block below as its challenge. *)
Definition chained (height : Z) : HeaderBlock :=
  {| hb_height := height; hb_weight := height;
     hb_header_hash := 1000 + height;
     prev_header_hash := 1000 + height - 1;
     foliage_transaction_block := None;
     reward_chain_block :=
       {| rcb_height := height; rcb_weight := height; rcb_get_hash := 3000 + height;
          reward_chain_ip_vdf_challenge := 3000 + height - 1; plot_public_key := 1 |};
     finished_sub_slots := [];
     foliage_block_data_get_hash := 4000 + height;
     foliage_block_data_signature := 5000 + height |}.

(** A node that holds [proof_2000] in [valid_wp_cache], accepted. *)
Definition cached_node : WalletNode :=
  set_valid_wp_cache {[1 := (true, 0, [], [])]} started_node.

(** A node that knows the peaks of the peers 7 and 8 and holds a request
    cache for its synced peer 7. *)
Definition peered_node : WalletNode :=
  set_node_peaks {[7 := (100, 1100); 8 := (100, 1100)]}
    (set_untrusted_caches {[7 := empty_cache]} synced_node).

(** *** The helpers of the RPC layer

    [fetch_children] and [get_coin_state] reach two collaborators the
    handlers above do not: the children request of a peer and the table of
    connections of the server.  Their answers come from the same world;
    the calls are not part of the log. *)
Inductive Rpc : Type → Type :=
(* the values of [server.connection_by_type[NodeType.FULL_NODE]], in the
   order of the dictionary *)
| ConnectionByTypeFullNode : Rpc (list Z)
(* [peer.request_children]; an answer that is not a [RespondChildren] is
   [None] *)
| RequestChildren (peer : Z) (coin_name : Z) : Rpc (option (list CoinState)).

Class RpcEnv `{env : Env} := {
  handle_rpc : ∀ X, Rpc X → W → Result X * W
}.
Arguments handle_rpc {_ _ X} e w.

Section Handlers4.
Context `{rpc : RpcEnv}.

Definition call_rpc {X} (e : Rpc X) : M X :=
  λ s, let '(r, w) := handle_rpc e (world s) in
       (r, {| node := node s; world := w; trace := trace s |}).

(** The loop of [fetch_children] over the coin states of the response. *)
Fixpoint fetch_children_loop (peer : Z) (fork_height : option Z)
    (coin_states validated : list CoinState) : M (list CoinState) :=
  match coin_states with
  | [] => ret validated
  | state :: rest =>
      let* valid := validate_received_state_from_peer state peer fork_height in
      fetch_children_loop peer fork_height rest
        (if valid then validated ++ [state] else validated)
  end.

(** [fetch_children]. *)
Definition fetch_children (peer : Z) (coin_name : Z) (fork_height : option Z)
    : M (list CoinState) :=
  let* response := call_rpc (RequestChildren peer coin_name) in
  match response with
  | None => raise ValueError
  | Some coin_states =>
      let* trusted := is_trusted peer in
      if negb trusted then
        let* request_cache := get_cache_for_peer peer in
        fetch_children_loop peer fork_height coin_states []
      else ret coin_states
  end.

(** The loop of [get_coin_state]: the cache of the peer is looked up anew
    for every coin state. *)
Fixpoint get_coin_state_loop (first_node : Z) (fork_height : option Z)
    (coin_states valid_list : list CoinState) : M (list CoinState) :=
  match coin_states with
  | [] => ret valid_list
  | coin :: rest =>
      let* request_cache := get_cache_for_peer first_node in
      let* valid := validate_received_state_from_peer coin first_node fork_height in
      get_coin_state_loop first_node fork_height rest
        (if valid then valid_list ++ [coin] else valid_list)
  end.

(** [get_coin_state]. *)
Definition get_coin_state (coin_names : list Z) (fork_height : option Z)
    : M (list CoinState) :=
  let* n := get_node in
  assert (server n) ;;
  let* all_nodes := call_rpc ConnectionByTypeFullNode in
  match all_nodes with
  | [] => raise ValueError
  | first_node :: _ =>
      let* coin_state := call (RegisterInterestInCoin first_node coin_names 0) in
      match coin_state with
      | None => raise AssertionError
      | Some coin_states =>
          let* trusted := is_trusted first_node in
          if negb trusted then get_coin_state_loop first_node fork_height coin_states []
          else ret coin_states
      end
  end.

End Handlers4.

(** The small world answers the RPC helpers: the full nodes 7 and 8 are
    connected, and a peer's children are the coin states it answers a
    subscription with. *)
Definition toy_handle_rpc (X : Type) (e : Rpc X) (w : Toy) : Result X * Toy :=
  match e in Rpc X return Result X * Toy with
  | ConnectionByTypeFullNode => (Ok [7; 8], w)
  | RequestChildren _ _ => (Ok (toy_coin_states w), w)
  end.

Definition toy_rpc : RpcEnv (env := toy_env) := @Build_RpcEnv toy_env toy_handle_rpc.

(** A coin state created at height 100, where the chain of the peers and
    the local chain differ. *)
Definition coin_state_100 : CoinState :=
  {| coin := {| parent_coin_info := 3; puzzle_hash := 13; amount := 300 |};
     spent_height := None; created_height := Some 100 |}.

(** The world of the scenario with a peer that reports the coins created
    at heights 100 and 5. *)
Definition children_world : Toy :=
  {| toy_peak := toy_peak scenario_world; toy_peak_height := toy_peak_height scenario_world;
     toy_known := toy_known scenario_world; toy_hashes := toy_hashes scenario_world;
     toy_finished_sync_up_to := toy_finished_sync_up_to scenario_world;
     toy_trusted := toy_trusted scenario_world; toy_served := toy_served scenario_world;
     toy_weight_proof := None; toy_weight_proof_valid := false;
     toy_additions_valid := true; toy_coin_states := Some [coin_state_100; coin_state_5];
     toy_now := 600 |}.

End WalletNode.

(** * Properties of [LimitedSemaphore] *)

Module LimitedSemaphoreFacts.
Import LimitedSemaphore.

Lemma remove_frame_length f l l' :
  remove_frame f l = Some l' → length l = S (length l').
Proof.
  revert l'. induction l as [|x l IH]; intros l' H; simpl in H; [done|].
  destruct (decide (x = f)); [by simplify_eq|].
  destruct (remove_frame f l) as [r|] eqn:E; simplify_eq.
  simpl. f_equal. by apply IH.
Qed.

Lemma remove_frame_elem f l l' x :
  remove_frame f l = Some l' → x ∈ l' → x ∈ l.
Proof.
  revert l'. induction l as [|y l IH]; intros l' H Hx; simpl in H; [done|].
  destruct (decide (y = f)); [simplify_eq; by apply elem_of_cons; right|].
  destruct (remove_frame f l) as [r|] eqn:E; simplify_eq.
  apply elem_of_cons in Hx as [->|Hx]; [by left|].
  right. by apply IH with r.
Qed.

Lemma remove_frame_actives tk ph l l' :
  remove_frame (tk, ph) l = Some l' →
  actives l = (if decide (ph = Active) then S (actives l') else actives l').
Proof.
  revert l'. induction l as [|x l IH]; intros l' H; simpl in H; [done|].
  destruct (decide (x = (tk, ph))) as [->|Hne].
  - simplify_eq. unfold actives. rewrite filter_cons. simpl.
    destruct (decide (ph = Active)); done.
  - destruct (remove_frame (tk, ph) l) as [r|] eqn:E; simplify_eq.
    specialize (IH r eq_refl). unfold actives in *.
    rewrite !filter_cons. destruct (decide (x.2 = Active)); simpl; rewrite IH;
      destruct (decide (ph = Active)); done.
Qed.

Lemma inv_create a w self :
  0 <= a + w → create a w = Ok self → inv a w (fresh self).
Proof.
  unfold create. intros Hw H. destruct (decide (a < 0)); simplify_eq.
  split; unfold outstanding, actives; simpl; try lia.
  intros tk [x Hx]. by rewrite lookup_empty in Hx.
Qed.

Lemma remove_frame_elem_ne f l l' x :
  remove_frame f l = Some l' → x ≠ f → x ∈ l → x ∈ l'.
Proof.
  revert l'. induction l as [|y l IH]; intros l' H Hne Hx; [by apply elem_of_nil in Hx|].
  simpl in H. destruct (decide (y = f)) as [->|Hy].
  - simplify_eq. by apply elem_of_cons in Hx as [?|?].
  - destruct (remove_frame f l) as [r|] eqn:E; simplify_eq.
    apply elem_of_cons in Hx as [->|Hx]; [by left|].
    right. by apply IH.
Qed.

Lemma inv_step a w act s s' :
  inv a w s → step act s = Some s' → inv a w s'.
Proof.
  intros [Hav Hsem Hs0 Ha0 Hact] Hstep. unfold outstanding in *.
  destruct act as [[tk|]|tk now|tk raised|tk]; simpl in Hstep.
  - destruct (decide (_available_count (sem s) < 1)); simplify_eq.
    + by split.
    + split; simpl; unfold outstanding; simpl; try lia.
      * unfold actives in *. by rewrite filter_cons.
      * intros tk' H. apply elem_of_cons. right. by apply Hact.
  - simplify_eq. by split.
  - destruct (remove_frame (tk, Waiting) (frames s)) as [fs|] eqn:E; [|done].
    unfold acquire_granted in Hstep.
    destruct (decide (0 < _semaphore (sem s))); simplify_eq.
    pose proof (remove_frame_length _ _ _ E) as Hlen.
    pose proof (remove_frame_actives _ _ _ _ E) as Hcnt. simpl in Hcnt.
    split; simpl; unfold outstanding; simpl; try lia.
    + unfold actives in *. rewrite filter_cons. simpl. lia.
    + intros tk' [x Hx]. destruct (decide (tk = tk')) as [->|Hne]; [by left|].
      rewrite lookup_insert_ne in Hx by done.
      right. eapply remove_frame_elem_ne; [done|congruence|]. apply Hact; eauto.
  - destruct (remove_frame (tk, Active) (frames s)) as [fs|] eqn:E; simplify_eq.
    pose proof (remove_frame_length _ _ _ E) as Hlen.
    pose proof (remove_frame_actives _ _ _ _ E) as Hcnt. simpl in Hcnt.
    split; simpl; unfold outstanding; simpl; try lia.
    intros tk' [x Hx]. destruct (decide (tk = tk')) as [->|Hne].
    + by rewrite lookup_delete_eq in Hx.
    + rewrite lookup_delete_ne in Hx by done.
      eapply remove_frame_elem_ne; [done|congruence|]. apply Hact; eauto.
  - destruct (remove_frame (tk, Waiting) (frames s)) as [fs|] eqn:E; simplify_eq.
    pose proof (remove_frame_length _ _ _ E) as Hlen.
    pose proof (remove_frame_actives _ _ _ _ E) as Hcnt. simpl in Hcnt.
    split; simpl; unfold outstanding; simpl; try lia.
    intros tk' [x Hx]. destruct (decide (tk = tk')) as [->|Hne].
    + by rewrite lookup_delete_eq in Hx.
    + rewrite lookup_delete_ne in Hx by done.
      eapply remove_frame_elem_ne; [done|congruence|]. apply Hact; eauto.
Qed.

Lemma inv_run a w acts s s' :
  inv a w s → run acts s = Some s' → inv a w s'.
Proof.
  revert s. induction acts as [|act acts IH]; intros s Hinv H; simpl in H.
  - by simplify_eq.
  - destruct (step act s) as [s1|] eqn:E; [|done].
    eapply IH; [|done]. by eapply inv_step.
Qed.

Lemma inv_reachable a w self acts s :
  0 <= a + w → create a w = Ok self → run acts (fresh self) = Some s → inv a w s.
Proof. intros Hw Hc Hr. eapply inv_run; [|done]. by apply inv_create. Qed.

Example create_2_1 :
  create 2 1 = Ok {| _semaphore := 2; _available_count := 3; _active_tasks := ∅ |}.
Proof. reflexivity. Qed.

Example three_entrants_fill :
  run three_entrants (fresh {| _semaphore := 2; _available_count := 3; _active_tasks := ∅ |})
  = Some full_2_1.
Proof. reflexivity. Qed.

Example fourth_acquire_full :
  acquire_begin (Some 4%positive) (sem full_2_1) = Raise LimitedSemaphoreFullError.
Proof. reflexivity. Qed.

Example acquire_after_leave :
  ∃ s' self', step (Leave 1%positive false) full_2_1 = Some s'
              ∧ acquire_begin (Some 4%positive) (sem s') = Ok self'.
Proof. eexists _, _. split; reflexivity. Qed.

(** C4.  For a semaphore created with non-negative limits (the spec's
    unsigned caps), in every state the event loop can reach: [acquire]
    raises [LimitedSemaphoreFullError] exactly when the number of
    outstanding entrants, active plus waiting, equals
    [active_limit + waiting_limit]; the refused [acquire] parks nothing
    and changes nothing; and once any one entrant has left a full
    semaphore, by the end of its guarded section or by cancellation, the
    next [acquire] is admitted. *)
Theorem acquire_full_exactly_at_capacity
    (active_limit waiting_limit : Z) (self : t) (acts : list action)
    (s : system) (tk : Task) :
  0 <= active_limit + waiting_limit →
  create active_limit waiting_limit = Ok self →
  run acts (fresh self) = Some s →
  (acquire_begin (Some tk) (sem s) = Raise LimitedSemaphoreFullError
     ↔ outstanding s = active_limit + waiting_limit)
  ∧ (outstanding s = active_limit + waiting_limit → step (Acquire (Some tk)) s = Some s)
  ∧ (∀ a s', outstanding s = active_limit + waiting_limit →
       departure a = true → step a s = Some s' →
       outstanding s' = active_limit + waiting_limit - 1
       ∧ ∃ self', acquire_begin (Some tk) (sem s') = Ok self').
Proof.
  intros Hw Hc Hr.
  pose proof (inv_reachable _ _ _ _ _ Hw Hc Hr) as Hinv.
  destruct Hinv as [Hav Hsem Hs0 Ha0 Hact].
  assert (acquire_begin (Some tk) (sem s) = Raise LimitedSemaphoreFullError
          ↔ outstanding s = active_limit + waiting_limit) as Hiff.
  { unfold acquire_begin. destruct (decide (_available_count (sem s) < 1)).
    - split; [intros _; lia|done].
    - split; [done|intros; lia]. }
  split; [done|]. split.
  - intros Hfull. apply Hiff in Hfull. cbn [step]. by rewrite Hfull.
  - intros a s' Hfull Hdep Hstep.
    assert (inv active_limit waiting_limit s') as Hinv'.
    { eapply inv_step; [|done]. by split. }
    destruct Hinv' as [Hav' _ _ _ _].
    assert (outstanding s' = outstanding s - 1) as Hout.
    { unfold outstanding. destruct a as [?|?|tk' r|tk']; simpl in Hdep; try done;
        simpl in Hstep.
      - destruct (remove_frame (tk', Active) (frames s)) as [fs|] eqn:E; simplify_eq.
        simpl. apply remove_frame_length in E. lia.
      - destruct (remove_frame (tk', Waiting) (frames s)) as [fs|] eqn:E; simplify_eq.
        simpl. apply remove_frame_length in E. lia. }
    split; [lia|]. unfold acquire_begin.
    destruct (decide (_available_count (sem s') < 1)); [lia|eauto].
Qed.

(** The scenario of C4: limits 2 and 1, three entrants outstanding. *)
Lemma acquire_full_exactly_at_capacity_witness :
  (acquire_begin (Some 4%positive) (sem full_2_1) = Raise LimitedSemaphoreFullError
     ↔ outstanding full_2_1 = 2 + 1)
  ∧ (outstanding full_2_1 = 2 + 1 → step (Acquire (Some 4%positive)) full_2_1 = Some full_2_1)
  ∧ (∀ a s', outstanding full_2_1 = 2 + 1 →
       departure a = true → step a full_2_1 = Some s' →
       outstanding s' = 2 + 1 - 1
       ∧ ∃ self', acquire_begin (Some 4%positive) (sem s') = Ok self').
Proof.
  apply (acquire_full_exactly_at_capacity 2 1
           {| _semaphore := 2; _available_count := 3; _active_tasks := ∅ |}
           three_entrants full_2_1 4%positive).
  - lia.
  - reflexivity.
  - reflexivity.
Defined.

(** C9, as stated, fails for a re-entrant pair: the task of [one_active]
    is inside the guarded section; a balanced acquire/exit pair of the same
    task gives the counters back but pops the entry of the outer entrance,
    so the semaphore state is not the one before the pair. *)
Lemma reentrant_pair_changes_state :
  ∃ s', run [Acquire (Some 1%positive); Grant 1%positive 10] (fresh {| _semaphore := 2; _available_count := 3; _active_tasks := ∅ |})
          = Some one_active
        ∧ run reentrant_pair one_active = Some s'
        ∧ frames s' = frames one_active
        ∧ _active_tasks (sem one_active) !! 1%positive
            = Some {| task := 1%positive; acquired_time := 10 |}
        ∧ _active_tasks (sem s') !! 1%positive = None
        ∧ sem s' ≠ sem one_active.
Proof.
  eexists. split; [reflexivity|]. split; [reflexivity|].
  split; [reflexivity|]. split; [reflexivity|]. split; [reflexivity|].
  intros H. apply (f_equal (λ x, _active_tasks x !! 1%positive)) in H.
  vm_compute in H. discriminate.
Qed.

(** C9, amended.  For a semaphore created with non-negative limits, in
    every reachable state: [0 <= _available_count <= active_limit +
    waiting_limit]; every exit path (the end of the guarded section,
    normal or by an exception, and the cancellation of a parked entrant)
    gives [_available_count] back by exactly one and leaves the task
    without an entry in [_active_tasks]; a balanced acquire/exit pair of a
    task that has no entry in [_active_tasks] leaves the state unchanged;
    and when every entrant has left, the semaphore is the created one. *)
Theorem available_count_bounded_and_balanced
    (active_limit waiting_limit : Z) (self : t) (acts : list action) (s : system) :
  0 <= active_limit + waiting_limit →
  create active_limit waiting_limit = Ok self →
  run acts (fresh self) = Some s →
  (0 <= _available_count (sem s) <= active_limit + waiting_limit)
  ∧ (∀ a s', departure a = true → step a s = Some s' →
       _available_count (sem s') = _available_count (sem s) + 1
       ∧ ∀ tk, (a = Cancel tk ∨ ∃ raised, a = Leave tk raised) →
               _active_tasks (sem s') !! tk = None)
  ∧ (∀ tk now raised self', _active_tasks (sem s) !! tk = None →
       acquire_begin (Some tk) (sem s) = Ok self' →
       0 < _semaphore (sem s) →
       run [Acquire (Some tk); Grant tk now; Leave tk raised] s = Some s)
  ∧ (frames s = [] → sem s = self).
Proof.
  intros Hw Hc Hr.
  pose proof (inv_reachable _ _ _ _ _ Hw Hc Hr) as [Hav Hsem Hs0 Ha0 Hact].
  split; [|split; [|split]].
  - unfold outstanding in Hav. lia.
  - intros a s' Hdep Hstep.
    destruct a as [?|?|tk' r|tk']; simpl in Hdep; try done; simpl in Hstep.
    + destruct (remove_frame (tk', Active) (frames s)) as [fs|] eqn:E; simplify_eq.
      simpl. split; [lia|]. intros tk [?|[? ?]]; simplify_eq.
      apply lookup_delete_eq.
    + destruct (remove_frame (tk', Waiting) (frames s)) as [fs|] eqn:E; simplify_eq.
      simpl. split; [lia|]. intros tk [?|[? ?]]; simplify_eq.
      apply lookup_delete_eq.
  - intros tk now raised self' Hfree Hbegin Hpos.
    unfold acquire_begin in Hbegin.
    destruct (decide (_available_count (sem s) < 1)) as [|Hn]; simplify_eq.
    cbn [run step]. unfold acquire_begin.
    destruct (decide (_available_count (sem s) < 1)); [done|].
    cbn [frames sem remove_frame]. rewrite decide_True by done.
    unfold acquire_granted. cbn [_semaphore _available_count _active_tasks].
    rewrite decide_True by done.
    cbn [frames sem remove_frame]. rewrite decide_True by done.
    f_equal. destruct s as [[v c m] fs]. simpl in *.
    unfold acquire_exit, acquire_finally, semaphore_release. simpl.
    f_equal. f_equal; try lia.
    rewrite delete_insert_eq. by apply delete_id.
  - intros Hnil. unfold create in Hc.
    destruct (decide (active_limit < 0)); simplify_eq.
    destruct s as [[v c m] fs]. simpl in *. subst fs.
    unfold outstanding, actives in *. simpl in *.
    f_equal; try lia.
    apply map_empty. intros tk. apply eq_None_not_Some. intros Hs.
    apply Hact in Hs. by apply elem_of_nil in Hs.
Qed.

(** A run of C9: two entrants and a parked third of a semaphore with
    limits 2 and 1. *)
Lemma available_count_bounded_and_balanced_witness :
  (0 <= _available_count (sem full_2_1) <= 2 + 1)
  ∧ (∀ a s', departure a = true → step a full_2_1 = Some s' →
       _available_count (sem s') = _available_count (sem full_2_1) + 1
       ∧ ∀ tk, (a = Cancel tk ∨ ∃ raised, a = Leave tk raised) →
               _active_tasks (sem s') !! tk = None)
  ∧ (∀ tk now raised self', _active_tasks (sem full_2_1) !! tk = None →
       acquire_begin (Some tk) (sem full_2_1) = Ok self' →
       0 < _semaphore (sem full_2_1) →
       run [Acquire (Some tk); Grant tk now; Leave tk raised] full_2_1 = Some full_2_1)
  ∧ (frames full_2_1 = [] → sem full_2_1 = {| _semaphore := 2; _available_count := 3; _active_tasks := ∅ |}).
Proof.
  apply (available_count_bounded_and_balanced 2 1
           {| _semaphore := 2; _available_count := 3; _active_tasks := ∅ |}
           three_entrants full_2_1).
  - lia.
  - reflexivity.
  - reflexivity.
Defined.

Lemma remove_frame_is_Some f l : is_Some (remove_frame f l) ↔ f ∈ l.
Proof.
  induction l as [|x l IH]; simpl.
  - split; [by intros [? ?]|by intros ?%elem_of_nil].
  - destruct (decide (x = f)) as [->|Hne].
    + split; [intros _; by left|by eauto].
    + rewrite elem_of_cons. destruct (remove_frame f l) as [r|].
      * split; [intros _; right; apply IH; eauto|eauto].
      * split; [by intros [? ?]|]. intros [?|Hin]; [congruence|].
        apply IH in Hin. by destruct Hin.
Qed.

Lemma size_list_to_set_le (l : list Task) : (size (list_to_set l : gset Task) ≤ length l)%nat.
Proof.
  induction l as [|x l IH].
  - rewrite list_to_set_nil, size_empty. simpl. lia.
  - rewrite list_to_set_cons. cbn [length]. rewrite size_union_alt.
    rewrite size_singleton.
    assert (size (list_to_set l ∖ {[x]} : gset Task) ≤ size (list_to_set l : gset Task))%nat
      by (apply subseteq_size, subseteq_difference_l; reflexivity).
    lia.
Qed.

(** X1.  At most [active_limit] entrants are inside the guarded section, and
    [_active_tasks] never holds more entries than there are entrants
    inside. *)
Theorem active_entrants_bounded
    (active_limit waiting_limit : Z) (self : t) (acts : list action) (s : system) :
  0 <= active_limit + waiting_limit →
  create active_limit waiting_limit = Ok self →
  run acts (fresh self) = Some s →
  Z.of_nat (actives (frames s)) <= active_limit
  ∧ (size (_active_tasks (sem s)) ≤ actives (frames s))%nat
  ∧ _semaphore (sem s) = active_limit - Z.of_nat (actives (frames s)).
Proof.
  intros Hw Hc Hr.
  pose proof (inv_reachable _ _ _ _ _ Hw Hc Hr) as [Hav Hsem Hs0 Ha0 Hact].
  split; [lia|]. split; [|done].
  rewrite <- size_dom.
  etrans; [|etrans; [apply (size_list_to_set_le (filter (λ f : frame, f.2 = Active) (frames s)).*1)|]].
  - apply subseteq_size. intros tk Htk. apply elem_of_dom in Htk.
    apply Hact in Htk. apply elem_of_list_to_set, list_elem_of_fmap.
    exists (tk, Active). split; [done|]. by apply list_elem_of_filter.
  - unfold actives. by rewrite length_fmap.
Qed.

(** The full semaphore of limits 2 and 1: two entrants inside, two entries
    of [_active_tasks], no unit of [_semaphore] left. *)
Lemma active_entrants_bounded_witness :
  Z.of_nat (actives (frames full_2_1)) <= 2
  ∧ (size (_active_tasks (sem full_2_1)) ≤ actives (frames full_2_1))%nat
  ∧ _semaphore (sem full_2_1) = 2 - Z.of_nat (actives (frames full_2_1)).
Proof.
  apply (active_entrants_bounded 2 1
           {| _semaphore := 2; _available_count := 3; _active_tasks := ∅ |}
           three_entrants full_2_1).
  - lia.
  - reflexivity.
  - reflexivity.
Defined.

(** X2.  A parked entrant can enter the guarded section exactly when fewer than
    [active_limit] entrants are inside; the value [acquire] then yields is
    the number of slots still free. *)
Theorem grant_enabled_below_active_limit
    (active_limit waiting_limit : Z) (self : t) (acts : list action) (s : system)
    (tk : Task) (now : Z) :
  0 <= active_limit + waiting_limit →
  create active_limit waiting_limit = Ok self →
  run acts (fresh self) = Some s →
  (is_Some (step (Grant tk now) s)
   ↔ (tk, Waiting) ∈ frames s ∧ Z.of_nat (actives (frames s)) < active_limit)
  ∧ (∀ yielded self',
       (tk, Waiting) ∈ frames s →
       acquire_granted tk now (sem s) = Some (yielded, self') →
       yielded = active_limit + waiting_limit - outstanding s
       ∧ 0 <= yielded <= active_limit + waiting_limit - 1).
Proof.
  intros Hw Hc Hr.
  pose proof (inv_reachable _ _ _ _ _ Hw Hc Hr) as [Hav Hsem Hs0 Ha0 Hact].
  split.
  - cbn [step]. rewrite <- remove_frame_is_Some. unfold acquire_granted.
    destruct (remove_frame (tk, Waiting) (frames s)) as [fs|].
    + destruct (decide (0 < _semaphore (sem s))).
      * split; [intros _; split; [eauto|lia]|eauto].
      * split; [by intros [? ?]|]. intros [_ ?]. lia.
    + split; [by intros [? ?]|]. intros [[? ?] _]. done.
  - intros yielded self' Hin Hg. unfold acquire_granted in Hg.
    destruct (decide (0 < _semaphore (sem s))); simplify_eq.
    split; [done|]. split; [done|].
    assert (0 < length (frames s))%nat.
    { destruct (frames s); [by apply elem_of_nil in Hin|simpl; lia]. }
    unfold outstanding in *. lia.
Qed.

(** One entrant inside and one parked, limits 2 and 1: the parked entrant
    can enter, and [acquire] yields the one slot that is left. *)
Lemma grant_enabled_below_active_limit_witness :
  (is_Some (step (Grant 2%positive 11) one_parked)
   ↔ (2%positive, Waiting) ∈ frames one_parked ∧ Z.of_nat (actives (frames one_parked)) < 2)
  ∧ (∀ yielded self',
       (2%positive, Waiting) ∈ frames one_parked →
       acquire_granted 2%positive 11 (sem one_parked) = Some (yielded, self') →
       yielded = 2 + 1 - outstanding one_parked ∧ 0 <= yielded <= 2 + 1 - 1).
Proof.
  apply (grant_enabled_below_active_limit 2 1
           {| _semaphore := 2; _available_count := 3; _active_tasks := ∅ |}
           one_parked_run one_parked 2%positive 11).
  - lia.
  - reflexivity.
  - reflexivity.
Defined.

End LimitedSemaphoreFacts.

(** * Properties of [WalletNode] *)

Module WalletNodeFacts.
Import WalletNode.

(** ** Running a handler step by step *)

Section Run.
Context `{env : Env}.

Lemma run_bind_bind {A B C} (m : M A) (k1 : A → M B) (k2 : B → M C) s :
  bind (bind m k1) k2 s = bind m (λ a, bind (k1 a) k2) s.
Proof. unfold bind. by destruct (m s) as [[a|e|] s']. Qed.

Lemma run_bind_ret {A B} (a : A) (k : A → M B) s : bind (ret a) k s = k a s.
Proof. done. Qed.

Lemma run_bind_raise {A B} (e : exn) (k : A → M B) s : bind (raise e) k s = (Raise e, s).
Proof. done. Qed.

Lemma run_bind_get_node {B} (k : WalletNode → M B) s : bind get_node k s = k (node s) s.
Proof. done. Qed.

Lemma run_bind_modify_node {B} f (k : unit → M B) s :
  bind (modify_node f) k s = k tt {| node := f (node s); world := world s; trace := trace s |}.
Proof. done. Qed.

Lemma run_call {X} (e : Ext X) (s : State) (r : Result X) (w' : W) :
  handle e (world s) = (r, w') →
  call e s = (r, {| node := node s; world := w'; trace := trace s ++ [Called e r] |}).
Proof. intros Hh. unfold call. by rewrite Hh. Qed.

Lemma run_bind_call {X B} (e : Ext X) (k : X → M B) (s : State) (a : X) (w' : W) :
  handle e (world s) = (Ok a, w') →
  bind (call e) k s
  = k a {| node := node s; world := w'; trace := trace s ++ [Called e (Ok a)] |}.
Proof. intros Hh. unfold bind. by rewrite (run_call _ _ _ _ Hh). Qed.

Lemma run_bind_assert {B} (b : bool) (k : unit → M B) s :
  b = true → bind (assert b) k s = k tt s.
Proof. by intros ->. Qed.

Lemma run_with_lock {A} (l : lock) (body : M A) s w1 :
  handle (LockAcquire l) (world s) = (Ok tt, w1) →
  with_lock l body s
  = try_finally body (call (LockRelease l))
      {| node := node s; world := w1; trace := trace s ++ [Called (LockAcquire l) (Ok tt)] |}.
Proof. intros Hh. unfold with_lock. by rewrite (run_bind_call _ _ _ _ _ Hh). Qed.

Lemma run_py_index_last {A} (l : list A) (x : A) s :
  last l = Some x → py_index l (-1) s = (Ok x, s).
Proof.
  intros Hl. unfold py_index. cbv zeta.
  rewrite (bool_decide_eq_true_2 (-1 < 0)) by lia.
  assert (0 < length l)%nat as Hlen.
  { destruct l; [done|simpl; lia]. }
  rewrite bool_decide_eq_false_2 by lia.
  rewrite last_lookup in Hl.
  replace (Z.to_nat (Z.of_nat (length l) + -1)) with (pred (length l)) by lia.
  by rewrite Hl.
Qed.

End Run.

Ltac mstep :=
  cbn [world node trace];
  first
    [ rewrite run_bind_bind
    | rewrite run_bind_ret
    | rewrite run_bind_raise
    | rewrite run_bind_get_node
    | rewrite run_bind_modify_node
    | erewrite run_bind_call by (cbn [world node trace]; eassumption)
    | erewrite run_call by (cbn [world node trace]; eassumption)
    | rewrite run_bind_assert by (cbn [world node trace]; first [eassumption | reflexivity])
    | erewrite run_with_lock by (cbn [world node trace]; eassumption) ].

(** A closed equation between values of a type with decidable equality,
    decided by evaluation. *)
Ltac by_evaluation := apply (bool_decide_unpack _); vm_compute; exact I.

Ltac mfinish :=
  cbn [world node trace]; unfold ret; rewrite <- ?app_assoc; reflexivity.

(** ** What a handler maintains

    A reflexive and transitive relation that the calls and the updates of
    the node maintain is maintained by every handler built from them. *)

Section Keeps.
Context `{env : Env} (R : State → State → Prop) `{!PreOrder R}.

Lemma keeps_ret {A} (a : A) : keeps R (ret a).
Proof. intros s. reflexivity. Qed.

Lemma keeps_raise {A} (e : exn) : keeps R (raise (A := A) e).
Proof. intros s. reflexivity. Qed.

Lemma keeps_out_of_fuel {A} : keeps R (out_of_fuel (A := A)).
Proof. intros s. reflexivity. Qed.

Lemma keeps_get_node : keeps R get_node.
Proof. intros s. reflexivity. Qed.

Lemma keeps_assert (b : bool) : keeps R (assert b).
Proof. destruct b; [apply keeps_ret|apply keeps_raise]. Qed.

Lemma keeps_bind {A B} (m : M A) (k : A → M B) :
  keeps R m → (∀ a, keeps R (k a)) → keeps R (bind m k).
Proof.
  intros Hm Hk s. unfold bind. specialize (Hm s).
  destruct (m s) as [[a|e|] s']; simpl in *; [|done..].
  etrans; [exact Hm|apply Hk].
Qed.

Lemma keeps_try_except {A} (body : M A) (handler : exn → M A) :
  keeps R body → (∀ e, keeps R (handler e)) → keeps R (try_except body handler).
Proof.
  intros Hb Hh s. unfold try_except. specialize (Hb s).
  destruct (body s) as [[a|e|] s']; simpl in *; [done| |done].
  etrans; [exact Hb|apply Hh].
Qed.

Lemma keeps_try_finally {A} (body : M A) (cleanup : M unit) :
  keeps R body → keeps R cleanup → keeps R (try_finally body cleanup).
Proof.
  intros Hb Hc s. unfold try_finally. specialize (Hb s).
  destruct (body s) as [[a|e|] s']; simpl in *; [| |done].
  - specialize (Hc s'). destruct (cleanup s') as [[?|?|] s'']; simpl in *;
      by etrans.
  - specialize (Hc s'). destruct (cleanup s') as [[?|?|] s'']; simpl in *;
      by etrans.
Qed.

Lemma keeps_for_each {A} (xs : list A) (body : A → M unit) :
  (∀ x, keeps R (body x)) → keeps R (for_each xs body).
Proof.
  intros Hb. induction xs as [|x xs IH]; simpl.
  - apply keeps_ret.
  - apply keeps_bind; [apply Hb|intros _; apply IH].
Qed.

Lemma keeps_with_lock {A} (l : lock) (body : M A) :
  keeps R (call (LockAcquire l)) → keeps R (call (LockRelease l)) →
  keeps R body → keeps R (with_lock l body).
Proof.
  intros Ha Hr Hb. unfold with_lock. apply keeps_bind; [done|intros _].
  by apply keeps_try_finally.
Qed.

Lemma keeps_py_index {A} (l : list A) (i : Z) : keeps R (py_index l i).
Proof.
  unfold py_index. cbv zeta. destruct (bool_decide _); [apply keeps_raise|].
  destruct (l !! _); [apply keeps_ret|apply keeps_raise].
Qed.

Lemma keeps_uint32 (z : Z) : keeps R (uint32 z).
Proof. unfold uint32. destruct (bool_decide _); [apply keeps_ret|apply keeps_raise]. Qed.

Lemma keeps_uint64 (z : Z) : keeps R (uint64 z).
Proof. unfold uint64. destruct (bool_decide _); [apply keeps_ret|apply keeps_raise]. Qed.

End Keeps.

(** One step of a proof that a handler maintains a relation: the shape of
    the handler decides. *)
Ltac keeps_step :=
  match goal with
  | |- keeps _ (bind _ _) => apply keeps_bind; [tc_solve| |intros ?]
  | |- keeps _ (ret _) => apply keeps_ret; tc_solve
  | |- keeps _ (raise _) => apply keeps_raise; tc_solve
  | |- keeps _ out_of_fuel => apply keeps_out_of_fuel; tc_solve
  | |- keeps _ get_node => apply keeps_get_node; tc_solve
  | |- keeps _ (assert _) => apply keeps_assert; tc_solve
  | |- keeps _ (py_index _ _) => apply keeps_py_index; tc_solve
  | |- keeps _ (uint32 _) => apply keeps_uint32; tc_solve
  | |- keeps _ (uint64 _) => apply keeps_uint64; tc_solve
  | |- keeps _ (try_except _ _) => apply keeps_try_except; [tc_solve| |intros ?]
  | |- keeps _ (try_finally _ _) => apply keeps_try_finally; [tc_solve| |]
  | |- keeps _ (for_each _ _) => apply keeps_for_each; [tc_solve|intros ?]
  | |- keeps _ (with_lock _ _) =>
      apply keeps_with_lock; [tc_solve|by apply maintained_call|by apply maintained_call|]
  | |- keeps _ (call _) => first [ by apply maintained_call | done ]
  | |- keeps _ (modify_node set_validation_primitives) => apply maintained_validation
  | |- keeps _ (modify_node (λ n, set_untrusted_caches _ n)) => apply maintained_caches
  | |- keeps _ (modify_node _) => apply throughout_node
  | |- keeps _ (advance_finished_sync_up_to _) => apply throughout_advance
  | |- keeps _ (if ?b then _ else _) => destruct b
  | |- keeps _ (match ?x with _ => _ end) => destruct x
  | |- keeps _ _ => done
  end.

(** The handlers that validate and apply coin states maintain a
    [Maintained] relation. *)
Section KeepsValidation.
Context `{env : Env} (R : State → State → Prop) `{!Maintained R}.

Lemma keeps_is_trusted peer : keeps R (is_trusted peer).
Proof. unfold is_trusted. repeat keeps_step. Qed.

Lemma keeps_set_cache peer c : keeps R (set_cache peer c).
Proof. unfold set_cache. apply maintained_caches. Qed.

Lemma keeps_modify_cache peer f : keeps R (modify_cache peer f).
Proof. unfold modify_cache. apply maintained_caches. Qed.

Lemma keeps_get_cache_for_peer peer : keeps R (get_cache_for_peer peer).
Proof.
  unfold get_cache_for_peer. pose proof keeps_set_cache. repeat keeps_step.
Qed.

Lemma keeps_update_ui : keeps R update_ui.
Proof. unfold update_ui. repeat keeps_step. Qed.

Lemma keeps_header_block_at peer height use_cache check_height :
  keeps R (header_block_at peer height use_cache check_height).
Proof.
  unfold header_block_at. pose proof keeps_modify_cache. repeat keeps_step.
Qed.

Lemma keeps_fetch_blocks peer start end_ batches acc :
  keeps R (fetch_blocks peer start end_ batches acc).
Proof.
  revert acc. induction batches as [|i batches IH]; intros acc; simpl.
  - repeat keeps_step.
  - pose proof keeps_modify_cache. repeat keeps_step.
Qed.

Lemma keeps_validate_block_inclusion block peer :
  keeps R (validate_block_inclusion block peer).
Proof.
  unfold validate_block_inclusion.
  pose proof keeps_modify_cache. pose proof keeps_fetch_blocks.
  repeat keeps_step.
Qed.

Lemma keeps_validate_inclusions coin_state peer current state_block :
  keeps R (validate_inclusions coin_state peer current state_block).
Proof.
  unfold validate_inclusions. cbv zeta.
  pose proof keeps_modify_cache. pose proof keeps_header_block_at.
  pose proof keeps_validate_block_inclusion.
  repeat keeps_step.
Qed.

(** From here on the answer of the additions proof is maintained too. *)
Hypothesis R_additions :
  ∀ peer height header_hash ph root,
    keeps R (call (RequestAndValidateAdditions peer height header_hash ph root)).

Lemma keeps_validate_received_state_from_peer coin_state peer fork_height :
  keeps R (validate_received_state_from_peer coin_state peer fork_height).
Proof.
  unfold validate_received_state_from_peer. cbv zeta.
  pose proof keeps_header_block_at. pose proof keeps_validate_inclusions.
  repeat keeps_step.
Qed.

(** A replayed coin state: [header_hash] is [None] and the race cache is
    not written. *)
Lemma keeps_receive_and_validate_replayed trusted peer fork_height height inner_state :
  keeps R (receive_and_validate trusted peer fork_height height None inner_state).
Proof.
  unfold receive_and_validate.
  pose proof keeps_validate_received_state_from_peer.
  repeat keeps_step.
Qed.

Lemma keeps_receive_state_from_peer_replayed items peer fork_height height :
  keeps R (receive_state_from_peer items peer fork_height height None).
Proof.
  unfold receive_state_from_peer.
  pose proof keeps_is_trusted. pose proof keeps_get_cache_for_peer.
  pose proof keeps_set_cache. pose proof keeps_update_ui.
  pose proof keeps_receive_and_validate_replayed.
  repeat keeps_step.
Qed.

Lemma keeps_replay_race_cache backtrack_fork_height peak peer :
  keeps R (replay_race_cache backtrack_fork_height peak peer).
Proof.
  unfold replay_race_cache.
  pose proof keeps_receive_state_from_peer_replayed.
  repeat keeps_step.
Qed.

End KeepsValidation.

(** Every handler maintains a [MaintainedThroughout] relation. *)
Section KeepsHandlers.
Context `{env : Env} (R : State → State → Prop) `{!MaintainedThroughout R}.

Lemma keeps_add_state_to_race_cache header_hash height coin_state :
  keeps R (add_state_to_race_cache header_hash height coin_state).
Proof. unfold add_state_to_race_cache. cbv zeta. repeat keeps_step. Qed.

Lemma keeps_receive_and_validate trusted peer fork_height height header_hash inner_state :
  keeps R (receive_and_validate trusted peer fork_height height header_hash inner_state).
Proof.
  unfold receive_and_validate.
  pose proof keeps_add_state_to_race_cache.
  pose proof (keeps_validate_received_state_from_peer R throughout_additions).
  repeat keeps_step.
Qed.

Lemma keeps_receive_state_from_peer items peer fork_height height header_hash :
  keeps R (receive_state_from_peer items peer fork_height height header_hash).
Proof.
  unfold receive_state_from_peer.
  pose proof (keeps_is_trusted R). pose proof (keeps_get_cache_for_peer R).
  pose proof (keeps_set_cache R). pose proof (keeps_update_ui R).
  pose proof keeps_receive_and_validate.
  repeat keeps_step.
Qed.

Lemma keeps_subscribe_to_phs puzzle_hashes peer syncing min_height fork_height :
  keeps R (subscribe_to_phs puzzle_hashes peer syncing min_height fork_height).
Proof. unfold subscribe_to_phs. pose proof (keeps_is_trusted R). repeat keeps_step. Qed.

Lemma keeps_subscribe_to_coin_updates coin_names peer syncing min_height fork_height :
  keeps R (subscribe_to_coin_updates coin_names peer syncing min_height fork_height).
Proof. unfold subscribe_to_coin_updates. pose proof (keeps_is_trusted R). repeat keeps_step. Qed.

Lemma keeps_is_peer_synced peer height request_time :
  keeps R (is_peer_synced peer height request_time).
Proof. unfold is_peer_synced. repeat keeps_step. Qed.

Lemma keeps_rollback_request_caches reorg_height :
  keeps R (rollback_request_caches reorg_height).
Proof. unfold rollback_request_caches. apply throughout_node. Qed.

Lemma keeps_disconnect_and_stop_wpeers : keeps R disconnect_and_stop_wpeers.
Proof. unfold disconnect_and_stop_wpeers. pose proof (keeps_is_trusted R). repeat keeps_step. Qed.

Lemma keeps_get_puzzle_hashes_to_subscribe : keeps R get_puzzle_hashes_to_subscribe.
Proof. unfold get_puzzle_hashes_to_subscribe. repeat keeps_step. Qed.

Lemma keeps_get_coin_ids_to_subscribe min_height : keeps R (get_coin_ids_to_subscribe min_height).
Proof. unfold get_coin_ids_to_subscribe. repeat keeps_step. Qed.

Lemma keeps_subscribe_ph_chunks full_node syncing min_height fork_height ph_chunks already :
  keeps R (subscribe_ph_chunks full_node syncing min_height fork_height ph_chunks already).
Proof.
  revert already. induction ph_chunks as [|chunk ph_chunks IH]; intros already; simpl.
  - repeat keeps_step.
  - pose proof keeps_subscribe_to_phs. pose proof keeps_receive_state_from_peer.
    repeat keeps_step.
Qed.

Lemma keeps_subscribe_coin_chunks full_node syncing min_height fork_height chunks_ already :
  keeps R (subscribe_coin_chunks full_node syncing min_height fork_height chunks_ already).
Proof.
  revert already. induction chunks_ as [|chunk chunks_ IH]; intros already; simpl.
  - repeat keeps_step.
  - pose proof keeps_subscribe_to_coin_updates. pose proof keeps_receive_state_from_peer.
    repeat keeps_step.
Qed.

Lemma keeps_subscribe_all_puzzle_hashes fuel full_node syncing min_height fork_height
    continue_while all_puzzle_hashes already :
  keeps R (subscribe_all_puzzle_hashes fuel full_node syncing min_height fork_height
             continue_while all_puzzle_hashes already).
Proof.
  revert continue_while all_puzzle_hashes already.
  induction fuel as [|fuel IH]; intros continue_while all_puzzle_hashes already; simpl.
  - repeat keeps_step.
  - pose proof keeps_subscribe_ph_chunks. pose proof keeps_get_puzzle_hashes_to_subscribe.
    destruct continue_while; simpl; repeat keeps_step.
Qed.

Lemma keeps_subscribe_all_coin_ids fuel full_node syncing min_height fork_height
    continue_while all_coin_ids already :
  keeps R (subscribe_all_coin_ids fuel full_node syncing min_height fork_height
             continue_while all_coin_ids already).
Proof.
  revert continue_while all_coin_ids already.
  induction fuel as [|fuel IH]; intros continue_while all_coin_ids already; simpl.
  - repeat keeps_step.
  - pose proof keeps_subscribe_coin_chunks. pose proof keeps_get_coin_ids_to_subscribe.
    destruct continue_while; simpl; repeat keeps_step.
Qed.

Lemma keeps_long_sync fuel target_height full_node syncing fork_height :
  keeps R (long_sync fuel target_height full_node syncing fork_height).
Proof.
  unfold long_sync.
  pose proof (keeps_is_trusted R). pose proof (keeps_update_ui R).
  pose proof keeps_rollback_request_caches.
  pose proof keeps_get_puzzle_hashes_to_subscribe.
  pose proof keeps_get_coin_ids_to_subscribe.
  pose proof keeps_subscribe_all_puzzle_hashes.
  pose proof keeps_subscribe_all_coin_ids.
  repeat keeps_step.
Qed.

Lemma keeps_fetch_back fuel peer top blocks_ fork_height :
  keeps R (fetch_back fuel peer top blocks_ fork_height).
Proof.
  revert top blocks_ fork_height.
  induction fuel as [|fuel IH]; intros top blocks_ fork_height; simpl; repeat keeps_step.
Qed.

Lemma keeps_wallet_short_sync_backtrack fuel header_block peer :
  keeps R (wallet_short_sync_backtrack fuel header_block peer).
Proof.
  unfold wallet_short_sync_backtrack.
  pose proof keeps_fetch_back. pose proof (keeps_update_ui R).
  pose proof keeps_rollback_request_caches.
  repeat keeps_step.
Qed.

Lemma keeps_fetch_and_validate_the_weight_proof peer peak :
  keeps R (fetch_and_validate_the_weight_proof peer peak).
Proof. unfold fetch_and_validate_the_weight_proof. repeat keeps_step. Qed.

Lemma keeps_sync_to_trusted fuel peak peer header_block latest_timestamp :
  keeps R (sync_to_trusted fuel peak peer header_block latest_timestamp).
Proof.
  unfold sync_to_trusted.
  pose proof keeps_disconnect_and_stop_wpeers. pose proof keeps_long_sync.
  repeat keeps_step.
Qed.

Lemma keeps_sync_with_weight_proof fuel peak peer header_block far_behind :
  keeps R (sync_with_weight_proof fuel peak peer header_block far_behind).
Proof.
  unfold sync_with_weight_proof. cbv zeta.
  pose proof keeps_fetch_and_validate_the_weight_proof. pose proof keeps_long_sync.
  repeat keeps_step.
Qed.

Lemma keeps_short_sync fuel peak peer header_block :
  keeps R (short_sync fuel peak peer header_block).
Proof.
  unfold short_sync.
  pose proof keeps_wallet_short_sync_backtrack.
  pose proof keeps_get_coin_ids_to_subscribe.
  pose proof keeps_get_puzzle_hashes_to_subscribe.
  pose proof keeps_subscribe_to_phs. pose proof keeps_subscribe_to_coin_updates.
  pose proof keeps_receive_state_from_peer.
  pose proof (keeps_replay_race_cache R throughout_additions).
  repeat keeps_step.
Qed.

Lemma keeps_finish_new_peak peak peer : keeps R (finish_new_peak peak peer).
Proof. unfold finish_new_peak. repeat keeps_step. Qed.

Lemma keeps_new_peak_wallet fuel peak peer : keeps R (new_peak_wallet fuel peak peer).
Proof.
  unfold new_peak_wallet.
  pose proof (keeps_is_trusted R). pose proof keeps_is_peer_synced.
  pose proof keeps_sync_to_trusted. pose proof keeps_sync_with_weight_proof.
  pose proof keeps_short_sync. pose proof keeps_finish_new_peak.
  repeat keeps_step.
Qed.

Lemma keeps_new_peaks fuel peaks s : R s (new_peaks fuel peaks s).
Proof.
  unfold new_peaks. revert s. induction peaks as [|[peak peer] peaks IH]; intros s; simpl.
  - reflexivity.
  - etrans; [apply (keeps_new_peak_wallet fuel peak peer s)|apply IH].
Qed.

End KeepsHandlers.

(** ** New peaks that are not heavier *)

Section Discard.
Context `{env : Env}.

(** C1, amended.  [new_peak_wallet] ignores the peak when the wallet has a
    local peak block whose weight is strictly greater than the advertised
    weight: it returns having recorded the peak of the peer in
    [_node_peaks] and nothing else, and the only calls it made are the
    clock, the trust lookup and the reads of the local peak.  The same
    strict test is applied once the low-priority lock is held, and the
    lock is released.  A local peak of equal weight does not discard the
    new peak. *)
Theorem new_peak_wallet_discards_lighter_peak
    (fuel : nat) (peak : NewPeakWallet) (peer : Z) (s : State)
    (now : Z) (trusted : bool) (w1 w2 : W) :
  wallet_state_manager (node s) = true →
  server (node s) = true →
  handle TimeTime (world s) = (Ok now, w1) →
  0 <= now < 2 ^ 64 →
  handle (IsTrustedPeer peer) w1 = (Ok trusted, w2) →
  (∀ hb w3,
     handle GetPeakBlock w2 = (Ok (Some hb), w3) →
     np_weight peak < hb_weight hb →
     new_peak_wallet fuel peak peer s
     = (Ok tt,
        {| node := set_node_peaks
                     (<[peer := (np_height peak, np_header_hash peak)]> (_node_peaks (node s)))
                     (node s);
           world := w3;
           trace := trace s ++ [Called TimeTime (Ok now);
                                Called (IsTrustedPeer peer) (Ok trusted);
                                Called GetPeakBlock (Ok (Some hb))] |}))
  ∧ (∀ first w3 w4 hb w5 w6,
       handle GetPeakBlock w2 = (Ok first, w3) →
       discards peak first = false →
       handle (LockAcquire (NewPeakLock 2)) w3 = (Ok tt, w4) →
       handle GetPeakBlock w4 = (Ok (Some hb), w5) →
       np_weight peak < hb_weight hb →
       handle (LockRelease (NewPeakLock 2)) w5 = (Ok tt, w6) →
       new_peak_wallet fuel peak peer s
       = (Ok tt,
          {| node := set_node_peaks
                       (<[peer := (np_height peak, np_header_hash peak)]> (_node_peaks (node s)))
                       (node s);
             world := w6;
             trace := trace s ++ [Called TimeTime (Ok now);
                                  Called (IsTrustedPeer peer) (Ok trusted);
                                  Called GetPeakBlock (Ok first);
                                  Called (LockAcquire (NewPeakLock 2)) (Ok tt);
                                  Called GetPeakBlock (Ok (Some hb));
                                  Called (LockRelease (NewPeakLock 2)) (Ok tt)] |}))
  ∧ (∀ hb, discards peak (Some hb) = true ↔ np_weight peak < hb_weight hb)
  ∧ discards peak None = false.
Proof.
  intros Hwsm Hsrv Ht Hrange Htr.
  split; [|split; [|split]].
  - intros hb w3 Hpk Hlt.
    unfold new_peak_wallet, is_trusted, uint64.
    repeat mstep.
    rewrite (bool_decide_eq_true_2 (0 <= now < 2 ^ 64)) by done.
    repeat mstep.
    unfold discards. rewrite bool_decide_eq_true_2 by done.
    mfinish.
  - intros first w3 w4 hb w5 w6 Hpk Hkeep Hacq Hpk2 Hlt Hrel.
    unfold new_peak_wallet, is_trusted, uint64.
    repeat mstep.
    rewrite (bool_decide_eq_true_2 (0 <= now < 2 ^ 64)) by done.
    repeat mstep.
    rewrite Hkeep.
    repeat mstep.
    unfold try_finally.
    repeat mstep.
    unfold discards at 1. rewrite bool_decide_eq_true_2 by done.
    unfold ret at 1.
    repeat mstep.
    mfinish.
  - intros hb. unfold discards. apply bool_decide_eq_true.
  - done.
Qed.

End Discard.

(** The lighter peak [peak_99] at the node of the scenario. *)
Lemma new_peak_wallet_discards_lighter_peak_witness :
  (∀ hb w3,
     handle (Env := toy_env) GetPeakBlock scenario_world = (Ok (Some hb), w3) →
     np_weight peak_99 < hb_weight hb →
     new_peak_wallet (env := toy_env) 5 peak_99 7 (toy_init synced_node scenario_world)
     = (Ok tt,
        {| node := set_node_peaks (<[7 := (99, 1099)]> ∅) synced_node;
           world := w3;
           trace := [] ++ [Called TimeTime (Ok 600);
                           Called (IsTrustedPeer 7) (Ok false);
                           Called GetPeakBlock (Ok (Some hb))] |}))
  ∧ (∀ first w3 w4 hb w5 w6,
       handle (Env := toy_env) GetPeakBlock scenario_world = (Ok first, w3) →
       discards peak_99 first = false →
       handle (Env := toy_env) (LockAcquire (NewPeakLock 2)) w3 = (Ok tt, w4) →
       handle (Env := toy_env) GetPeakBlock w4 = (Ok (Some hb), w5) →
       np_weight peak_99 < hb_weight hb →
       handle (Env := toy_env) (LockRelease (NewPeakLock 2)) w5 = (Ok tt, w6) →
       new_peak_wallet (env := toy_env) 5 peak_99 7 (toy_init synced_node scenario_world)
       = (Ok tt,
          {| node := set_node_peaks (<[7 := (99, 1099)]> ∅) synced_node;
             world := w6;
             trace := [] ++ [Called TimeTime (Ok 600);
                             Called (IsTrustedPeer 7) (Ok false);
                             Called GetPeakBlock (Ok first);
                             Called (LockAcquire (NewPeakLock 2)) (Ok tt);
                             Called GetPeakBlock (Ok (Some hb));
                             Called (LockRelease (NewPeakLock 2)) (Ok tt)] |}))
  ∧ (∀ hb, discards peak_99 (Some hb) = true ↔ np_weight peak_99 < hb_weight hb)
  ∧ discards peak_99 None = false.
Proof.
  apply (new_peak_wallet_discards_lighter_peak (env := toy_env) 5 peak_99 7
           (toy_init synced_node scenario_world) 600 false scenario_world scenario_world).
  - reflexivity.
  - reflexivity.
  - reflexivity.
  - lia.
  - reflexivity.
Defined.

(** C1, as stated, fails at equal weights: the local peak of the scenario
    weighs 100, the advertised peak weighs 100, and [new_peak_wallet] does
    not return early: it rolls the wallet back to height 99 and replaces
    the local peak by the block of the peer. *)
Lemma equal_weight_peak_is_processed :
  toy_peak scenario_world = Some (header true false 100 100)
  ∧ hb_weight (header true false 100 100) >= np_weight peak_100
  ∧ (new_peak_wallet (env := toy_env) 5 peak_100 7 (toy_init synced_node scenario_world)).1 = Ok tt
  ∧ rollbacks
      (trace (new_peak_wallet (env := toy_env) 5 peak_100 7 (toy_init synced_node scenario_world)).2)
    = [99]
  ∧ received_blocks
      (trace (new_peak_wallet (env := toy_env) 5 peak_100 7 (toy_init synced_node scenario_world)).2)
    = [header false false 100 100]
  ∧ toy_peak
      (world (new_peak_wallet (env := toy_env) 5 peak_100 7 (toy_init synced_node scenario_world)).2)
    = Some (header false false 100 100).
Proof. vm_compute. repeat split; congruence. Qed.

(** ** Subscriptions *)

Section Subscribe.
Context `{env : Env}.

(** C10.  [subscribe_to_phs] and [subscribe_to_coin_updates], once the
    peer has answered: a missing response yields the empty list; a
    response of an untrusted peer with [syncing = False] raises
    [AssertionError] when [fork_height] is [None] and is returned through
    [filter_coin_states] when [fork_height] is given; in every other case
    (a trusted peer, [syncing] [None] or [True]) the coin states of the
    response are returned as they are. *)
Theorem subscribe_filters_untrusted_unsynced
    (puzzle_hashes coin_names : list Z) (peer : Z) (syncing : option bool)
    (min_height : Z) (fork_height : option Z) (s : State)
    (trusted : bool) (w1 w2 w3 : W) (ph_response coin_response : option (list CoinState)) :
  wallet_state_manager (node s) = true →
  server (node s) = true →
  handle (IsTrustedPeer peer) (world s) = (Ok trusted, w1) →
  handle (RegisterInterestInPuzzleHash peer puzzle_hashes min_height) w1 = (Ok ph_response, w2) →
  handle (RegisterInterestInCoin peer coin_names min_height) w1 = (Ok coin_response, w3) →
  (∀ coin_states, trusted = false → syncing = Some false → fork_height = None →
     (ph_response = Some coin_states →
      (subscribe_to_phs puzzle_hashes peer syncing min_height fork_height s).1
      = Raise AssertionError)
     ∧ (coin_response = Some coin_states →
        (subscribe_to_coin_updates coin_names peer syncing min_height fork_height s).1
        = Raise AssertionError))
  ∧ (∀ coin_states fh, trusted = false → syncing = Some false → fork_height = Some fh →
       (ph_response = Some coin_states →
        (subscribe_to_phs puzzle_hashes peer syncing min_height fork_height s).1
        = Ok (filter_coin_states coin_states fh))
       ∧ (coin_response = Some coin_states →
          (subscribe_to_coin_updates coin_names peer syncing min_height fork_height s).1
          = Ok (filter_coin_states coin_states fh)))
  ∧ (∀ coin_states, trusted = true ∨ syncing = None ∨ syncing = Some true →
       (ph_response = Some coin_states →
        (subscribe_to_phs puzzle_hashes peer syncing min_height fork_height s).1
        = Ok coin_states)
       ∧ (coin_response = Some coin_states →
          (subscribe_to_coin_updates coin_names peer syncing min_height fork_height s).1
          = Ok coin_states))
  ∧ (ph_response = None →
     (subscribe_to_phs puzzle_hashes peer syncing min_height fork_height s).1 = Ok [])
  ∧ (coin_response = None →
     (subscribe_to_coin_updates coin_names peer syncing min_height fork_height s).1 = Ok []).
Proof.
  intros Hwsm Hsrv Htr Hph Hcoin.
  assert ((subscribe_to_phs puzzle_hashes peer syncing min_height fork_height s).1
          = (match ph_response with
             | Some coin_states =>
                 if negb trusted && bool_decide (syncing = Some false) then
                   match fork_height with
                   | None => Raise AssertionError
                   | Some fh => Ok (filter_coin_states coin_states fh)
                   end
                 else Ok coin_states
             | None => Ok []
             end)) as Hphs.
  { unfold subscribe_to_phs, is_trusted. repeat mstep.
    destruct ph_response as [cs|]; [|done].
    destruct (negb trusted && bool_decide (syncing = Some false)); [|done].
    by destruct fork_height. }
  assert ((subscribe_to_coin_updates coin_names peer syncing min_height fork_height s).1
          = (match coin_response with
             | Some coin_states =>
                 if negb trusted && bool_decide (syncing = Some false) then
                   match fork_height with
                   | None => Raise AssertionError
                   | Some fh => Ok (filter_coin_states coin_states fh)
                   end
                 else Ok coin_states
             | None => Ok []
             end)) as Hcoins.
  { unfold subscribe_to_coin_updates, is_trusted. repeat mstep.
    destruct coin_response as [cs|]; [|done].
    destruct (negb trusted && bool_decide (syncing = Some false)); [|done].
    by destruct fork_height. }
  rewrite Hphs, Hcoins. clear Hphs Hcoins.
  split; [|split; [|split; [|split]]].
  - intros cs -> -> ->. split; intros ->; done.
  - intros cs fh -> -> ->. split; intros ->; done.
  - intros cs Hcase. split; intros ->.
    + destruct Hcase as [Ht | [Hs | Hs]]; subst; [done | |]; by destruct trusted.
    + destruct Hcase as [Ht | [Hs | Hs]]; subst; [done | |]; by destruct trusted.
  - by intros ->.
  - by intros ->.
Qed.

End Subscribe.

(** An untrusted peer 7 answers with the coin states created at heights 5
    and 50; the wallet is not syncing and the fork height is 10. *)
Lemma subscribe_filters_untrusted_unsynced_witness :
  (subscribe_to_phs (env := toy_env) [11; 12] 7 (Some false) 0 (Some 10)
     (toy_init started_node (subscription_world false (Some [coin_state_5; coin_state_50])))).1
  = Ok [coin_state_5]
  ∧ (subscribe_to_coin_updates (env := toy_env) [100; 200] 7 (Some false) 0 (Some 10)
       (toy_init started_node (subscription_world false (Some [coin_state_5; coin_state_50])))).1
    = Ok [coin_state_5].
Proof.
  pose proof (subscribe_filters_untrusted_unsynced (env := toy_env)
                [11; 12] [100; 200] 7 (Some false) 0 (Some 10)
                (toy_init started_node
                   (subscription_world false (Some [coin_state_5; coin_state_50])))
                false
                (subscription_world false (Some [coin_state_5; coin_state_50]))
                (subscription_world false (Some [coin_state_5; coin_state_50]))
                (subscription_world false (Some [coin_state_5; coin_state_50]))
                (Some [coin_state_5; coin_state_50]) (Some [coin_state_5; coin_state_50])
                eq_refl eq_refl eq_refl eq_refl eq_refl) as (_ & Hfilter & _).
  destruct (Hfilter [coin_state_5; coin_state_50] 10 eq_refl eq_refl eq_refl) as [Hph Hcoin].
  split; [exact (Hph eq_refl)|exact (Hcoin eq_refl)].
Defined.

Example subscribe_without_fork_height_asserts :
  (subscribe_to_phs (env := toy_env) [11; 12] 7 (Some false) 0 None
     (toy_init started_node (subscription_world false (Some [coin_state_5; coin_state_50])))).1
  = Raise AssertionError.
Proof. reflexivity. Qed.

Example subscribe_without_response_is_empty :
  (subscribe_to_phs (env := toy_env) [11; 12] 7 (Some false) 0 None
     (toy_init started_node (subscription_world false None))).1
  = Ok [].
Proof. reflexivity. Qed.

Example subscribe_trusted_is_unfiltered :
  (subscribe_to_coin_updates (env := toy_env) [100; 200] 7 (Some false) 0 None
     (toy_init started_node (subscription_world true (Some [coin_state_5; coin_state_50])))).1
  = Ok [coin_state_5; coin_state_50].
Proof. reflexivity. Qed.

(** ** The cache of validated weight proofs *)

Section WeightProofCache.
Context `{env : Env}.

(** C7, amended.  Two successive calls of
    [fetch_and_validate_the_weight_proof] that receive weight proofs with
    the same hash, both matching the height and weight of the claimed
    peak, when the hash is not cached yet and the external validator says
    the proof is valid: the first call stores
    [(valid, fork_point, summaries, block_records)] in [valid_wp_cache],
    the second call returns the cached tuple, and the validator is called
    exactly once. *)
Theorem valid_weight_proof_validated_once
    (peer1 peer2 : Z) (peak1 peak2 : HeaderBlock) (s : State)
    (wp1 wp2 : WeightProof) (last1 last2 : HeaderBlock)
    (fork_point : Z) (summaries : list SubEpochSummary) (block_records : list BlockRecord)
    (w1 w2 w3 : W) :
  wallet_state_manager (node s) = true →
  valid_wp_cache (node s) !! weight_proof_get_hash wp1 = None →
  handle (RequestProofOfWeight peer1 (hb_height peak1) (hb_header_hash peak1)) (world s)
  = (Ok (Some wp1), w1) →
  last (recent_chain_data wp1) = Some last1 →
  rcb_height (reward_chain_block last1) = hb_height peak1 →
  rcb_weight (reward_chain_block last1) = hb_weight peak1 →
  handle (ValidateWeightProof wp1) w1 = (Ok (true, fork_point, summaries, block_records), w2) →
  handle (RequestProofOfWeight peer2 (hb_height peak2) (hb_header_hash peak2)) w2
  = (Ok (Some wp2), w3) →
  last (recent_chain_data wp2) = Some last2 →
  rcb_height (reward_chain_block last2) = hb_height peak2 →
  rcb_weight (reward_chain_block last2) = hb_weight peak2 →
  weight_proof_get_hash wp2 = weight_proof_get_hash wp1 →
  ∃ s1 s2,
    fetch_and_validate_the_weight_proof peer1 peak1 s
    = (Ok (true, Some wp1, summaries, block_records), s1)
    ∧ valid_wp_cache (node s1) !! weight_proof_get_hash wp1
      = Some (true, fork_point, summaries, block_records)
    ∧ fetch_and_validate_the_weight_proof peer2 peak2 s1
      = (Ok (true, Some wp2, summaries, block_records), s2)
    ∧ validated_proofs (trace s2) = validated_proofs (trace s) ++ [wp1]
    ∧ valid_wp_cache (node s2) = valid_wp_cache (node s1).
Proof.
  intros Hwsm Hfresh Hreq1 Hlast1 Hh1 Hw1 Hval Hreq2 Hlast2 Hh2 Hw2 Hhash.
  eexists _, _.
  assert (fetch_and_validate_the_weight_proof peer1 peak1 s
          = (Ok (true, Some wp1, summaries, block_records),
             {| node := set_valid_wp_cache
                          (<[weight_proof_get_hash wp1 :=
                               (true, fork_point, summaries, block_records)]>
                             (valid_wp_cache (node s))) (node s);
                world := w2;
                trace := trace s
                         ++ [Called (RequestProofOfWeight peer1 (hb_height peak1)
                                       (hb_header_hash peak1)) (Ok (Some wp1));
                             Called (ValidateWeightProof wp1)
                               (Ok (true, fork_point, summaries, block_records))] |})) as Hfirst.
  { unfold fetch_and_validate_the_weight_proof. repeat mstep.
    unfold bind at 1. rewrite (run_py_index_last _ _ _ Hlast1).
    rewrite bool_decide_eq_false_2 by (intros ?; congruence).
    unfold bind at 1. rewrite (run_py_index_last _ _ _ Hlast1).
    rewrite bool_decide_eq_false_2 by (intros ?; congruence).
    repeat mstep. cbn [world node trace]. rewrite Hfresh. repeat mstep. mfinish. }
  split; [exact Hfirst|]. split.
  { cbn [node valid_wp_cache set_valid_wp_cache]. apply lookup_insert_eq. }
  split; [|split].
  - unfold fetch_and_validate_the_weight_proof. repeat mstep.
    unfold bind at 1. rewrite (run_py_index_last _ _ _ Hlast2).
    rewrite bool_decide_eq_false_2 by (intros ?; congruence).
    unfold bind at 1. rewrite (run_py_index_last _ _ _ Hlast2).
    rewrite bool_decide_eq_false_2 by (intros ?; congruence).
    repeat mstep. cbn [world node trace valid_wp_cache set_valid_wp_cache].
    rewrite Hhash, lookup_insert_eq. repeat mstep. mfinish.
  - cbn [trace]. unfold validated_proofs. rewrite !omap_app. reflexivity.
  - reflexivity.
Qed.

End WeightProofCache.

(** A peer that serves a valid proof twice. *)
Lemma valid_weight_proof_validated_once_witness :
  ∃ s1 s2,
    fetch_and_validate_the_weight_proof (env := toy_env) 7 (header false false 2000 2000)
      (toy_init started_node (proof_world true))
    = (Ok (true, Some proof_2000, [], []), s1)
    ∧ valid_wp_cache (node s1) !! weight_proof_get_hash (Env := toy_env) proof_2000
      = Some (true, 0, [], [])
    ∧ fetch_and_validate_the_weight_proof (env := toy_env) 7 (header false false 2000 2000) s1
      = (Ok (true, Some proof_2000, [], []), s2)
    ∧ validated_proofs (trace s2)
      = validated_proofs (trace (toy_init started_node (proof_world true))) ++ [proof_2000]
    ∧ valid_wp_cache (node s2) = valid_wp_cache (node s1).
Proof.
  apply (valid_weight_proof_validated_once (env := toy_env) 7 7
           (header false false 2000 2000) (header false false 2000 2000)
           (toy_init started_node (proof_world true))
           proof_2000 proof_2000 (header false false 2000 2000) (header false false 2000 2000)
           0 [] [] (proof_world true) (proof_world true) (proof_world true));
    reflexivity.
Defined.

(** C7, as stated, fails for a proof the validator refuses: nothing is
    stored, and the second call validates the same proof again. *)
Lemma invalid_weight_proof_validated_twice :
  (fetch_and_validate_the_weight_proof (env := toy_env) 7 (header false false 2000 2000)
     (toy_init started_node (proof_world false))).1
  = Ok (false, Some proof_2000, [], [])
  ∧ valid_wp_cache
      (node (fetch_and_validate_the_weight_proof (env := toy_env) 7
               (header false false 2000 2000)
               (toy_init started_node (proof_world false))).2)
    = ∅
  ∧ (fetch_and_validate_the_weight_proof (env := toy_env) 7 (header false false 2000 2000)
       (fetch_and_validate_the_weight_proof (env := toy_env) 7
          (header false false 2000 2000)
          (toy_init started_node (proof_world false))).2).1
    = Ok (false, Some proof_2000, [], [])
  ∧ validated_proofs
      (trace (fetch_and_validate_the_weight_proof (env := toy_env) 7
                (header false false 2000 2000)
                (fetch_and_validate_the_weight_proof (env := toy_env) 7
                   (header false false 2000 2000)
                   (toy_init started_node (proof_world false))).2).2)
    = [proof_2000; proof_2000].
Proof. repeat split; reflexivity. Qed.

(** ** The race cache *)

Section RaceCache.
Context `{env : Env}.

(** Nothing ever enters [race_cache_hashes]: while the list is empty,
    [add_state_to_race_cache] evicts nothing, adds the coin state to the
    set of its header hash and leaves the list empty. *)
Lemma add_state_to_race_cache_without_hashes
    (header_hash height : Z) (coin_state : CoinState) (s : State) :
  race_cache_hashes (node s) = [] →
  add_state_to_race_cache header_hash height coin_state s
  = (Ok tt,
     {| node := set_race_cache
                  (<[header_hash := {[coin_state]} ∪ default ∅ (race_cache (node s) !! header_hash)]>
                     (race_cache (node s))) (node s);
        world := world s; trace := trace s |}).
Proof.
  intros Hnil. unfold add_state_to_race_cache. cbv zeta.
  repeat mstep. rewrite Hnil. cbn [for_each]. repeat mstep.
  cbn [race_cache_hashes set_race_cache_hashes]. rewrite Hnil.
  destruct s as [[] w tr]. cbn in *. subst.
  destruct (race_cache0 !! header_hash) as [old|] eqn:E.
  - rewrite bool_decide_eq_true_2 by eauto. repeat mstep. unfold modify_node.
    cbn. rewrite E. reflexivity.
  - rewrite bool_decide_eq_false_2 by (intros [? ?]; done). repeat mstep.
    unfold modify_node. cbn. rewrite lookup_insert_eq. cbn.
    by rewrite insert_insert_eq.
Qed.

End RaceCache.

(** C5 at the failing input: after the inserts at heights 10, 100, 150 and
    260 the parallel list is still empty and the entries of heights 10,
    100 and 150 are all still in the race cache. *)
Theorem race_cache_is_never_evicted :
  (four_inserts (toy_init started_node scenario_world)).1 = Ok tt
  ∧ race_cache_hashes (node (four_inserts (toy_init started_node scenario_world)).2) = []
  ∧ race_cache (node (four_inserts (toy_init started_node scenario_world)).2) !! 1010
    = Some {[coin_state_5]}
  ∧ race_cache (node (four_inserts (toy_init started_node scenario_world)).2) !! 1100
    = Some {[coin_state_50]}
  ∧ race_cache (node (four_inserts (toy_init started_node scenario_world)).2) !! 1150
    = Some {[coin_state_5]}
  ∧ race_cache (node (four_inserts (toy_init started_node scenario_world)).2) !! 1260
    = Some {[coin_state_50]}.
Proof. repeat split; reflexivity. Qed.

(** ** [finished_sync_up_to] *)

Section FinishedSyncUpTo.
Context `{env : Env}.

Lemma guarded_after_snoc previous tr ev :
  guarded_after previous (tr ++ [ev])
  = guarded_after previous tr
    && may_follow (match last tr with
                   | Some l => get_finished_answer l
                   | None => previous
                   end) ev.
Proof.
  revert previous. induction tr as [|x tr IH]; intros previous.
  - cbn. by rewrite andb_true_r.
  - cbn [app guarded_after]. rewrite IH, andb_assoc. f_equal.
    destruct tr as [|y tr]; [done|]. rewrite last_cons_cons, last_cons.
    by destruct (last tr).
Qed.

Lemma guarded_after_snoc_plain previous tr ev :
  set_finished_height ev = None →
  guarded_after previous (tr ++ [ev]) = guarded_after previous tr.
Proof.
  intros Hev. rewrite guarded_after_snoc. unfold may_follow. rewrite Hev.
  apply andb_true_r.
Qed.

#[local] Instance guards_kept_preorder : PreOrder guards_kept.
Proof. split; unfold guards_kept; [by intros ?|intros ? ? ?; eauto]. Qed.

Lemma guards_kept_call {X} (e : Ext X) :
  is_set_finished_sync_up_to e = false → keeps guards_kept (call e).
Proof.
  intros He s. unfold guards_kept, call, sets_are_guarded.
  destruct (handle e (world s)) as [r w]. cbn [snd trace].
  rewrite guarded_after_snoc_plain; [done|].
  by destruct e.
Qed.

Lemma guards_kept_advance height : keeps guards_kept (advance_finished_sync_up_to height).
Proof.
  intros s. unfold guards_kept, advance_finished_sync_up_to, bind, call, sets_are_guarded.
  destruct (handle GetFinishedSyncUpTo (world s)) as [[finished|e|] w];
    cbn [snd trace]; try by rewrite guarded_after_snoc_plain.
  destruct (bool_decide (height > finished)) eqn:Hgt; cbn [snd trace world].
  - destruct (handle (SetFinishedSyncUpTo height) w) as [r w']. cbn [snd trace].
    intros Hg. rewrite guarded_after_snoc, guarded_after_snoc_plain by done.
    rewrite Hg. rewrite last_snoc. cbn. by rewrite Hgt.
  - unfold ret. cbn [snd trace]. by rewrite guarded_after_snoc_plain.
Qed.

#[local] Instance guards_kept_maintained : MaintainedThroughout guards_kept.
Proof.
  split; [split| | |].
  - apply _.
  - intros X e He _. by apply guards_kept_call.
  - intros f s. by unfold guards_kept, modify_node.
  - intros s. by unfold guards_kept, modify_node.
  - intros. by apply guards_kept_call.
  - apply guards_kept_advance.
  - intros f s. by unfold guards_kept, modify_node.
Qed.

Variable finished : W → Z.
Hypothesis frame :
  ∀ X (e : Ext X) w,
    is_set_finished_sync_up_to e = false → finished w <= finished (handle e w).2.
Hypothesis get_reads :
  ∀ w answer w', handle GetFinishedSyncUpTo w = (Ok answer, w') → answer = finished w'.
Hypothesis set_writes :
  ∀ h w,
    finished (handle (SetFinishedSyncUpTo h) w).2 = h
    ∨ finished (handle (SetFinishedSyncUpTo h) w).2 = finished w.

#[local] Instance finished_not_lowered_preorder : PreOrder (finished_not_lowered finished).
Proof. split; unfold finished_not_lowered; [intros ?; lia|intros ? ? ?; lia]. Qed.

Lemma finished_not_lowered_call {X} (e : Ext X) :
  is_set_finished_sync_up_to e = false → keeps (finished_not_lowered finished) (call e).
Proof.
  intros He s. unfold finished_not_lowered, call.
  pose proof (frame X e (world s) He) as Hf.
  destruct (handle e (world s)) as [r w]. exact Hf.
Qed.

Lemma finished_not_lowered_advance height :
  keeps (finished_not_lowered finished) (advance_finished_sync_up_to height).
Proof.
  intros s. unfold finished_not_lowered, advance_finished_sync_up_to, bind, call.
  pose proof (frame _ GetFinishedSyncUpTo (world s) eq_refl) as Hf.
  pose proof (get_reads (world s)) as Hg.
  destruct (handle GetFinishedSyncUpTo (world s)) as [[answer|e|] w]; cbn [snd world] in *;
    try done.
  specialize (Hg answer w eq_refl).
  destruct (bool_decide (height > answer)) eqn:Hgt; cbn [snd world]; [|done].
  apply bool_decide_eq_true in Hgt.
  pose proof (set_writes height w) as Hs.
  destruct (handle (SetFinishedSyncUpTo height) w) as [r w']. cbn [snd world] in *. lia.
Qed.

#[local] Instance finished_not_lowered_maintained :
  MaintainedThroughout (finished_not_lowered finished).
Proof.
  split; [split| | |].
  - apply _.
  - intros X e He _. by apply finished_not_lowered_call.
  - intros f s. unfold finished_not_lowered, modify_node. cbn. lia.
  - intros s. unfold finished_not_lowered, modify_node. cbn. lia.
  - intros. by apply finished_not_lowered_call.
  - apply finished_not_lowered_advance.
  - intros f s. unfold finished_not_lowered, modify_node. cbn. lia.
Qed.

(** C8.  [finished_sync_up_to] is non-decreasing across [long_sync],
    across [new_peak_wallet] and across any sequence of processed peaks,
    whatever the handlers return, provided the collaborators do their
    part: no call other than the setter lowers it, the getter answers the
    stored height, and the setter stores the height it is given or fails
    and stores nothing.  The two places that set it, the end of
    [long_sync] and the end of [new_peak_wallet], set it only directly
    after having read a strictly smaller height. *)
Theorem finished_sync_up_to_never_decreases (fuel : nat) :
  (∀ target_height full_node syncing fork_height s,
     finished (world s)
     <= finished (world (long_sync fuel target_height full_node syncing fork_height s).2))
  ∧ (∀ peak peer s,
       finished (world s) <= finished (world (new_peak_wallet fuel peak peer s).2))
  ∧ (∀ peaks s, finished (world s) <= finished (world (new_peaks fuel peaks s)))
  ∧ (∀ target_height full_node syncing fork_height n w,
       sets_are_guarded
         (trace (long_sync fuel target_height full_node syncing fork_height (init n w)).2)
       = true)
  ∧ (∀ peak peer n w,
       sets_are_guarded (trace (new_peak_wallet fuel peak peer (init n w)).2) = true)
  ∧ (∀ height s answer w,
       handle GetFinishedSyncUpTo (world s) = (Ok answer, w) →
       height <= answer →
       advance_finished_sync_up_to height s
       = (Ok tt, {| node := node s; world := w;
                    trace := trace s ++ [Called GetFinishedSyncUpTo (Ok answer)] |})).
Proof.
  split; [|split; [|split; [|split; [|split]]]].
  - intros. apply (keeps_long_sync (finished_not_lowered finished)).
  - intros. apply (keeps_new_peak_wallet (finished_not_lowered finished)).
  - intros. apply (keeps_new_peaks (finished_not_lowered finished)).
  - intros. by apply (keeps_long_sync guards_kept).
  - intros. by apply (keeps_new_peak_wallet guards_kept).
  - intros height s answer w Hget Hle. unfold advance_finished_sync_up_to.
    repeat mstep. rewrite bool_decide_eq_false_2 by lia. mfinish.
Qed.

End FinishedSyncUpTo.

(** The collaborators of the small world do their part. *)
Lemma toy_frame (X : Type) (e : Ext X) (w : Toy) :
  is_set_finished_sync_up_to e = false →
  toy_finished_sync_up_to w <= toy_finished_sync_up_to (handle (Env := toy_env) e w).2.
Proof.
  intros He. destruct e; try discriminate He; cbn; try lia.
  destruct (assoc _ _); cbn; lia.
Qed.

Lemma toy_get_reads (w : Toy) (answer : Z) (w' : Toy) :
  handle (Env := toy_env) GetFinishedSyncUpTo w = (Ok answer, w') →
  answer = toy_finished_sync_up_to w'.
Proof. cbn. intros [= <- <-]. reflexivity. Qed.

Lemma toy_set_writes (h : Z) (w : Toy) :
  toy_finished_sync_up_to (handle (Env := toy_env) (SetFinishedSyncUpTo h) w).2 = h
  ∨ toy_finished_sync_up_to (handle (Env := toy_env) (SetFinishedSyncUpTo h) w).2
    = toy_finished_sync_up_to w.
Proof. by left. Qed.

(** The peaks 103, 99 and 100 of the scenario, one after the other. *)
Lemma finished_sync_up_to_never_decreases_witness :
  toy_finished_sync_up_to scenario_world
  <= toy_finished_sync_up_to
       (world (new_peaks (env := toy_env) 5 [(peak_103, 7); (peak_99, 7); (peak_100, 7)]
                 (toy_init synced_node scenario_world)))
  ∧ sets_are_guarded
      (trace (new_peak_wallet (env := toy_env) 5 peak_103 7
                (toy_init synced_node scenario_world)).2)
    = true.
Proof.
  pose proof (finished_sync_up_to_never_decreases (env := toy_env)
                toy_finished_sync_up_to toy_frame toy_get_reads toy_set_writes 5)
    as (_ & _ & Hpeaks & _ & Hguard & _).
  split.
  - apply (Hpeaks [(peak_103, 7); (peak_99, 7); (peak_100, 7)]
             (toy_init synced_node scenario_world)).
  - apply (Hguard peak_103 7 synced_node scenario_world).
Defined.

Example finished_sync_up_to_advances_to_103 :
  toy_finished_sync_up_to
    (world (new_peaks (env := toy_env) 5 [(peak_103, 7); (peak_99, 7); (peak_100, 7)]
              (toy_init synced_node scenario_world)))
  = 103.
Proof. reflexivity. Qed.

(** ** Replaying the race cache *)

Section Replay.
Context `{env : Env}.

#[local] Instance same_race_cache_preorder : PreOrder same_race_cache.
Proof. split; unfold same_race_cache; [done|intros ? ? ?; congruence]. Qed.

#[local] Instance same_race_cache_maintained : Maintained same_race_cache.
Proof.
  split.
  - apply _.
  - intros X e _ _ s. unfold same_race_cache, call.
    by destruct (handle e (world s)).
  - intros f s. by unfold same_race_cache, modify_node.
  - intros s. by unfold same_race_cache, modify_node.
Qed.

Lemma same_race_cache_additions peer height header_hash ph root :
  keeps same_race_cache (call (RequestAndValidateAdditions peer height header_hash ph root)).
Proof. intros s. unfold same_race_cache, call. by destruct (handle _ (world s)). Qed.

Lemma py_range_single (h : Z) : py_range (h - 1 + 1) (h + 1) 1 = [h].
Proof.
  unfold py_range. replace ((h + 1 - (h - 1 + 1) + 1 - 1) / 1) with 1
    by (rewrite Z.div_1_r; lia).
  change (Z.to_nat 1) with 1%nat. cbn. f_equal. lia.
Qed.

(** C6, amended.  Replaying the race cache for the header hash of a block
    feeds [receive_state_from_peer] with exactly the coin states stored
    under that hash, and does not remove the entry: whatever the heights
    replayed and whatever the outcome, the race cache after the replay is
    the race cache before it, and the replayed header hashes are still
    present. *)
Theorem replay_feeds_and_keeps_race_cache
    (peak : NewPeakWallet) (peer : Z) (s : State)
    (header_hash : Z) (states : gset CoinState) (w' : W) :
  0 <= np_height peak < 2 ^ 32 →
  handle (HeightToHash (np_height peak)) (world s) = (Ok header_hash, w') →
  race_cache (node s) !! header_hash = Some states →
  replay_race_cache (np_height peak - 1) peak peer s
  = receive_state_from_peer (elements states) peer None None None
      {| node := node s; world := w';
         trace := trace s ++ [Called (HeightToHash (np_height peak)) (Ok header_hash)] |}
  ∧ (∀ backtrack_fork_height,
       race_cache (node (replay_race_cache backtrack_fork_height peak peer s).2)
       = race_cache (node s))
  ∧ (∀ backtrack_fork_height,
       race_cache (node (replay_race_cache backtrack_fork_height peak peer s).2) !! header_hash
       = Some states).
Proof.
  intros Hrange Hhash Hstates.
  assert (∀ backtrack_fork_height,
            race_cache (node (replay_race_cache backtrack_fork_height peak peer s).2)
            = race_cache (node s)) as Hsame.
  { intros bfh.
    apply (keeps_replay_race_cache same_race_cache same_race_cache_additions bfh peak peer s). }
  split; [|split; [done|]].
  - unfold replay_race_cache. rewrite py_range_single. cbn [for_each].
    unfold uint32. rewrite bool_decide_eq_true_2 by done.
    repeat mstep. cbn [world node trace]. rewrite Hstates.
    unfold bind.
    destruct (receive_state_from_peer _ _ _ _ _ _) as [[[]|e|] s']; reflexivity.
  - intros bfh. by rewrite Hsame.
Qed.

End Replay.

(** The replay of the block at height 103 after the short sync of the
    scenario. *)
Lemma after_short_sync_hash :
  handle (Env := toy_env) (HeightToHash (np_height peak_103)) (world after_short_sync)
  = (Ok 1103, world after_short_sync).
Proof. vm_compute. reflexivity. Qed.

Lemma after_short_sync_race_cache :
  race_cache (node after_short_sync) !! 1103 = Some ({[coin_state_5]} : gset CoinState).
Proof. by_evaluation. Qed.

Lemma peak_103_height : 0 <= np_height peak_103 < 2 ^ 32.
Proof. cbn. lia. Qed.

Lemma replay_feeds_and_keeps_race_cache_witness :
  replay_race_cache (env := toy_env) (np_height peak_103 - 1) peak_103 7 after_short_sync
  = receive_state_from_peer (env := toy_env) (elements ({[coin_state_5]} : gset CoinState))
      7 None None None
      {| node := node after_short_sync; world := world after_short_sync;
         trace := trace after_short_sync
                  ++ [Called (HeightToHash (np_height peak_103)) (Ok 1103)] |}
  ∧ (∀ backtrack_fork_height,
       race_cache
         (node (replay_race_cache (env := toy_env) backtrack_fork_height peak_103 7
                  after_short_sync).2)
       = race_cache (node after_short_sync))
  ∧ (∀ backtrack_fork_height,
       race_cache
         (node (replay_race_cache (env := toy_env) backtrack_fork_height peak_103 7
                  after_short_sync).2) !! 1103
       = Some {[coin_state_5]}).
Proof.
  exact (replay_feeds_and_keeps_race_cache (env := toy_env) peak_103 7 after_short_sync 1103
           {[coin_state_5]} (world after_short_sync)
           peak_103_height after_short_sync_hash after_short_sync_race_cache).
Defined.

(** C6, as stated, fails: the node of the scenario holds a coin state for
    the block 1103 in its race cache; [new_peak_wallet] short-syncs to
    that block, replays the coin state (it reaches [new_coin_state]), and
    the entry is still in the race cache afterwards. *)
Lemma replayed_entry_stays_in_race_cache :
  (new_peak_wallet (env := toy_env) 5 peak_103 7 (toy_init racing_node scenario_world)).1
  = Ok tt
  ∧ applied_coin_states
      (trace (new_peak_wallet (env := toy_env) 5 peak_103 7
                (toy_init racing_node scenario_world)).2)
    = [[coin_state_5]]
  ∧ race_cache
      (node (new_peak_wallet (env := toy_env) 5 peak_103 7
               (toy_init racing_node scenario_world)).2) !! 1103
    = Some {[coin_state_5]}.
Proof. repeat split; by_evaluation. Qed.

(** ** A refused additions proof *)

Section Additions.
Context `{env : Env}.

Lemma additions_answers_snoc_plain {X} (e : Ext X) (r : Result X) tr :
  is_request_and_validate_additions e = false →
  additions_answers (tr ++ [Called e r]) = additions_answers tr.
Proof.
  intros He. unfold additions_answers. rewrite omap_app. cbn.
  destruct e; try discriminate He; by rewrite app_nil_r.
Qed.

#[local] Instance same_additions_answers_preorder : PreOrder same_additions_answers.
Proof. split; unfold same_additions_answers; [done|intros ? ? ?; congruence]. Qed.

#[local] Instance same_additions_answers_maintained : Maintained same_additions_answers.
Proof.
  split.
  - apply _.
  - intros X e _ He s. unfold same_additions_answers, call.
    destruct (handle e (world s)) as [r w]. cbn [snd trace].
    by apply additions_answers_snoc_plain.
  - intros f s. by unfold same_additions_answers, modify_node.
  - intros s. by unfold same_additions_answers, modify_node.
Qed.

Lemma states_validated_set_blocks peer v n :
  states_validated
    (cache_of peer (set_untrusted_caches
                      (<[peer := set_blocks v (cache_of peer n)]> (untrusted_caches n)) n))
  = states_validated (cache_of peer n).
Proof. unfold cache_of. cbn. by rewrite lookup_insert_eq. Qed.

Lemma peer_closes_snoc_plain {X} (e : Ext X) (r : Result X) tr :
  (match e with PeerClose _ _ => false | _ => true end) = true →
  peer_closes (tr ++ [Called e r]) = peer_closes tr.
Proof.
  intros He. unfold peer_closes. rewrite omap_app. cbn.
  destruct e; try discriminate He; by rewrite app_nil_r.
Qed.

(** What [header_block_at] leaves alone. *)
Lemma header_block_at_footprint peer height use_cache check_height s :
  additions_answers (trace (header_block_at peer height use_cache check_height s).2)
  = additions_answers (trace s)
  ∧ peer_closes (trace (header_block_at peer height use_cache check_height s).2)
    = peer_closes (trace s)
  ∧ states_validated
      (cache_of peer (node (header_block_at peer height use_cache check_height s).2))
    = states_validated (cache_of peer (node s)).
Proof.
  split.
  { apply (keeps_header_block_at same_additions_answers). }
  remember (header_block_at peer height use_cache check_height s) as out eqn:Hout.
  unfold header_block_at in Hout. rewrite run_bind_get_node in Hout.
  destruct (if use_cache then blocks (cache_of peer (node s)) !! height else None) as [hb|];
    [by subst out|].
  unfold bind at 1, call in Hout.
  destruct (handle (RequestHeaderBlocks peer height height) (world s)) as [[res|e|] w];
    cbn [fst snd trace node] in Hout;
    [|subst out; cbn [snd trace node]; by rewrite peer_closes_snoc_plain..].
  destruct res as [header_blocks|];
    [|subst out; cbn [raise snd trace node]; by rewrite peer_closes_snoc_plain].
  unfold bind at 1, py_index in Hout. cbv zeta in Hout.
  destruct (bool_decide _);
    [subst out; cbn [raise snd trace node]; by rewrite peer_closes_snoc_plain|].
  destruct (header_blocks !! _) as [hb|];
    [|subst out; cbn [raise snd trace node]; by rewrite peer_closes_snoc_plain].
  cbn [ret] in Hout. unfold bind at 1 in Hout.
  destruct (negb check_height || bool_decide (hb_height hb = height));
    cbn [assert ret raise] in Hout;
    [|subst out; cbn [raise snd trace node]; by rewrite peer_closes_snoc_plain].
  unfold modify_cache in Hout. rewrite run_bind_modify_node in Hout.
  subst out. cbn [ret snd trace node].
  rewrite peer_closes_snoc_plain by done. split; [done|]. apply states_validated_set_blocks.
Qed.

Lemma snoc_not_self {A} (l : list A) (x : A) : l ≠ l ++ [x].
Proof.
  intros Heq. apply (f_equal length) in Heq. rewrite length_app in Heq. simpl in Heq. lia.
Qed.

Lemma additions_answers_snoc peer height header_hash ph root r tr :
  additions_answers (tr ++ [Called (RequestAndValidateAdditions peer height header_hash ph root) r])
  = additions_answers tr ++ [r].
Proof. unfold additions_answers. by rewrite omap_app. Qed.

Ltac no_additions Hf :=
  exfalso; cbn [ret raise fst snd trace node world] in Hf;
  rewrite ?additions_answers_snoc_plain in Hf by done;
  first [ by destruct (snoc_not_self _ _ Hf)
        | by (etrans; [symmetry; eassumption|]; eauto) ].

(** C3.  Whenever [validate_received_state_from_peer] requests the
    additions proof and the check returns false, the very next call closes
    that peer with code 9999, the coin state is not inserted into the
    validated-states cache of the peer, and the validation returns false
    (or passes on what [peer.close] raised). *)
Theorem refused_additions_proof_closes_peer
    (coin_state : CoinState) (peer : Z) (fork_height : option Z) (s : State) :
  additions_answers (trace (validate_received_state_from_peer coin_state peer fork_height s).2)
  = additions_answers (trace s) ++ [Ok false] →
  ∃ closed,
    peer_closes (trace (validate_received_state_from_peer coin_state peer fork_height s).2)
    = peer_closes (trace s) ++ [(peer, Some 9999, closed)]
    ∧ last (trace (validate_received_state_from_peer coin_state peer fork_height s).2)
      = Some (Called (PeerClose peer (Some 9999)) closed)
    ∧ (validate_received_state_from_peer coin_state peer fork_height s).1
      = match closed with
        | Ok _ => Ok false
        | Raise e => Raise e
        | OutOfFuel => OutOfFuel
        end
    ∧ states_validated
        (cache_of peer (node (validate_received_state_from_peer coin_state peer fork_height s).2))
      = states_validated (cache_of peer (node s)).
Proof.
  remember (validate_received_state_from_peer coin_state peer fork_height s) as out eqn:Hout.
  intros Hf.
  unfold validate_received_state_from_peer in Hout. cbv zeta in Hout.
  rewrite run_bind_get_node in Hout.
  destruct (wallet_state_manager (node s)); cbn [assert] in Hout;
    [rewrite run_bind_ret in Hout|rewrite run_bind_raise in Hout; subst out; no_additions Hf].
  destruct (can_use_peer_request_cache _ _ _); [subst out; no_additions Hf|].
  unfold bind at 1, call at 1 in Hout.
  destruct (handle (GetCoinRecord (coin_name (coin coin_state))) (world s)) as [[current|e|] w1];
    cbn [fst snd trace node world] in Hout; [|subst out; no_additions Hf..].
  match type of Hout with
  | context [if ?c then ret true else _] => destruct c
  end; [subst out; no_additions Hf|].
  match type of Hout with
  | context [match ?c with Some _ => _ | None => ret false end] => destruct c as [confirmed|]
  end; [|subst out; no_additions Hf].
  unfold bind at 1 in Hout.
  match type of Hout with
  | context [header_block_at peer confirmed ?u false ?st] =>
      pose proof (header_block_at_footprint peer confirmed u false st) as (Ha & Hc & Hv);
      destruct (header_block_at peer confirmed u false st) as [[state_block|e|] s2]
  end;
    cbn [fst snd trace node world] in *;
    rewrite additions_answers_snoc_plain in Ha by done;
    rewrite peer_closes_snoc_plain in Hc by done;
    [|subst out; cbn [snd] in Hf; rewrite Ha in Hf; by destruct (snoc_not_self _ _ Hf)..].
  destruct (foliage_transaction_block state_block) as [ftb|];
    [|subst out; cbn [raise snd] in Hf; rewrite Ha in Hf; by destruct (snoc_not_self _ _ Hf)].
  unfold bind at 1, call at 1 in Hout.
  destruct (handle (RequestAndValidateAdditions peer (hb_height state_block)
                      (hb_header_hash state_block) (puzzle_hash (coin coin_state))
                      (additions_root ftb)) (world s2)) as [[[]|e|] w3];
    cbn [fst snd trace node world negb] in Hout.
  - (* the proof is accepted: no further additions proof is requested *)
    exfalso.
    match type of Hout with
    | context [validate_inclusions ?a ?b ?c ?d ?st] =>
        pose proof (keeps_validate_inclusions same_additions_answers a b c d st) as Hk
    end.
    unfold same_additions_answers in Hk. cbn [trace] in Hk. rewrite <- Hout in Hk.
    rewrite Hk, additions_answers_snoc, Ha in Hf.
    apply app_inj_tail in Hf as [_ Hf]. discriminate.
  - (* the proof is refused *)
    unfold bind, call in Hout. cbn [world node trace] in Hout.
    destruct (handle (PeerClose peer (Some 9999)) w3) as [closed w4].
    exists closed.
    assert (out.2 = {| node := node s2; world := w4;
                       trace := (trace s2
                                 ++ [Called (RequestAndValidateAdditions peer (hb_height state_block)
                                               (hb_header_hash state_block)
                                               (puzzle_hash (coin coin_state))
                                               (additions_root ftb)) (Ok false)])
                                ++ [Called (PeerClose peer (Some 9999)) closed] |}) as Hs.
    { subst out. by destruct closed as [[]|e|]. }
    rewrite Hs. cbn [trace node].
    split; [|split; [|split]].
    + unfold peer_closes at 1. rewrite !omap_app. cbn.
      fold (peer_closes (trace s2)). by rewrite app_nil_r, Hc.
    + by rewrite last_snoc.
    + subst out. by destruct closed as [[]|e|].
    + done.
  - exfalso. subst out. cbn [snd trace] in Hf. rewrite additions_answers_snoc, Ha in Hf.
    apply app_inj_tail in Hf as [_ Hf]. discriminate.
  - exfalso. subst out. cbn [snd trace] in Hf. rewrite additions_answers_snoc, Ha in Hf.
    apply app_inj_tail in Hf as [_ Hf]. discriminate.
Qed.
End Additions.

(** The peer of [refusing_world] and the coin state created at height 5. *)
Lemma refusing_world_refuses :
  additions_answers
    (trace (validate_received_state_from_peer (env := toy_env) coin_state_5 7 None
              (toy_init synced_node refusing_world)).2)
  = additions_answers (trace (toy_init synced_node refusing_world)) ++ [Ok false].
Proof. by_evaluation. Qed.

Lemma refused_additions_proof_closes_peer_witness :
  ∃ closed,
    peer_closes
      (trace (validate_received_state_from_peer (env := toy_env) coin_state_5 7 None
                (toy_init synced_node refusing_world)).2)
    = peer_closes (trace (toy_init synced_node refusing_world)) ++ [(7, Some 9999, closed)]
    ∧ last (trace (validate_received_state_from_peer (env := toy_env) coin_state_5 7 None
                     (toy_init synced_node refusing_world)).2)
      = Some (Called (PeerClose 7 (Some 9999)) closed)
    ∧ (validate_received_state_from_peer (env := toy_env) coin_state_5 7 None
         (toy_init synced_node refusing_world)).1
      = match closed with
        | Ok _ => Ok false
        | Raise e => Raise e
        | OutOfFuel => OutOfFuel
        end
    ∧ states_validated
        (cache_of 7
           (node (validate_received_state_from_peer (env := toy_env) coin_state_5 7 None
                    (toy_init synced_node refusing_world)).2))
      = states_validated (cache_of 7 (node (toy_init synced_node refusing_world))).
Proof.
  exact (refused_additions_proof_closes_peer (env := toy_env) coin_state_5 7 None
           (toy_init synced_node refusing_world) refusing_world_refuses).
Defined.

Example refused_additions_proof_returns_false :
  (validate_received_state_from_peer (env := toy_env) coin_state_5 7 None
     (toy_init synced_node refusing_world)).1
  = Ok false.
Proof. by_evaluation. Qed.

Example accepted_additions_proof_is_cached :
  (validate_received_state_from_peer (env := toy_env) coin_state_5 7 None
     (toy_init synced_node scenario_world)).1
  = Ok true
  ∧ states_validated
      (cache_of 7
         (node (validate_received_state_from_peer (env := toy_env) coin_state_5 7 None
                  (toy_init synced_node scenario_world)).2)) !! 100
    = Some coin_state_5.
Proof. split; by_evaluation. Qed.

(** ** The short sync *)

Section ShortSync.
Context `{env : Env}.

Lemma fetch_back_unfold fuel peer top blocks_ fork_height :
  fetch_back fuel peer top blocks_ fork_height
  = (let* known := call (ContainsBlock (prev_header_hash top)) in
     if negb known && bool_decide (hb_height top > 0) then
       match fuel with
       | O => out_of_fuel
       | S fuel' =>
           let* response_prev := call (RequestBlockHeader peer (hb_height top - 1)) in
           match response_prev with
           | None => raise RuntimeError
           | Some prev_head =>
               fetch_back fuel' peer prev_head (blocks_ ++ [prev_head]) (hb_height prev_head - 1)
           end
       end
     else ret (blocks_, fork_height)).
Proof. by destruct fuel. Qed.

(** The collaborators that only notify or store do not fail. *)
Hypothesis rollback_returns : ∀ w h, ∃ w', handle (ReorgRollback h) w = (Ok tt, w').
Hypothesis wallets_returns : ∀ w, ∃ ids w', handle Wallets w = (Ok ids, w').
Hypothesis state_changed_returns :
  ∀ w state wallet_id, ∃ w', handle (StateChanged state wallet_id) w = (Ok tt, w').
Hypothesis receive_block_accepts :
  ∀ w hb, ∃ res err w', handle (ReceiveBlock hb) w = (Ok (res, err), w') ∧ res ≠ INVALID_BLOCK.

Ltac msteps := repeat mstep; cbn [world node trace].

Ltac project H :=
  unfold received_blocks, rollbacks, requested_heights in H;
  rewrite ?omap_app in H; cbn [omap] in H; rewrite ?app_nil_r in H.

Lemma update_ui_returns s :
  ∃ s', update_ui s = (Ok tt, s')
        ∧ node s' = node s
        ∧ received_blocks (trace s') = received_blocks (trace s)
        ∧ rollbacks (trace s') = rollbacks (trace s)
        ∧ requested_heights (trace s') = requested_heights (trace s).
Proof.
  assert (∀ ids s1, ∃ s', for_each ids (λ wallet_id,
                        call (StateChanged "coin_removed" (Some wallet_id)) ;;
                        call (StateChanged "coin_added" (Some wallet_id))) s1 = (Ok tt, s')
                      ∧ node s' = node s1
                      ∧ received_blocks (trace s') = received_blocks (trace s1)
                      ∧ rollbacks (trace s') = rollbacks (trace s1)
                      ∧ requested_heights (trace s') = requested_heights (trace s1)) as Hloop.
  { induction ids as [|wallet_id ids IH]; intros s1; cbn [for_each].
    - by exists s1.
    - destruct (state_changed_returns (world s1) "coin_removed" (Some wallet_id)) as (w2 & H2).
      destruct (state_changed_returns w2 "coin_added" (Some wallet_id)) as (w3 & H3).
      repeat mstep.
      match goal with
      | |- ∃ s', for_each _ _ ?st = _ ∧ _ =>
          destruct (IH st) as (s' & Hrun & Hn & Hb & Hr & Hh)
      end.
      exists s'. split; [done|]. cbn [node trace] in *.
      project Hb. project Hr. project Hh.
      unfold received_blocks, rollbacks, requested_heights. done. }
  unfold update_ui. destruct (wallets_returns (world s)) as (ids & w1 & Hw).
  repeat mstep.
  match goal with
  | |- ∃ s', for_each _ _ ?st = _ ∧ _ =>
      destruct (Hloop ids st) as (s' & Hrun & Hn & Hb & Hr & Hh)
  end.
  exists s'. split; [done|]. cbn [node trace] in *.
  project Hb. project Hr. project Hh.
  unfold received_blocks, rollbacks, requested_heights. done.
Qed.

Lemma receive_blocks_returns (blocks_ : list HeaderBlock) s :
  ∃ s', for_each blocks_ (λ block,
          let* (res, err) := call (ReceiveBlock block) in
          match res with
          | INVALID_BLOCK => raise ValueError
          | _ => ret tt
          end) s = (Ok tt, s')
        ∧ node s' = node s
        ∧ received_blocks (trace s') = received_blocks (trace s) ++ blocks_
        ∧ rollbacks (trace s') = rollbacks (trace s)
        ∧ requested_heights (trace s') = requested_heights (trace s).
Proof.
  revert s. induction blocks_ as [|block blocks_ IH]; intros s; cbn [for_each].
  - exists s. by rewrite app_nil_r.
  - destruct (receive_block_accepts (world s) block) as (res & err & w1 & Hr & Hres).
    repeat mstep.
    match goal with
    | |- ∃ s', _ ?st = _ ∧ _ =>
        destruct (IH st) as (s' & Hrun & Hn & Hb & Hro & Hh)
    end.
    exists s'. split.
    { destruct res; try done. }
    cbn [node trace] in *.
    project Hb. project Hro. project Hh. rewrite <- app_assoc in Hb.
    unfold received_blocks, rollbacks, requested_heights. done.
Qed.


(** The scenario: the local chain answers as long as it is untouched
    ([untouched] holds of the state of the collaborators until the first
    rollback); of the hashes asked about, it contains the predecessor of
    [b100] only; the peer serves [b102], [b101] and [b100]. *)
Variables (peer : Z) (header_block b102 b101 b100 local_peak : HeaderBlock).
Variables (local_height : Z) (known : Z → bool) (untouched : W → Prop).
Hypothesis peak_block_answer :
  ∀ w, untouched w → ∃ w', handle GetPeakBlock w = (Ok (Some local_peak), w') ∧ untouched w'.
Hypothesis peak_height_answer :
  ∀ w, untouched w → ∃ w', handle GetPeakHeight w = (Ok local_height, w') ∧ untouched w'.
Hypothesis contains_block_answer :
  ∀ w hh, untouched w → ∃ w', handle (ContainsBlock hh) w = (Ok (known hh), w') ∧ untouched w'.
Hypothesis served_102 :
  ∀ w, untouched w →
       ∃ w', handle (RequestBlockHeader peer 102) w = (Ok (Some b102), w') ∧ untouched w'.
Hypothesis served_101 :
  ∀ w, untouched w →
       ∃ w', handle (RequestBlockHeader peer 101) w = (Ok (Some b101), w') ∧ untouched w'.
Hypothesis served_100 :
  ∀ w, untouched w →
       ∃ w', handle (RequestBlockHeader peer 100) w = (Ok (Some b100), w') ∧ untouched w'.
Hypothesis height_103 : hb_height header_block = 103.
Hypothesis height_102 : hb_height b102 = 102.
Hypothesis height_101 : hb_height b101 = 101.
Hypothesis height_100 : hb_height b100 = 100.
Hypothesis unknown_102 : known (prev_header_hash header_block) = false.
Hypothesis unknown_101 : known (prev_header_hash b102) = false.
Hypothesis unknown_100 : known (prev_header_hash b101) = false.
Hypothesis known_99 : known (prev_header_hash b100) = true.
Hypothesis not_lighter : hb_weight header_block >= hb_weight local_peak.

(** C2, amended.  The wallet node is started, the local chain answers
    the queries of the scenario ([untouched]) and the notifying
    collaborators return; the header at height 103 is not lighter than the
    local peak; of the predecessors asked about, the one of the block at
    height 100 is the first the local chain contains.  Then
    [wallet_short_sync_backtrack] returns the fork height 99; it requests
    exactly the three headers at heights 102, 101 and 100; it applies
    [receive_block] exactly four times, to the three fetched headers and
    to the new peak header itself, lowest first; and it calls
    [reorg_rollback], with the height 99, exactly when 99 is below the
    height of the local peak (always so when that height is 100). *)
Theorem short_sync_backtracks_to_known_ancestor (fuel : nat) (s : State) :
  wallet_state_manager (node s) = true →
  untouched (world s) →
  (3 <= fuel)%nat →
  ∃ s',
    wallet_short_sync_backtrack fuel header_block peer s = (Ok 99, s')
    ∧ requested_heights (trace s') = requested_heights (trace s) ++ [102; 101; 100]
    ∧ received_blocks (trace s')
      = received_blocks (trace s) ++ [b100; b101; b102; header_block]
    ∧ rollbacks (trace s')
      = rollbacks (trace s) ++ (if bool_decide (99 < local_height) then [99] else []).
Proof.
  intros Hwsm Hu Hfuel.
  destruct fuel as [|[|[|fuel]]]; [lia..|]. clear Hfuel.
  unfold wallet_short_sync_backtrack.
  destruct (peak_block_answer _ Hu) as (w1 & H1 & Hu1).
  destruct (contains_block_answer _ (prev_header_hash header_block) Hu1) as (w2 & H2 & Hu2).
  destruct (contains_block_answer _ (prev_header_hash header_block) Hu2) as (w3 & H3 & Hu3).
  destruct (served_102 _ Hu3) as (w4 & H4 & Hu4).
  destruct (contains_block_answer _ (prev_header_hash b102) Hu4) as (w5 & H5 & Hu5).
  destruct (served_101 _ Hu5) as (w6 & H6 & Hu6).
  destruct (contains_block_answer _ (prev_header_hash b101) Hu6) as (w7 & H7 & Hu7).
  destruct (served_100 _ Hu7) as (w8 & H8 & Hu8).
  destruct (contains_block_answer _ (prev_header_hash b100) Hu8) as (w9 & H9 & Hu9).
  destruct (peak_height_answer _ Hu9) as (w10 & H10 & Hu10).
  rewrite unknown_102 in H2, H3. rewrite unknown_101 in H5. rewrite unknown_100 in H7.
  rewrite known_99 in H9.
  msteps.
  rewrite fetch_back_unfold. msteps.
  rewrite height_103. rewrite (bool_decide_eq_true_2 (103 > 0)) by lia.
  cbn [negb andb]. replace (103 - 1) with 102 by lia. msteps.
  rewrite fetch_back_unfold. msteps.
  rewrite height_102. rewrite (bool_decide_eq_true_2 (102 > 0)) by lia.
  cbn [negb andb]. replace (102 - 1) with 101 by lia. msteps.
  rewrite fetch_back_unfold. msteps.
  rewrite height_101. rewrite (bool_decide_eq_true_2 (101 > 0)) by lia.
  cbn [negb andb]. replace (101 - 1) with 100 by lia. msteps.
  rewrite fetch_back_unfold. msteps.
  cbn [negb andb]. msteps.
  rewrite height_100. replace (100 - 1) with 99 by lia.
  assert (rev ((([header_block] ++ [b102]) ++ [b101]) ++ [b100])
          = [b100; b101; b102; header_block]) as -> by reflexivity.
  destruct (bool_decide (99 < local_height)) eqn:Hlt.
  - destruct (rollback_returns w10 99) as (w11 & H11).
    msteps.
    match goal with
    | |- context [bind update_ui ?k ?st] =>
        destruct (update_ui_returns st) as (s1 & Hui & Hn1 & Hb1 & Hr1 & Hh1);
        unfold bind at 1; rewrite Hui
    end.
    unfold rollback_request_caches. msteps.
    rewrite (bool_decide_eq_true_2 (hb_weight header_block >= hb_weight local_peak))
      by exact not_lighter.
    cbn [assert]. msteps.
    match goal with
    | |- context [bind (for_each _ _) ?k ?st] =>
        destruct (receive_blocks_returns [b100; b101; b102; header_block] st)
          as (s2 & Hrb & Hn2 & Hb2 & Hr2 & Hh2);
        unfold bind at 1; rewrite Hrb
    end.
    exists s2. split; [reflexivity|].
    cbn [node trace] in *.
    project Hb1. project Hr1. project Hh1. project Hb2. project Hr2. project Hh2.
    unfold received_blocks, rollbacks, requested_heights.
    rewrite Hb2, Hr2, Hh2, Hb1, Hr1, Hh1.
    rewrite <- !app_assoc. done.
  - msteps.
    unfold rollback_request_caches. msteps.
    rewrite (bool_decide_eq_true_2 (hb_weight header_block >= hb_weight local_peak))
      by exact not_lighter.
    cbn [assert]. msteps.
    match goal with
    | |- context [bind (for_each _ _) ?k ?st] =>
        destruct (receive_blocks_returns [b100; b101; b102; header_block] st)
          as (s2 & Hrb & Hn2 & Hb2 & Hr2 & Hh2);
        unfold bind at 1; rewrite Hrb
    end.
    exists s2. split; [reflexivity|].
    cbn [node trace] in *.
    project Hb2. project Hr2. project Hh2.
    unfold received_blocks, rollbacks, requested_heights.
    rewrite Hb2, Hr2, Hh2.
    rewrite <- !app_assoc, ?app_nil_r. done.
Qed.

End ShortSync.

(** The scenario instantiates it: the local peak is a block of our own at
    height 100, the chains agree up to height 99, and peer 7 serves its
    blocks 100 to 103. *)
Lemma short_sync_backtracks_to_known_ancestor_witness :
  ∃ s',
    wallet_short_sync_backtrack (env := toy_env) 5 (header false false 103 103) 7
      (toy_init synced_node scenario_world) = (Ok 99, s')
    ∧ requested_heights (trace s') = [102; 101; 100]
    ∧ received_blocks (trace s')
      = [header false false 100 100; header false false 101 101;
         header false false 102 102; header false false 103 103]
    ∧ rollbacks (trace s') = [99].
Proof.
  refine (short_sync_backtracks_to_known_ancestor (env := toy_env) _ _ _ _
            7 (header false false 103 103) (header false false 102 102)
            (header false false 101 101) (header false false 100 100)
            (header true false 100 100) 100
            (λ hh, bool_decide (hh ∈ toy_known scenario_world))
            (λ w, w = scenario_world)
            _ _ _ _ _ _ _ _ _ _ _ _ _ _ _
            5 (toy_init synced_node scenario_world) _ _ _).
  - intros w h. exists w. reflexivity.
  - intros w. exists [1], w. reflexivity.
  - intros w state wallet_id. exists w. reflexivity.
  - intros w hb. exists NEW_PEAK, None, (toy_set_peak hb w). split; [reflexivity | discriminate].
  - intros w ->. exists scenario_world. split; reflexivity.
  - intros w ->. exists scenario_world. split; reflexivity.
  - intros w hh ->. exists scenario_world. split; reflexivity.
  - intros w ->. exists scenario_world. split; reflexivity.
  - intros w ->. exists scenario_world. split; reflexivity.
  - intros w ->. exists scenario_world. split; reflexivity.
  - reflexivity.
  - reflexivity.
  - reflexivity.
  - reflexivity.
  - reflexivity.
  - reflexivity.
  - reflexivity.
  - reflexivity.
  - vm_compute. discriminate.
  - reflexivity.
  - reflexivity.
  - lia.
Defined.

(** C2, as stated, fails on the number of blocks applied: in the scenario
    the short sync returns the fork height 99 after requesting three
    headers, and [receive_block] is applied four times, the fourth time to
    the header of the new peak. *)
Lemma short_sync_applies_four_blocks :
  (wallet_short_sync_backtrack (env := toy_env) 5 (header false false 103 103) 7
     (toy_init synced_node scenario_world)).1 = Ok 99
  ∧ toy_peak_height scenario_world = 100
  ∧ length (requested_heights
              (trace (wallet_short_sync_backtrack (env := toy_env) 5
                        (header false false 103 103) 7
                        (toy_init synced_node scenario_world)).2)) = 3%nat
  ∧ length (received_blocks
              (trace (wallet_short_sync_backtrack (env := toy_env) 5
                        (header false false 103 103) 7
                        (toy_init synced_node scenario_world)).2)) = 4%nat
  ∧ last (received_blocks
            (trace (wallet_short_sync_backtrack (env := toy_env) 5
                      (header false false 103 103) 7
                      (toy_init synced_node scenario_world)).2))
    = Some (header false false 103 103).
Proof. repeat split; vm_compute; reflexivity. Qed.

(** ** The other handlers *)

Ltac msteps := repeat mstep; cbn [world node trace].

(** What a run that returned went through. *)
Section Inversion.
Context `{env : Env}.

Lemma bind_Ok {A B} (m : M A) (k : A → M B) s b s' :
  bind m k s = (Ok b, s') → ∃ a s1, m s = (Ok a, s1) ∧ k a s1 = (Ok b, s').
Proof.
  unfold bind. destruct (m s) as [[a|e|] s1]; [|done..]. intros H. by exists a, s1.
Qed.

Lemma call_Ok {X} (e : Ext X) s a s' :
  call e s = (Ok a, s') →
  ∃ w, handle e (world s) = (Ok a, w)
       ∧ s' = {| node := node s; world := w; trace := trace s ++ [Called e (Ok a)] |}.
Proof.
  unfold call. destruct (handle e (world s)) as [r w]. intros H. simplify_eq. by exists w.
Qed.

Lemma ret_Ok {A} (a b : A) s s' : ret a s = (Ok b, s') → a = b ∧ s' = s.
Proof. unfold ret. intros H. by simplify_eq. Qed.

Lemma assert_Ok (b : bool) s u s' : assert b s = (Ok u, s') → b = true ∧ s' = s.
Proof. destruct b; unfold assert, ret, raise; intros H; by simplify_eq. Qed.



Lemma run_returns {A} (m : M A) (s : State) (a : A) :
  (m s).1 = Ok a → m s = (Ok a, (m s).2).
Proof. destruct (m s) as [r s']. cbn. by intros ->. Qed.

End Inversion.


Section OnDisconnect.
Context `{env : Env}.

(** X3.  [on_disconnect] forgets the peer: its request cache, its membership of
    [synced_peers] and its entry of [_node_peaks] are gone, the entries of
    every other peer are as before, [local_node_synced] is reset exactly
    when the peer is trusted, and neither the weight-proof cache nor the
    race cache is touched. *)
Theorem on_disconnect_forgets_peer (peer : Z) (s : State) (trusted : bool) (w1 : W) :
  server (node s) = true →
  handle (IsTrustedPeer peer) (world s) = (Ok trusted, w1) →
  ∃ n',
    on_disconnect peer s
    = (Ok tt, {| node := n'; world := w1;
                 trace := trace s ++ [Called (IsTrustedPeer peer) (Ok trusted)] |})
    ∧ untrusted_caches n' = delete peer (untrusted_caches (node s))
    ∧ synced_peers n' = synced_peers (node s) ∖ {[peer]}
    ∧ _node_peaks n' = delete peer (_node_peaks (node s))
    ∧ local_node_synced n' = (if trusted then false else local_node_synced (node s))
    ∧ valid_wp_cache n' = valid_wp_cache (node s)
    ∧ race_cache n' = race_cache (node s)
    ∧ race_cache_hashes n' = race_cache_hashes (node s)
    ∧ wallet_state_manager n' = wallet_state_manager (node s).
Proof.
  intros Hserver Htrusted. unfold on_disconnect, is_trusted.
  repeat mstep.
  destruct trusted; repeat mstep; cbn [node world trace].
  all: repeat (match goal with
               | |- context [bool_decide ?P] => destruct (bool_decide_reflect P)
               end; repeat mstep; cbn [node world trace]).
  all: eexists; split; [reflexivity|]; cbn.
  all: repeat split; try done.
  all: try (symmetry; apply delete_id; by apply eq_None_not_Some).
  all: try (symmetry; apply difference_disjoint_L, disjoint_singleton_r; done).
Qed.

End OnDisconnect.

(** Peer 7, untrusted, leaves a node that holds a request cache, a peak
    and the synced mark for it. *)
Lemma on_disconnect_forgets_peer_witness :
  ∃ n',
    on_disconnect (env := toy_env) 7 (toy_init peered_node scenario_world)
    = (Ok tt, toy_state n' scenario_world
       [Called (IsTrustedPeer 7) (Ok false)])
    ∧ untrusted_caches n' = delete 7 (untrusted_caches peered_node)
    ∧ synced_peers n' = synced_peers peered_node ∖ {[7]}
    ∧ _node_peaks n' = delete 7 (_node_peaks peered_node)
    ∧ local_node_synced n' = local_node_synced peered_node
    ∧ valid_wp_cache n' = valid_wp_cache peered_node
    ∧ race_cache n' = race_cache peered_node
    ∧ race_cache_hashes n' = race_cache_hashes peered_node
    ∧ wallet_state_manager n' = wallet_state_manager peered_node.
Proof.
  apply (on_disconnect_forgets_peer (env := toy_env) 7 (toy_init peered_node scenario_world)
           false scenario_world).
  - reflexivity.
  - reflexivity.
Defined.

Section PeerCache.
Context `{env : Env}.

(** X4.  [get_cache_for_peer] returns the cache stored for the peer, an empty
    one on first use, and stores it; it makes no call and leaves the caches
    of the other peers alone; asking again returns the same cache and
    changes nothing. *)
Theorem get_cache_for_peer_creates_once (peer : Z) (s : State) :
  ∃ s',
    get_cache_for_peer peer s = (Ok (cache_of peer (node s)), s')
    ∧ untrusted_caches (node s') !! peer = Some (cache_of peer (node s))
    ∧ (∀ other, other ≠ peer →
         untrusted_caches (node s') !! other = untrusted_caches (node s) !! other)
    ∧ (untrusted_caches (node s) !! peer = None → cache_of peer (node s) = empty_cache)
    ∧ world s' = world s ∧ trace s' = trace s
    ∧ get_cache_for_peer peer s' = (Ok (cache_of peer (node s)), s').
Proof.
  unfold get_cache_for_peer, cache_of, set_cache.
  destruct (untrusted_caches (node s) !! peer) as [c|] eqn:E.
  - exists s. repeat mstep. rewrite E. cbn. repeat split; try done.
  - eexists. repeat mstep. rewrite E. repeat mstep. split; [reflexivity|].
    cbn. rewrite lookup_insert_eq. repeat split; try done.
    intros other Hne. by rewrite lookup_insert_ne.
Qed.

End PeerCache.

Section PeerSynced.
Context `{env : Env}.

(** X5.  [is_peer_synced].  A missing header response is an [AssertionError].
    Otherwise the peer counts as synced exactly when it has a last
    transaction block whose timestamp is not more than 600 seconds older
    than the request (any age when [config testing] is set), and that
    timestamp is returned; a last transaction block without a
    [foliage_transaction_block] is an [AssertionError]. *)
Theorem is_peer_synced_within_600_seconds
    (peer height request_time : Z) (s : State) :
  (∀ w1, handle (RequestBlockHeader peer height) (world s) = (Ok None, w1) →
         (is_peer_synced peer height request_time s).1 = Raise AssertionError)
  ∧ (∀ hb w1 w2,
       handle (RequestBlockHeader peer height) (world s) = (Ok (Some hb), w1) →
       handle (FetchLastTxFromPeer height peer) w1 = (Ok None, w2) →
       (is_peer_synced peer height request_time s).1 = Ok None)
  ∧ (∀ hb w1 tx w2,
       handle (RequestBlockHeader peer height) (world s) = (Ok (Some hb), w1) →
       handle (FetchLastTxFromPeer height peer) w1 = (Ok (Some tx), w2) →
       foliage_transaction_block tx = None →
       (is_peer_synced peer height request_time s).1 = Raise AssertionError)
  ∧ (∀ hb w1 tx w2 ftb,
       handle (RequestBlockHeader peer height) (world s) = (Ok (Some hb), w1) →
       handle (FetchLastTxFromPeer height peer) w1 = (Ok (Some tx), w2) →
       foliage_transaction_block tx = Some ftb →
       (is_peer_synced peer height request_time s).1
       = Ok (if config_testing || bool_decide (request_time - 600 <= timestamp ftb)
             then Some (timestamp ftb) else None)).
Proof.
  unfold is_peer_synced. repeat split.
  - intros w1 H1. by msteps.
  - intros hb w1 w2 H1 H2. by msteps.
  - intros hb w1 tx w2 H1 H2 Hf. msteps. rewrite Hf. by msteps.
  - intros hb w1 tx w2 ftb H1 H2 Hf. msteps. rewrite Hf. msteps.
    destruct config_testing; cbn [negb andb orb]; [done|].
    destruct (bool_decide_reflect (timestamp ftb < request_time - 600));
      destruct (bool_decide_reflect (request_time - 600 <= timestamp ftb)); try done; lia.
Qed.

End PeerSynced.

(** The last transaction block of peer 8 is from second 603; a request
    from second 5000 finds it too old, a request from second 1000 does
    not. *)
Lemma is_peer_synced_within_600_seconds_witness :
  (is_peer_synced (env := busy_env) 8 103 5000 (busy_init synced_node late_world)).1 = Ok None
  ∧ (is_peer_synced (env := busy_env) 8 103 1000 (busy_init synced_node late_world)).1
    = Ok (Some 603).
Proof.
  split.
  - apply (proj2 (proj2 (proj2 (is_peer_synced_within_600_seconds (env := busy_env) 8 103 5000
                                  (busy_init synced_node late_world))))
             (header false false 103 103) late_world (header false false 103 103) late_world
             {| additions_root := 7; removals_root := 8; timestamp := 603 |}).
    + reflexivity.
    + reflexivity.
    + reflexivity.
  - apply (proj2 (proj2 (proj2 (is_peer_synced_within_600_seconds (env := busy_env) 8 103 1000
                                  (busy_init synced_node late_world))))
             (header false false 103 103) late_world (header false false 103 103) late_world
             {| additions_root := 7; removals_root := 8; timestamp := 603 |}).
    + reflexivity.
    + reflexivity.
    + reflexivity.
Defined.

Section Subscriptions.
Context `{env : Env}.

(** X6.  [get_coin_ids_to_subscribe] returns every coin id of the three sources
    (the coins to check, the coins of interest of the trade manager, the
    interested coin ids) and no other, each once. *)
Theorem coin_ids_to_subscribe_are_distinct
    (min_height : Z) (s : State) (all_coins removed interested : list Z) (w1 w2 w3 : W) :
  wallet_state_manager (node s) = true →
  handle (GetCoinsToCheck min_height) (world s) = (Ok all_coins, w1) →
  handle GetCoinsOfInterest w1 = (Ok removed, w2) →
  handle GetInterestedCoinIds w2 = (Ok interested, w3) →
  ∃ ids,
    (get_coin_ids_to_subscribe min_height s).1 = Ok ids
    ∧ NoDup ids
    ∧ (∀ x, x ∈ ids ↔ x ∈ all_coins ∨ x ∈ removed ∨ x ∈ interested)
    ∧ node (get_coin_ids_to_subscribe min_height s).2 = node s.
Proof.
  intros Hwsm H1 H2 H3. unfold get_coin_ids_to_subscribe.
  eexists. repeat mstep. split; [reflexivity|]. split; [apply NoDup_elements|].
  split; [|done]. intros x. rewrite elem_of_elements, !elem_of_union, !elem_of_list_to_set.
  tauto.
Qed.

End Subscriptions.

(** Three overlapping sources, [1; 2], [2; 3] and [3; 1]. *)
Lemma coin_ids_to_subscribe_are_distinct_witness :
  ∃ ids,
    (get_coin_ids_to_subscribe (env := busy_env) 0 (busy_init started_node scenario_world)).1
    = Ok ids
    ∧ NoDup ids
    ∧ (∀ x, x ∈ ids ↔ x ∈ [1; 2] ∨ x ∈ [2; 3] ∨ x ∈ [3; 1])
    ∧ node (get_coin_ids_to_subscribe (env := busy_env) 0
              (busy_init started_node scenario_world)).2
      = started_node.
Proof.
  apply (coin_ids_to_subscribe_are_distinct (env := busy_env) 0
           (busy_init started_node scenario_world) [1; 2] [2; 3] [3; 1]
           scenario_world scenario_world scenario_world).
  - reflexivity.
  - reflexivity.
  - reflexivity.
  - reflexivity.
Defined.

Ltac ends := split; [cbn; done | cbn; intros; by simplify_eq].

Section WeightProof.
Context `{env : Env}.

(** X7.  [fetch_and_validate_the_weight_proof] answers [(False, None, [], [])]
    without asking the validator and without touching the cache when the
    peer sends no proof, or a proof whose last recent block differs from
    the claimed peak in height or in weight; a proof without recent blocks
    is an [IndexError]. *)
Theorem mismatching_weight_proof_is_not_validated
    (peer : Z) (peak : HeaderBlock) (s : State) :
  wallet_state_manager (node s) = true →
  (∀ w1,
     handle (RequestProofOfWeight peer (hb_height peak) (hb_header_hash peak)) (world s)
     = (Ok None, w1) →
     fetch_and_validate_the_weight_proof peer peak s
     = (Ok (false, None, [], []),
        {| node := node s; world := w1;
           trace := trace s ++ [Called (RequestProofOfWeight peer (hb_height peak)
                                          (hb_header_hash peak)) (Ok None)] |}))
  ∧ (∀ wp w1,
       handle (RequestProofOfWeight peer (hb_height peak) (hb_header_hash peak)) (world s)
       = (Ok (Some wp), w1) →
       recent_chain_data wp = [] →
       (fetch_and_validate_the_weight_proof peer peak s).1 = Raise IndexError)
  ∧ (∀ wp w1 last_block,
       handle (RequestProofOfWeight peer (hb_height peak) (hb_header_hash peak)) (world s)
       = (Ok (Some wp), w1) →
       last (recent_chain_data wp) = Some last_block →
       rcb_height (reward_chain_block last_block) ≠ hb_height peak
       ∨ rcb_weight (reward_chain_block last_block) ≠ hb_weight peak →
       fetch_and_validate_the_weight_proof peer peak s
       = (Ok (false, None, [], []),
          {| node := node s; world := w1;
             trace := trace s ++ [Called (RequestProofOfWeight peer (hb_height peak)
                                            (hb_header_hash peak)) (Ok (Some wp))] |})).
Proof.
  intros Hwsm. unfold fetch_and_validate_the_weight_proof. repeat split.
  - intros w1 H1. by msteps.
  - intros wp w1 H1 Hnil. msteps. rewrite Hnil. done.
  - intros wp w1 last_block H1 Hlast Hne. msteps.
    unfold bind at 1. rewrite (run_py_index_last _ _ _ Hlast).
    destruct (bool_decide_reflect (rcb_height (reward_chain_block last_block) ≠ hb_height peak));
      [done|].
    unfold bind at 1. rewrite (run_py_index_last _ _ _ Hlast).
    rewrite bool_decide_eq_true_2; [done|]. destruct Hne; [done|done].
Qed.

(** X8.  [valid_wp_cache] holds accepted proofs only: if it does before
    [fetch_and_validate_the_weight_proof], it does afterwards, whatever the
    peer and the validator answer; so a proof found in the cache is
    reported valid. *)
Theorem valid_wp_cache_holds_accepted_proofs_only
    (peer : Z) (peak : HeaderBlock) (s : State) :
  only_valid (valid_wp_cache (node s)) →
  only_valid (valid_wp_cache (node (fetch_and_validate_the_weight_proof peer peak s).2))
  ∧ (∀ valid wp summaries block_records,
       (fetch_and_validate_the_weight_proof peer peak s).1
       = Ok (valid, Some wp, summaries, block_records) →
       is_Some (valid_wp_cache (node s) !! weight_proof_get_hash wp) →
       valid = true).
Proof.
  intros Hinv.
  assert (∀ (A : Type) (l : list A) i st r st', py_index l i st = (r, st') → st' = st) as Hpy.
  { intros A l i st r st' H. pose proof (keeps_py_index eq l i st) as Hk.
    by rewrite H in Hk. }
  remember (fetch_and_validate_the_weight_proof peer peak s) as out eqn:Hout.
  unfold fetch_and_validate_the_weight_proof in Hout.
  rewrite run_bind_get_node in Hout.
  destruct (wallet_state_manager (node s)); cbn [assert] in Hout;
    [rewrite run_bind_ret in Hout|rewrite run_bind_raise in Hout; subst out; ends].
  unfold bind at 1, call at 1 in Hout.
  destruct (handle _ (world s)) as [[[wp|]|e|] w1]; cbn [fst snd node world trace] in Hout;
    [|subst out; ends..].
  unfold bind at 1 in Hout.
  destruct (py_index (recent_chain_data wp) (-1) _) as [[l1|e|] s1] eqn:E1;
    apply Hpy in E1 as Hs1; subst s1; [|subst out; ends..].
  destruct (bool_decide _); [subst out; ends|].
  unfold bind at 1 in Hout. rewrite E1 in Hout.
  destruct (bool_decide _); [subst out; ends|].
  rewrite run_bind_get_node in Hout. cbn [node] in Hout.
  destruct (valid_wp_cache (node s) !! weight_proof_get_hash wp) as [[[[v fp] su] br]|] eqn:Ec.
  - rewrite run_bind_ret in Hout. subst out. split; [done|].
    intros valid wp' summaries block_records Heq _. cbn in Heq. simplify_eq.
    by apply (Hinv _ _ Ec).
  - unfold bind at 1 in Hout. unfold bind at 1, call at 1 in Hout.
    cbn [world node trace] in Hout.
    destruct (handle (ValidateWeightProof wp) w1) as [[[[[v fp] su] br]|e|] w2]; cbn [fst snd node world trace] in Hout;
      [|subst out; ends..].
    destruct v; unfold bind, modify_node, ret in Hout;
      cbn [fst snd node world trace] in Hout.
    + subst out. cbn [fst snd node world trace valid_wp_cache set_valid_wp_cache]. split.
      * apply map_Forall_insert_2; done.
      * intros valid wp' summaries block_records Heq Hsome. simplify_eq.
        rewrite Ec in Hsome. by destruct Hsome.
    + subst out. cbn [fst snd node world trace]. split; [done|].
      intros valid wp' summaries block_records Heq Hsome. simplify_eq.
      rewrite Ec in Hsome. by destruct Hsome.
Qed.

End WeightProof.

(** The peer serves [proof_2000] for a peak claimed at height 1999. *)
Lemma mismatching_weight_proof_is_not_validated_witness :
  fetch_and_validate_the_weight_proof (env := toy_env) 7 (header false false 1999 1999)
    (toy_init started_node (proof_world true))
  = (Ok (false, None, [], []),
     toy_state started_node (proof_world true)
       [Called (RequestProofOfWeight 7 1999 2999) (Ok (Some proof_2000))]).
Proof.
  apply (proj2 (proj2 (mismatching_weight_proof_is_not_validated (env := toy_env) 7
                         (header false false 1999 1999)
                         (toy_init started_node (proof_world true)) eq_refl))
           proof_2000 (proof_world true) (header false false 2000 2000)).
  - reflexivity.
  - reflexivity.
  - left. vm_compute. discriminate.
Defined.

(** A node that holds [proof_2000] in its cache, accepted, is served the
    proof again. *)
Lemma valid_wp_cache_holds_accepted_proofs_only_witness :
  only_valid
    (valid_wp_cache
       (node (fetch_and_validate_the_weight_proof (env := toy_env) 7
                (header false false 2000 2000)
                (toy_init cached_node (proof_world false))).2))
  ∧ (∀ valid wp summaries block_records,
       (fetch_and_validate_the_weight_proof (env := toy_env) 7 (header false false 2000 2000)
          (toy_init cached_node (proof_world false))).1
       = Ok (valid, Some wp, summaries, block_records) →
       is_Some (valid_wp_cache cached_node !! weight_proof_get_hash (Env := toy_env) wp) →
       valid = true).
Proof.
  apply (valid_wp_cache_holds_accepted_proofs_only (env := toy_env) 7
           (header false false 2000 2000) (toy_init cached_node (proof_world false))).
  change (only_valid ({[1 := (true, 0, [], [])]} : gmap Z WpValidation)).
  apply map_Forall_singleton. reflexivity.
Defined.

Section Validation.
Context `{env : Env}.

(** X9.  [validate_received_state_from_peer] decides without contacting the
    peer in three cases: the answer is [True] when the peer's cache already
    covers the coin state, and when the coin record of the wallet has the
    heights of the coin state; it is [False] when the wallet does not know
    the coin and the coin state has no created height. *)
Theorem validation_decided_locally
    (coin_state : CoinState) (peer : Z) (fork_height : option Z) (s : State) :
  wallet_state_manager (node s) = true →
  (can_use_peer_request_cache coin_state (cache_of peer (node s)) fork_height = true →
   validate_received_state_from_peer coin_state peer fork_height s = (Ok true, s))
  ∧ (∀ current w1,
       can_use_peer_request_cache coin_state (cache_of peer (node s)) fork_height = false →
       handle (GetCoinRecord (coin_name (coin coin_state))) (world s) = (Ok (Some current), w1) →
       spent_height coin_state
       = (if bool_decide (spent_block_height current = 0) then None
          else Some (spent_block_height current)) →
       created_height coin_state = Some (confirmed_block_height current) →
       validate_received_state_from_peer coin_state peer fork_height s
       = (Ok true,
          {| node := node s; world := w1;
             trace := trace s ++ [Called (GetCoinRecord (coin_name (coin coin_state)))
                                    (Ok (Some current))] |}))
  ∧ (∀ w1,
       can_use_peer_request_cache coin_state (cache_of peer (node s)) fork_height = false →
       handle (GetCoinRecord (coin_name (coin coin_state))) (world s) = (Ok None, w1) →
       created_height coin_state = None →
       validate_received_state_from_peer coin_state peer fork_height s
       = (Ok false,
          {| node := node s; world := w1;
             trace := trace s ++ [Called (GetCoinRecord (coin_name (coin coin_state)))
                                    (Ok None)] |})).
Proof.
  intros Hwsm. unfold validate_received_state_from_peer. cbv zeta. repeat split.
  - intros Hc. msteps. by rewrite Hc.
  - intros current w1 Hc H1 Hspent Hcreated. msteps. rewrite Hc. msteps.
    rewrite Hspent, Hcreated.
    destruct (bool_decide_reflect (spent_block_height current = 0)) as [H0|H0].
    + rewrite (bool_decide_eq_false_2 (spent_block_height current ≠ 0)) by tauto.
      by rewrite !bool_decide_eq_true_2.
    + rewrite (bool_decide_eq_true_2 (spent_block_height current ≠ 0)) by done.
      by rewrite !bool_decide_eq_true_2.
  - intros w1 Hc H1 Hcreated. msteps. rewrite Hc. msteps. by rewrite Hcreated.
Qed.


Lemma validate_inclusions_true_cached coin_state peer current state_block s s' :
  validate_inclusions coin_state peer current state_block s = (Ok true, s') →
  states_validated (cache_of peer (node s')) !! coin_state_get_hash coin_state
  = Some coin_state.
Proof.
  unfold validate_inclusions. cbv zeta. intros H.
  apply bind_Ok in H as (validated & s1 & _ & H).
  destruct validated; cbn [negb] in H; [|by unfold ret in H; simplify_eq].
  apply bind_Ok in H as (unspent_ok & s2 & _ & H).
  destruct unspent_ok; cbn [negb] in H; [|by unfold ret in H; simplify_eq].
  apply bind_Ok in H as (spent_ok & s3 & _ & H).
  destruct spent_ok; cbn [negb] in H; [|by unfold ret in H; simplify_eq].
  unfold modify_cache in H. rewrite run_bind_modify_node in H. unfold ret in H.
  simplify_eq. unfold cache_of. cbn. rewrite lookup_insert_eq. cbn.
  by rewrite lookup_insert_eq.
Qed.

(** X10.  When [validate_received_state_from_peer] has asked the peer for the
    additions proof and answers [True], the coin state is in
    [states_validated] of the peer's cache, under its hash. *)
Theorem validated_coin_state_is_cached
    (coin_state : CoinState) (peer : Z) (fork_height : option Z) (s : State) :
  (validate_received_state_from_peer coin_state peer fork_height s).1 = Ok true →
  additions_answers (trace (validate_received_state_from_peer coin_state peer fork_height s).2)
  ≠ additions_answers (trace s) →
  states_validated
    (cache_of peer (node (validate_received_state_from_peer coin_state peer fork_height s).2))
  !! coin_state_get_hash coin_state
  = Some coin_state.
Proof.
  destruct (validate_received_state_from_peer coin_state peer fork_height s) as [r s'] eqn:H.
  cbn [fst snd]. intros -> Hasked.
  unfold validate_received_state_from_peer in H. cbv zeta in H.
  rewrite run_bind_get_node in H.
  apply bind_Ok in H as ([] & s0 & Hassert & H).
  assert (s0 = s) as ->.
  { destruct (wallet_state_manager (node s)); unfold assert, ret, raise in Hassert;
      by simplify_eq. }
  destruct (can_use_peer_request_cache _ _ _); [unfold ret in H; by simplify_eq|].
  apply bind_Ok in H as (current & s1 & Hcall & H).
  apply call_Ok in Hcall as (w1 & _ & ->).
  match type of H with
  | (if ?c then _ else _) _ = _ => destruct c
  end.
  { unfold ret in H. simplify_eq. cbn [trace] in Hasked.
    by rewrite additions_answers_snoc_plain in Hasked. }
  match type of H with
  | (match ?c with Some _ => _ | None => _ end) _ = _ => destruct c as [confirmed|]
  end; [|by unfold ret in H; simplify_eq].
  apply bind_Ok in H as (state_block & s2 & _ & H).
  destruct (foliage_transaction_block state_block) as [ftb|];
    [|by unfold raise in H; simplify_eq].
  apply bind_Ok in H as (res & s3 & _ & H).
  destruct res; cbn [negb] in H.
  - by apply validate_inclusions_true_cached in H.
  - apply bind_Ok in H as (? & s4 & _ & H). by unfold ret in H; simplify_eq.
Qed.


(** X12.  The last loop of [validate_block_inclusion] accepts only a hash chain:
    every block names the next one of [reversed_blocks], and the last one
    names [block], as its predecessor; the plot signature of every block at
    a position above [len(reversed_blocks) - 50] verifies; and a block
    without finished sub-slots has the reward-chain hash of its successor
    as the challenge of its infusion-point VDF. *)
Theorem linked_blocks_form_a_hash_chain
    (block : HeaderBlock) (total idx : nat) (reversed_blocks : list HeaderBlock) :
  blocks_linked block total idx reversed_blocks = true →
  hash_chain (reversed_blocks ++ [block])
  ∧ (∀ i en_block,
       reversed_blocks !! i = Some en_block →
       Z.of_nat (idx + i) > Z.of_nat total - 50 →
       AugSchemeMPL_verify (plot_public_key (reward_chain_block en_block))
         (foliage_block_data_get_hash en_block) (foliage_block_data_signature en_block)
       = true)
  ∧ (∀ i en_block next,
       reversed_blocks !! i = Some en_block →
       (reversed_blocks ++ [block]) !! S i = Some next →
       finished_sub_slots en_block = [] →
       rcb_get_hash (reward_chain_block next)
       = reward_chain_ip_vdf_challenge (reward_chain_block en_block)).
Proof.
  revert idx. induction reversed_blocks as [|en rest IH]; intros idx H.
  - split; [done|]. split; [intros i ? Hi; by rewrite lookup_nil in Hi|].
    intros i ? ? Hi; by rewrite lookup_nil in Hi.
  - cbn [blocks_linked] in H. cbv zeta in H.
    destruct (bool_decide_reflect
                (prev_header_hash en
                 = hb_header_hash match rest with [] => block | b :: _ => b end)) as [Hprev|];
      cbn [negb] in H; [|done].
    match type of H with
    | (if negb ?c then _ else _) = _ => destruct c eqn:Hslots
    end; cbn [negb] in H; [|done].
    match type of H with
    | (if ?c then _ else _) = _ => destruct c eqn:Hsig
    end; [done|].
    destruct (IH _ H) as (Hchain & Hsigs & Hrc).
    split; [|split].
    + destruct rest; cbn; by split.
    + intros [|i] en_block Hi Hpos; cbn in Hi.
      * simplify_eq. apply andb_false_iff in Hsig as [Hsig|Hsig].
        -- apply bool_decide_eq_false in Hsig. lia.
        -- by apply negb_false_iff in Hsig.
      * apply (Hsigs i); [done|lia].
    + intros [|i] en_block next Hi Hnext Hnil; cbn in Hi, Hnext.
      * simplify_eq. rewrite Hnil in Hslots. cbn in Hslots.
        apply bool_decide_eq_true in Hslots. rewrite <- Hslots.
        destruct rest; cbn in Hnext; by simplify_eq.
      * by apply (Hrc i).
Qed.

End Validation.

(** The wallet of the scenario does not know the coin of a coin state
    without created height. *)
Lemma validation_decided_locally_witness :
  validate_received_state_from_peer (env := toy_env)
    {| coin := coin coin_state_5; spent_height := None; created_height := None |} 7 None
    (toy_init synced_node scenario_world)
  = (Ok false,
     toy_state synced_node scenario_world
       [Called (GetCoinRecord 100) (Ok None)]).
Proof.
  apply (proj2 (proj2 (validation_decided_locally (env := toy_env)
                         {| coin := coin coin_state_5; spent_height := None;
                            created_height := None |} 7 None
                         (toy_init synced_node scenario_world) eq_refl)) scenario_world).
  - reflexivity.
  - reflexivity.
  - reflexivity.
Defined.

(** Peer 7 proves the addition of the coin created at height 5. *)
Lemma validated_coin_state_is_cached_witness :
  states_validated
    (cache_of 7
       (node (validate_received_state_from_peer (env := toy_env) coin_state_5 7 None
                (toy_init synced_node scenario_world)).2))
  !! coin_state_get_hash (Env := toy_env) coin_state_5
  = Some coin_state_5.
Proof.
  apply (validated_coin_state_is_cached (env := toy_env) coin_state_5 7 None
           (toy_init synced_node scenario_world)).
  - vm_compute. reflexivity.
  - vm_compute. discriminate.
Defined.


(** The blocks 102 and 101 above the block 100. *)
Lemma linked_blocks_form_a_hash_chain_witness :
  hash_chain ([chained 102; chained 101] ++ [chained 100])
  ∧ (∀ i en_block,
       [chained 102; chained 101] !! i = Some en_block →
       Z.of_nat (0 + i) > Z.of_nat 2 - 50 →
       AugSchemeMPL_verify (Env := toy_env) (plot_public_key (reward_chain_block en_block))
         (foliage_block_data_get_hash en_block) (foliage_block_data_signature en_block)
       = true)
  ∧ (∀ i en_block next,
       [chained 102; chained 101] !! i = Some en_block →
       ([chained 102; chained 101] ++ [chained 100]) !! S i = Some next →
       finished_sub_slots en_block = [] →
       rcb_get_hash (reward_chain_block next)
       = reward_chain_ip_vdf_challenge (reward_chain_block en_block)).
Proof.
  apply (linked_blocks_form_a_hash_chain (env := toy_env) (chained 100) 2 0
           [chained 102; chained 101]).
  reflexivity.
Defined.


Ltac project H :=
  unfold served_headers, received_blocks, rollbacks in H;
  rewrite ?omap_app in H; cbn [omap] in H; rewrite ?app_nil_r in H.

Ltac project_goal :=
  unfold served_headers, received_blocks, rollbacks;
  rewrite ?omap_app; cbn [omap]; rewrite ?app_nil_r.

Section ShortSyncGeneral.
Context `{env : Env}.

Lemma sync_log_snoc {X} (e : Ext X) (r : Result X) tr :
  (match e with
   | RequestBlockHeader _ _ | ReceiveBlock _ | ReorgRollback _ => false
   | _ => true
   end) = true →
  sync_log (tr ++ [Called e r]) = sync_log tr.
Proof.
  intros He. unfold sync_log, served_headers, received_blocks, rollbacks.
  rewrite !omap_app. destruct e; try discriminate He; cbn; by rewrite !app_nil_r.
Qed.

#[local] Instance same_sync_log_preorder : PreOrder same_sync_log.
Proof. split; unfold same_sync_log; [done|intros ? ? ?; congruence]. Qed.

Lemma same_sync_log_call {X} (e : Ext X) :
  (match e with
   | RequestBlockHeader _ _ | ReceiveBlock _ | ReorgRollback _ => false
   | _ => true
   end) = true →
  keeps same_sync_log (call e).
Proof.
  intros He s. unfold same_sync_log, call. destruct (handle e (world s)) as [r w].
  cbn [snd trace]. by apply sync_log_snoc.
Qed.

Lemma same_sync_log_update_ui : keeps same_sync_log update_ui.
Proof.
  unfold update_ui. apply keeps_bind; [apply _|by apply same_sync_log_call|intros ids].
  apply keeps_for_each; [apply _|intros id].
  apply keeps_bind; [apply _|by apply same_sync_log_call|intros _].
  by apply same_sync_log_call.
Qed.

Lemma fetch_back_Ok fuel peer top blocks_ fork_height s result_blocks result_fork s' :
  fetch_back fuel peer top blocks_ fork_height s = (Ok (result_blocks, result_fork), s') →
  ∃ fetched,
    result_blocks = blocks_ ++ fetched
    ∧ served_headers (trace s') = served_headers (trace s) ++ fetched
    ∧ received_blocks (trace s') = received_blocks (trace s)
    ∧ rollbacks (trace s') = rollbacks (trace s)
    ∧ result_fork = match last fetched with
                    | Some lowest => hb_height lowest - 1
                    | None => fork_height
                    end.
Proof.
  revert top blocks_ fork_height s.
  induction fuel as [|fuel IH]; intros top blocks_ fork_height s H; cbn [fetch_back] in H.
  - apply bind_Ok in H as (known & s1 & Hc & H). apply call_Ok in Hc as (w1 & _ & ->).
    destruct (negb known && bool_decide (hb_height top > 0)); [done|].
    apply ret_Ok in H as [? ->]. simplify_eq. exists []. rewrite app_nil_r. cbn [trace].
    by project_goal.
  - apply bind_Ok in H as (known & s1 & Hc & H). apply call_Ok in Hc as (w1 & _ & ->).
    destruct (negb known && bool_decide (hb_height top > 0)).
    + apply bind_Ok in H as (response & s2 & Hc & H). apply call_Ok in Hc as (w2 & _ & ->).
      destruct response as [prev_head|]; [|done].
      apply IH in H as (fetched & -> & Hs & Hr & Hro & ->).
      exists (prev_head :: fetched). cbn [trace] in *.
      project Hs. project Hr. project Hro. project_goal.
      rewrite <- !app_assoc in Hs. rewrite <- app_assoc.
      split; [done|]. split; [done|]. split; [done|]. split; [done|].
      rewrite last_cons. by destruct (last fetched).
    + apply ret_Ok in H as [? ->]. simplify_eq. exists []. rewrite app_nil_r. cbn [trace].
      unfold served_headers, received_blocks, rollbacks.
      rewrite !omap_app. cbn. by rewrite !app_nil_r.
Qed.

Lemma receive_blocks_Ok (blocks_ : list HeaderBlock) s s' :
  for_each blocks_ (λ block,
    let* (res, err) := call (ReceiveBlock block) in
    match res with
    | INVALID_BLOCK => raise ValueError
    | _ => ret tt
    end) s = (Ok tt, s') →
  served_headers (trace s') = served_headers (trace s)
  ∧ received_blocks (trace s') = received_blocks (trace s) ++ blocks_
  ∧ rollbacks (trace s') = rollbacks (trace s).
Proof.
  revert s. induction blocks_ as [|block blocks_ IH]; intros s H; cbn [for_each] in H.
  - apply ret_Ok in H as [_ ->]. by rewrite app_nil_r.
  - apply bind_Ok in H as ([] & s1 & H1 & H).
    apply bind_Ok in H1 as ([res err] & s2 & Hc & H1). apply call_Ok in Hc as (w & _ & ->).
    assert (s1 = {| node := node s; world := w;
                    trace := trace s ++ [Called (ReceiveBlock block) (Ok (res, err))] |}) as ->.
    { destruct res; unfold ret, raise in H1; by simplify_eq. }
    apply IH in H as (Hs & Hr & Hro). cbn [trace] in *.
    project Hs. project Hr. project Hro. project_goal.
    rewrite <- app_assoc in Hr. done.
Qed.

(** X13.  Whenever [wallet_short_sync_backtrack] returns, the blocks it handed
    to [receive_block] are the headers the peer served, the last served
    first, followed by the header of the new peak; the fork height it
    returns is one less than the height of the last header served, or,
    when none was requested, one less than the height of the new peak or
    0; and it rolled the wallet back at most once, to the fork height. *)
Theorem short_sync_applies_served_headers_and_peak
    (fuel : nat) (header_block : HeaderBlock) (peer : Z) (s s' : State) (fork_height : Z) :
  wallet_short_sync_backtrack fuel header_block peer s = (Ok fork_height, s') →
  ∃ fetched,
    served_headers (trace s') = served_headers (trace s) ++ fetched
    ∧ received_blocks (trace s')
      = received_blocks (trace s) ++ rev fetched ++ [header_block]
    ∧ match last fetched with
      | Some lowest => fork_height = hb_height lowest - 1
      | None => fork_height = hb_height header_block - 1 ∨ fork_height = 0
      end
    ∧ (rollbacks (trace s') = rollbacks (trace s)
       ∨ rollbacks (trace s') = rollbacks (trace s) ++ [fork_height]).
Proof.
  unfold wallet_short_sync_backtrack. intros H.
  rewrite run_bind_get_node in H.
  apply bind_Ok in H as ([] & s0 & Hassert & H).
  assert (s0 = s) as ->.
  { destruct (wallet_state_manager (node s)); unfold assert, ret, raise in Hassert;
      by simplify_eq. }
  apply bind_Ok in H as (peak & s1 & Hc & H). apply call_Ok in Hc as (w1 & _ & ->).
  apply bind_Ok in H as (known & s2 & Hc & H). apply call_Ok in Hc as (w2 & _ & ->).
  apply bind_Ok in H as ([blocks_ fh] & s3 & Hfetch & H).
  apply fetch_back_Ok in Hfetch as (fetched & -> & Hs3 & Hr3 & Hro3 & ->).
  apply bind_Ok in H as (peak_height & s4 & Hc & H). apply call_Ok in Hc as (w4 & _ & ->).
  apply bind_Ok in H as ([] & s5 & Hroll & H).
  unfold rollback_request_caches in H. rewrite run_bind_modify_node in H.
  apply bind_Ok in H as ([] & s6 & Hassert2 & H).
  assert (s6 = {| node := set_untrusted_caches
                            ((λ c, clear_after_height c
                                     match last fetched with
                                     | Some lowest => hb_height lowest - 1
                                     | None => if known then hb_height header_block - 1 else 0
                                     end) <$> untrusted_caches (node s5)) (node s5);
                  world := world s5; trace := trace s5 |}) as ->.
  { destruct peak as [pk|]; [|by apply ret_Ok in Hassert2 as [_ ->]].
    destruct (bool_decide (hb_weight header_block >= hb_weight pk));
      unfold assert, ret, raise in Hassert2; by simplify_eq. }
  apply bind_Ok in H as ([] & s7 & Hrecv & H). apply ret_Ok in H as [<- ->].
  apply receive_blocks_Ok in Hrecv as (Hs7 & Hr7 & Hro7). cbn [trace] in *.
  assert (sync_log (trace s5) = sync_log (trace s3)
          ∨ (served_headers (trace s5) = served_headers (trace s3)
             ∧ received_blocks (trace s5) = received_blocks (trace s3)
             ∧ rollbacks (trace s5)
               = rollbacks (trace s3)
                 ++ [match last fetched with
                     | Some lowest => hb_height lowest - 1
                     | None => if known then hb_height header_block - 1 else 0
                     end])) as Hmid.
  { destruct (bool_decide _).
    - right. apply bind_Ok in Hroll as ([] & s4' & Hc & Hui).
      apply call_Ok in Hc as (w5 & _ & ->).
      match type of Hui with
      | update_ui ?st = _ => pose proof (same_sync_log_update_ui st) as Hk
      end.
      rewrite Hui in Hk. unfold same_sync_log, sync_log in Hk. cbn [snd trace] in Hk.
      injection Hk as Hk1 Hk2 Hk3. rewrite Hk1, Hk2, Hk3.
      by project_goal.
    - left. apply ret_Ok in Hroll as [_ ->]. cbn [trace]. by rewrite sync_log_snoc. }
  exists fetched.
  assert (served_headers (trace s3)
          = served_headers (trace s) ++ fetched
          ∧ received_blocks (trace s3) = received_blocks (trace s)
          ∧ rollbacks (trace s3) = rollbacks (trace s)) as (Hs & Hr & Hro).
  { project Hs3. project Hr3. project Hro3. by project_goal. }
  rewrite rev_app_distr in Hr7. cbn [rev app] in Hr7.
  split; [|split; [|split]].
  - rewrite Hs7. destruct Hmid as [Hm|(-> & _ & _)]; [|done].
    unfold sync_log in Hm. injection Hm as Hm1 Hm2 Hm3. congruence.
  - rewrite Hr7. destruct Hmid as [Hm|(_ & -> & _)]; [|by rewrite Hr].
    unfold sync_log in Hm. injection Hm as Hm1 Hm2 Hm3. congruence.
  - destruct (last fetched); [done|]. destruct known; auto.
  - rewrite Hro7. destruct Hmid as [Hm|(_ & _ & ->)].
    + left. unfold sync_log in Hm. injection Hm as Hm1 Hm2 Hm3. congruence.
    + right. by rewrite Hro.
Qed.

End ShortSyncGeneral.

(** The short sync of the scenario. *)
Lemma short_sync_applies_served_headers_and_peak_witness :
  ∃ fetched,
    served_headers (trace (wallet_short_sync_backtrack (env := toy_env) 5 (header false false 103 103) 7
          (toy_init synced_node scenario_world)).2)
    = served_headers (trace (toy_init synced_node scenario_world)) ++ fetched
    ∧ received_blocks (trace (wallet_short_sync_backtrack (env := toy_env) 5 (header false false 103 103) 7
          (toy_init synced_node scenario_world)).2)
      = received_blocks (trace (toy_init synced_node scenario_world))
        ++ rev fetched ++ [header false false 103 103]
    ∧ match last fetched with
      | Some lowest => 99 = hb_height lowest - 1
      | None => 99 = hb_height (header false false 103 103) - 1 ∨ 99 = 0
      end
    ∧ (rollbacks (trace (wallet_short_sync_backtrack (env := toy_env) 5 (header false false 103 103) 7
          (toy_init synced_node scenario_world)).2)
       = rollbacks (trace (toy_init synced_node scenario_world))
       ∨ rollbacks (trace (wallet_short_sync_backtrack (env := toy_env) 5 (header false false 103 103) 7
          (toy_init synced_node scenario_world)).2)
         = rollbacks (trace (toy_init synced_node scenario_world)) ++ [99]).
Proof.
  apply (short_sync_applies_served_headers_and_peak (env := toy_env) 5
           (header false false 103 103) 7 (toy_init synced_node scenario_world)
           (wallet_short_sync_backtrack (env := toy_env) 5 (header false false 103 103) 7
          (toy_init synced_node scenario_world)).2 99).
  apply run_returns. vm_compute. reflexivity.
Defined.


Section ShortSyncFailure.
Context `{env : Env}.

(** X14.  When the peer does not answer the first header request of
    [wallet_short_sync_backtrack], a [RuntimeError] is raised before the
    wallet is touched: no rollback, no block handed to [receive_block]. *)
Theorem short_sync_unanswered_header_raises
    (fuel : nat) (header_block : HeaderBlock) (peer : Z) (s : State)
    (peak : option HeaderBlock) (w1 w2 w3 w4 : W) :
  wallet_state_manager (node s) = true →
  handle GetPeakBlock (world s) = (Ok peak, w1) →
  handle (ContainsBlock (prev_header_hash header_block)) w1 = (Ok false, w2) →
  handle (ContainsBlock (prev_header_hash header_block)) w2 = (Ok false, w3) →
  hb_height header_block > 0 →
  handle (RequestBlockHeader peer (hb_height header_block - 1)) w3 = (Ok None, w4) →
  wallet_short_sync_backtrack (S fuel) header_block peer s
  = (Raise RuntimeError,
     {| node := node s; world := w4;
        trace := trace s
                 ++ [Called GetPeakBlock (Ok peak);
                     Called (ContainsBlock (prev_header_hash header_block)) (Ok false);
                     Called (ContainsBlock (prev_header_hash header_block)) (Ok false);
                     Called (RequestBlockHeader peer (hb_height header_block - 1)) (Ok None)] |}).
Proof.
  intros Hwsm H1 H2 H3 Hpos H4. unfold wallet_short_sync_backtrack.
  msteps. cbn [fetch_back]. msteps.
  rewrite (bool_decide_eq_true_2 (hb_height header_block > 0)) by done. cbn [negb andb].
  msteps. unfold raise. by rewrite <- !app_assoc.
Qed.

End ShortSyncFailure.

(** Nobody serves the header at height 49. *)
Lemma short_sync_unanswered_header_raises_witness :
  wallet_short_sync_backtrack (env := toy_env) 1 (header false false 50 50) 7
    (toy_init synced_node scenario_world)
  = (Raise RuntimeError,
     toy_state synced_node scenario_world
       [Called GetPeakBlock (Ok (Some (header true false 100 100)));
        Called (ContainsBlock 1049) (Ok false);
        Called (ContainsBlock 1049) (Ok false);
        Called (RequestBlockHeader 7 49) (Ok None)]).
Proof.
  apply (short_sync_unanswered_header_raises (env := toy_env) 0 (header false false 50 50) 7
           (toy_init synced_node scenario_world) (Some (header true false 100 100))
           scenario_world scenario_world scenario_world scenario_world).
  - reflexivity.
  - reflexivity.
  - reflexivity.
  - reflexivity.
  - reflexivity.
  - reflexivity.
Defined.

Section UpdateUi.
Context `{env : Env}.

Lemma state_changes_plain {X} (e : Ext X) (r : Result X) tr :
  (match e with StateChanged _ _ => false | _ => true end) = true →
  state_changes (tr ++ [Called e r]) = state_changes tr.
Proof.
  intros He. unfold state_changes. rewrite omap_app.
  destruct e; try discriminate He; cbn; by rewrite app_nil_r.
Qed.

(** X15.  [update_ui] notifies ["coin_removed"] and then ["coin_added"] for every
    wallet, in the order of the wallets, and nothing else; without wallets
    it notifies nothing.  It does not touch the node. *)
Theorem update_ui_notifies_every_wallet (s : State) (ids : list Z) (w1 : W) :
  handle Wallets (world s) = (Ok ids, w1) →
  (∀ w state wallet_id, ∃ w', handle (StateChanged state wallet_id) w = (Ok tt, w')) →
  ∃ s',
    update_ui s = (Ok tt, s')
    ∧ state_changes (trace s')
      = state_changes (trace s)
        ++ flat_map (λ wallet_id, [("coin_removed"%string, Some wallet_id);
                                   ("coin_added"%string, Some wallet_id)]) ids
    ∧ node s' = node s.
Proof.
  intros Hw Hsc. unfold update_ui. msteps.
  assert (∀ s1, ∃ s',
            for_each ids (λ wallet_id,
              call (StateChanged "coin_removed" (Some wallet_id)) ;;
              call (StateChanged "coin_added" (Some wallet_id))) s1 = (Ok tt, s')
            ∧ state_changes (trace s')
              = state_changes (trace s1)
                ++ flat_map (λ wallet_id, [("coin_removed"%string, Some wallet_id);
                                           ("coin_added"%string, Some wallet_id)]) ids
            ∧ node s' = node s1) as Hloop.
  { clear Hw. induction ids as [|wallet_id ids IH]; intros s1; cbn [for_each flat_map].
    - exists s1. by rewrite app_nil_r.
    - destruct (Hsc (world s1) "coin_removed"%string (Some wallet_id)) as (w2 & H2).
      destruct (Hsc w2 "coin_added"%string (Some wallet_id)) as (w3 & H3).
      msteps.
      match goal with
      | |- ∃ s', for_each _ _ ?st = _ ∧ _ => destruct (IH st) as (s' & Hrun & Hsc' & Hn)
      end.
      exists s'. split; [done|]. cbn [trace node] in *. split; [|done].
      rewrite Hsc'. unfold state_changes. rewrite !omap_app. cbn.
      by rewrite <- !app_assoc. }
  match goal with
  | |- ∃ s', for_each _ _ ?st = _ ∧ _ => destruct (Hloop st) as (s' & Hrun & Hsc' & Hn)
  end.
  exists s'. split; [done|]. cbn [trace node] in *. split; [|done].
  rewrite Hsc'. by rewrite state_changes_plain.
Qed.

End UpdateUi.

(** Two wallets. *)
Lemma update_ui_notifies_every_wallet_witness :
  ∃ s',
    update_ui (env := busy_env) (busy_init started_node scenario_world) = (Ok tt, s')
    ∧ state_changes (trace s')
      = [("coin_removed"%string, Some 1); ("coin_added"%string, Some 1);
         ("coin_removed"%string, Some 2); ("coin_added"%string, Some 2)]
    ∧ node s' = started_node.
Proof.
  apply (update_ui_notifies_every_wallet (env := busy_env)
           (busy_init started_node scenario_world) [1; 2] scenario_world).
  - reflexivity.
  - intros w state wallet_id. exists w. reflexivity.
Defined.

Ltac framed_step :=
  match goal with
  | |- keeps _ (bind _ _) => apply keeps_bind; [tc_solve| |intros ?]
  | |- keeps _ (ret _) => apply keeps_ret; tc_solve
  | |- keeps _ (raise _) => apply keeps_raise; tc_solve
  | |- keeps _ out_of_fuel => apply keeps_out_of_fuel; tc_solve
  | |- keeps _ get_node => apply keeps_get_node; tc_solve
  | |- keeps _ (assert _) => apply keeps_assert; tc_solve
  | |- keeps _ (py_index _ _) => apply keeps_py_index; tc_solve
  | |- keeps _ (uint32 _) => apply keeps_uint32; tc_solve
  | |- keeps _ (uint64 _) => apply keeps_uint64; tc_solve
  | |- keeps _ (try_except _ _) => apply keeps_try_except; [tc_solve| |intros ?]
  | |- keeps _ (try_finally _ _) => apply keeps_try_finally; [tc_solve| |]
  | |- keeps _ (for_each _ _) => apply keeps_for_each; [tc_solve|intros ?]
  | |- keeps _ (with_lock _ _) =>
      apply keeps_with_lock; [tc_solve|by apply framed_call|by apply framed_call|]
  | |- keeps _ (call _) => first [ by apply framed_call | done ]
  | |- keeps _ (modify_node set_validation_primitives) => apply framed_validation
  | |- keeps _ (modify_node (λ n, set_untrusted_caches _ n)) => apply framed_caches
  | |- keeps _ (modify_node (set_wallet_peers _)) => apply framed_wallet_peers
  | |- keeps _ (modify_node (set_local_node_synced _)) => apply framed_local_node_synced
  | |- keeps _ (if ?b then _ else _) => destruct b
  | |- keeps _ (match ?x with _ => _ end) => destruct x
  | |- keeps _ _ => done
  end.

Section FramedHandlers.
Context `{env : Env} (R : State → State → Prop) `{!Framed R}.

Lemma framed_is_trusted peer : keeps R (is_trusted peer).
Proof. unfold is_trusted. repeat framed_step. Qed.

Lemma framed_set_cache peer c : keeps R (set_cache peer c).
Proof. unfold set_cache. apply framed_caches. Qed.

Lemma framed_modify_cache peer f : keeps R (modify_cache peer f).
Proof. unfold modify_cache. apply framed_caches. Qed.

Lemma framed_get_cache_for_peer peer : keeps R (get_cache_for_peer peer).
Proof. unfold get_cache_for_peer. pose proof framed_set_cache. repeat framed_step. Qed.

Lemma framed_rollback_request_caches reorg_height :
  keeps R (rollback_request_caches reorg_height).
Proof. unfold rollback_request_caches. apply framed_caches. Qed.

Lemma framed_update_ui : keeps R update_ui.
Proof. unfold update_ui. repeat framed_step. Qed.

Lemma framed_header_block_at peer height use_cache check_height :
  keeps R (header_block_at peer height use_cache check_height).
Proof. unfold header_block_at. pose proof framed_modify_cache. repeat framed_step. Qed.

Lemma framed_fetch_blocks peer start end_ batches acc :
  keeps R (fetch_blocks peer start end_ batches acc).
Proof.
  revert acc. induction batches as [|i batches IH]; intros acc; simpl.
  - repeat framed_step.
  - pose proof framed_modify_cache. repeat framed_step.
Qed.

Lemma framed_validate_block_inclusion block peer :
  keeps R (validate_block_inclusion block peer).
Proof.
  unfold validate_block_inclusion.
  pose proof framed_modify_cache. pose proof framed_fetch_blocks.
  repeat framed_step.
Qed.

Lemma framed_validate_inclusions coin_state peer current state_block :
  keeps R (validate_inclusions coin_state peer current state_block).
Proof.
  unfold validate_inclusions. cbv zeta.
  pose proof framed_modify_cache. pose proof framed_header_block_at.
  pose proof framed_validate_block_inclusion.
  repeat framed_step.
Qed.

Lemma framed_validate_received_state_from_peer coin_state peer fork_height :
  keeps R (validate_received_state_from_peer coin_state peer fork_height).
Proof.
  unfold validate_received_state_from_peer. cbv zeta.
  pose proof framed_header_block_at. pose proof framed_validate_inclusions.
  repeat framed_step.
Qed.

Lemma framed_subscribe_to_phs puzzle_hashes peer syncing min_height fork_height :
  keeps R (subscribe_to_phs puzzle_hashes peer syncing min_height fork_height).
Proof. unfold subscribe_to_phs. pose proof framed_is_trusted. repeat framed_step. Qed.

Lemma framed_subscribe_to_coin_updates coin_names peer syncing min_height fork_height :
  keeps R (subscribe_to_coin_updates coin_names peer syncing min_height fork_height).
Proof. unfold subscribe_to_coin_updates. pose proof framed_is_trusted. repeat framed_step. Qed.

Lemma framed_is_peer_synced peer height request_time :
  keeps R (is_peer_synced peer height request_time).
Proof. unfold is_peer_synced. repeat framed_step. Qed.

Lemma framed_disconnect_and_stop_wpeers : keeps R disconnect_and_stop_wpeers.
Proof. unfold disconnect_and_stop_wpeers. pose proof framed_is_trusted. repeat framed_step. Qed.

Lemma framed_get_puzzle_hashes_to_subscribe : keeps R get_puzzle_hashes_to_subscribe.
Proof. unfold get_puzzle_hashes_to_subscribe. repeat framed_step. Qed.

Lemma framed_get_coin_ids_to_subscribe min_height : keeps R (get_coin_ids_to_subscribe min_height).
Proof. unfold get_coin_ids_to_subscribe. repeat framed_step. Qed.

Lemma framed_advance_finished_sync_up_to height : keeps R (advance_finished_sync_up_to height).
Proof. unfold advance_finished_sync_up_to. repeat framed_step. Qed.

Lemma framed_fetch_back fuel peer top blocks_ fork_height :
  keeps R (fetch_back fuel peer top blocks_ fork_height).
Proof.
  revert top blocks_ fork_height.
  induction fuel as [|fuel IH]; intros top blocks_ fork_height; simpl; repeat framed_step.
Qed.

Lemma framed_finish_new_peak peak peer : keeps R (finish_new_peak peak peer).
Proof.
  unfold finish_new_peak. pose proof framed_advance_finished_sync_up_to. repeat framed_step.
Qed.

(** What follows writes the race cache, through [add_state_to_race_cache]
    only. *)
Hypothesis R_race_cache :
  ∀ header_hash height coin_state,
    keeps R (add_state_to_race_cache header_hash height coin_state).

Lemma framed_receive_and_validate trusted peer fork_height height header_hash inner_state :
  keeps R (receive_and_validate trusted peer fork_height height header_hash inner_state).
Proof.
  unfold receive_and_validate.
  pose proof framed_validate_received_state_from_peer.
  repeat framed_step.
Qed.

(** [receive_state_from_peer] rolls back only when given a fork height. *)
Lemma framed_receive_state_from_peer items peer fork_height height header_hash :
  fork_height = None ∨ (∀ h, keeps R (call (ReorgRollback h))) →
  keeps R (receive_state_from_peer items peer fork_height height header_hash).
Proof.
  intros Hrollback. unfold receive_state_from_peer.
  pose proof framed_is_trusted. pose proof framed_get_cache_for_peer.
  pose proof framed_set_cache. pose proof framed_update_ui.
  pose proof framed_receive_and_validate.
  destruct Hrollback as [->|Hrollback]; repeat framed_step.
Qed.

Lemma framed_replay_race_cache backtrack_fork_height peak peer :
  keeps R (replay_race_cache backtrack_fork_height peak peer).
Proof.
  unfold replay_race_cache.
  pose proof (λ items peer,
                framed_receive_state_from_peer items peer None None None (or_introl eq_refl)).
  repeat framed_step.
Qed.

Lemma framed_subscribe_ph_chunks full_node syncing min_height fork_height ph_chunks already :
  keeps R (subscribe_ph_chunks full_node syncing min_height fork_height ph_chunks already).
Proof.
  revert already. induction ph_chunks as [|chunk ph_chunks IH]; intros already; simpl.
  - repeat framed_step.
  - pose proof framed_subscribe_to_phs.
    pose proof (λ items peer,
                  framed_receive_state_from_peer items peer None None None (or_introl eq_refl)).
    repeat framed_step.
Qed.

Lemma framed_subscribe_coin_chunks full_node syncing min_height fork_height chunks_ already :
  keeps R (subscribe_coin_chunks full_node syncing min_height fork_height chunks_ already).
Proof.
  revert already. induction chunks_ as [|chunk chunks_ IH]; intros already; simpl.
  - repeat framed_step.
  - pose proof framed_subscribe_to_coin_updates.
    pose proof (λ items peer,
                  framed_receive_state_from_peer items peer None None None (or_introl eq_refl)).
    repeat framed_step.
Qed.

Lemma framed_subscribe_all_puzzle_hashes fuel full_node syncing min_height fork_height
    continue_while all_puzzle_hashes already :
  keeps R (subscribe_all_puzzle_hashes fuel full_node syncing min_height fork_height
             continue_while all_puzzle_hashes already).
Proof.
  revert continue_while all_puzzle_hashes already.
  induction fuel as [|fuel IH]; intros continue_while all_puzzle_hashes already; simpl.
  - repeat framed_step.
  - pose proof framed_subscribe_ph_chunks. pose proof framed_get_puzzle_hashes_to_subscribe.
    destruct continue_while; simpl; repeat framed_step.
Qed.

Lemma framed_subscribe_all_coin_ids fuel full_node syncing min_height fork_height
    continue_while all_coin_ids already :
  keeps R (subscribe_all_coin_ids fuel full_node syncing min_height fork_height
             continue_while all_coin_ids already).
Proof.
  revert continue_while all_coin_ids already.
  induction fuel as [|fuel IH]; intros continue_while all_coin_ids already; simpl.
  - repeat framed_step.
  - pose proof framed_subscribe_coin_chunks. pose proof framed_get_coin_ids_to_subscribe.
    destruct continue_while; simpl; repeat framed_step.
Qed.

(** The peers a sync adds to [synced_peers]. *)
Hypothesis R_synced_peers :
  ∀ peer, keeps R (modify_node (λ n, set_synced_peers ({[peer]} ∪ synced_peers n) n)).

(** [long_sync] rolls back only when [syncing]. *)
Lemma framed_long_sync fuel target_height full_node syncing fork_height :
  syncing = false ∨ (∀ h, keeps R (call (ReorgRollback h))) →
  keeps R (long_sync fuel target_height full_node syncing fork_height).
Proof.
  intros Hrollback. unfold long_sync.
  pose proof framed_is_trusted. pose proof framed_update_ui.
  pose proof framed_rollback_request_caches.
  pose proof framed_get_puzzle_hashes_to_subscribe.
  pose proof framed_get_coin_ids_to_subscribe.
  pose proof framed_subscribe_all_puzzle_hashes.
  pose proof framed_subscribe_all_coin_ids.
  pose proof framed_advance_finished_sync_up_to.
  destruct Hrollback as [->|Hrollback]; repeat framed_step.
Qed.

(** From here on the handlers may roll the wallet back. *)
Hypothesis R_rollback : ∀ h, keeps R (call (ReorgRollback h)).

Lemma framed_state_update_received request peer :
  keeps R (state_update_received request peer).
Proof.
  unfold state_update_received.
  pose proof (λ items peer fork_height height header_hash,
                framed_receive_state_from_peer items peer fork_height height header_hash
                  (or_intror R_rollback)).
  repeat framed_step.
Qed.

Lemma framed_wallet_short_sync_backtrack fuel header_block peer :
  keeps R (wallet_short_sync_backtrack fuel header_block peer).
Proof.
  unfold wallet_short_sync_backtrack.
  pose proof framed_fetch_back. pose proof framed_update_ui.
  pose proof framed_rollback_request_caches.
  repeat framed_step.
Qed.

(** The accepted weight proofs stored in [valid_wp_cache]. *)
Hypothesis R_valid_wp_cache :
  ∀ k fork_point summaries block_records,
    keeps R (modify_node (λ n,
      set_valid_wp_cache (<[k := (true, fork_point, summaries, block_records)]>
                            (valid_wp_cache n)) n)).

Lemma framed_fetch_and_validate_the_weight_proof peer peak :
  keeps R (fetch_and_validate_the_weight_proof peer peak).
Proof. unfold fetch_and_validate_the_weight_proof. repeat framed_step. Qed.

Lemma framed_sync_to_trusted fuel peak peer header_block latest_timestamp :
  keeps R (sync_to_trusted fuel peak peer header_block latest_timestamp).
Proof.
  unfold sync_to_trusted.
  pose proof framed_disconnect_and_stop_wpeers.
  pose proof (λ fuel target full_node syncing fork_height,
                framed_long_sync fuel target full_node syncing fork_height
                  (or_intror R_rollback)).
  repeat framed_step.
Qed.

Lemma framed_sync_with_weight_proof fuel peak peer header_block far_behind :
  keeps R (sync_with_weight_proof fuel peak peer header_block far_behind).
Proof.
  unfold sync_with_weight_proof. cbv zeta.
  pose proof framed_fetch_and_validate_the_weight_proof.
  pose proof (λ fuel target full_node syncing fork_height,
                framed_long_sync fuel target full_node syncing fork_height
                  (or_intror R_rollback)).
  repeat framed_step.
Qed.

Lemma framed_short_sync fuel peak peer header_block :
  keeps R (short_sync fuel peak peer header_block).
Proof.
  unfold short_sync.
  pose proof framed_wallet_short_sync_backtrack.
  pose proof framed_get_coin_ids_to_subscribe.
  pose proof framed_get_puzzle_hashes_to_subscribe.
  pose proof framed_subscribe_to_phs. pose proof framed_subscribe_to_coin_updates.
  pose proof (λ items peer fork_height height header_hash,
                framed_receive_state_from_peer items peer fork_height height header_hash
                  (or_intror R_rollback)).
  pose proof framed_replay_race_cache.
  repeat framed_step.
Qed.

(** [new_peak_wallet] writes [_node_peaks] once, at the key of the peer. *)
Lemma framed_new_peak_wallet fuel peak peer :
  keeps R (modify_node (λ n,
    set_node_peaks (<[peer := (np_height peak, np_header_hash peak)]> (_node_peaks n)) n)) →
  keeps R (new_peak_wallet fuel peak peer).
Proof.
  intros Hpeaks. unfold new_peak_wallet.
  pose proof framed_is_trusted. pose proof framed_is_peer_synced.
  pose proof framed_sync_to_trusted. pose proof framed_sync_with_weight_proof.
  pose proof framed_short_sync. pose proof framed_finish_new_peak.
  repeat framed_step.
Qed.

End FramedHandlers.

Section Rollbacks.
Context `{env : Env}.

Lemma rollbacks_snoc_plain {X} (e : Ext X) (r : Result X) tr :
  is_reorg_rollback e = false → rollbacks (tr ++ [Called e r]) = rollbacks tr.
Proof.
  intros He. unfold rollbacks. rewrite omap_app.
  destruct e; try discriminate He; cbn; by rewrite app_nil_r.
Qed.

#[local] Instance same_rollbacks_framed : Framed same_rollbacks.
Proof.
  split.
  - split; unfold same_rollbacks; [done|intros ? ? ?; congruence].
  - intros X e He s. unfold same_rollbacks, call.
    destruct (handle e (world s)) as [r w]. cbn [snd trace]. by apply rollbacks_snoc_plain.
  - by intros f s.
  - by intros s.
  - by intros v s.
  - by intros v s.
Qed.

Lemma same_rollbacks_node (f : WalletNode → WalletNode) : keeps same_rollbacks (modify_node f).
Proof. by intros s. Qed.

Lemma same_rollbacks_add_state header_hash height coin_state :
  keeps same_rollbacks (add_state_to_race_cache header_hash height coin_state).
Proof.
  unfold add_state_to_race_cache. cbv zeta. pose proof same_rollbacks_node.
  repeat framed_step.
Qed.

(** X16.  [long_sync] called with [syncing = False] never rolls the wallet back,
    whatever the peer and the stores answer. *)
Theorem long_sync_without_syncing_never_rolls_back
    (fuel : nat) (target_height full_node : Z) (fork_height : option Z) (s : State) :
  rollbacks (trace (long_sync fuel target_height full_node false fork_height s).2)
  = rollbacks (trace s).
Proof.
  apply (framed_long_sync same_rollbacks same_rollbacks_add_state
           (λ peer, same_rollbacks_node _)).
  by left.
Qed.

End Rollbacks.

Section NodeFrames.
Context `{env : Env}.

(** A relation between the nodes before and after is maintained by every
    call. *)
Lemma keeps_call_of_node (R : State → State → Prop) {X} (e : Ext X) :
  (∀ s w tr, R s {| node := node s; world := w; trace := tr |}) → keeps R (call e).
Proof.
  intros HR s. unfold call. destruct (handle e (world s)) as [r w]. apply HR.
Qed.

#[local] Instance race_cache_grows_framed : Framed race_cache_grows.
Proof.
  split.
  - split; unfold race_cache_grows.
    + intros s Hnil. split; [done|]. intros hh st Hst. by exists st.
    + intros s1 s2 s3 H12 H23 Hnil. destruct (H12 Hnil) as [Hnil2 H12'].
      destruct (H23 Hnil2) as [Hnil3 H23']. split; [done|].
      intros hh st Hst. destruct (H12' _ _ Hst) as (st2 & Hst2 & Hsub2).
      destruct (H23' _ _ Hst2) as (st3 & Hst3 & Hsub3). exists st3. split; [done|].
      by etrans.
  - intros X e _. apply keeps_call_of_node. intros s w tr Hnil. split; [done|].
    intros hh st Hst. by exists st.
  - intros f s Hnil. split; [done|]. intros hh st Hst. by exists st.
  - intros s Hnil. split; [done|]. intros hh st Hst. by exists st.
  - intros v s Hnil. split; [done|]. intros hh st Hst. by exists st.
  - intros v s Hnil. split; [done|]. intros hh st Hst. by exists st.
Qed.

Lemma race_cache_grows_add_state header_hash height coin_state :
  keeps race_cache_grows (add_state_to_race_cache header_hash height coin_state).
Proof.
  intros s Hnil. rewrite add_state_to_race_cache_without_hashes by done.
  cbn [snd node race_cache_hashes set_race_cache]. split; [done|].
  unfold race_cache_included. cbn [race_cache set_race_cache].
  intros hh st Hst. destruct (decide (hh = header_hash)) as [->|Hne].
  - rewrite lookup_insert_eq, Hst. eexists. split; [done|]. cbn. apply union_subseteq_r.
  - rewrite lookup_insert_ne by done. by exists st.
Qed.

Lemma race_cache_grows_node (f : WalletNode → WalletNode) :
  (∀ n, race_cache (f n) = race_cache n ∧ race_cache_hashes (f n) = race_cache_hashes n) →
  keeps race_cache_grows (modify_node f).
Proof.
  intros Hf s Hnil. unfold modify_node. cbn [snd node].
  destruct (Hf (node s)) as [Hr Hh]. split; [by rewrite Hh|].
  intros hh st Hst. exists st. by rewrite Hr.
Qed.

Lemma race_cache_grows_rollback h : keeps race_cache_grows (call (ReorgRollback h)).
Proof.
  apply keeps_call_of_node. intros s w tr Hnil. split; [done|].
  intros hh st Hst. by exists st.
Qed.

(** X17.  The race cache only grows: from a node with an empty
    [race_cache_hashes] (as [__init__] leaves it), no handler removes a
    coin state from the race cache, under any header hash, and
    [race_cache_hashes] stays empty. *)
Theorem race_cache_only_grows (fuel : nat) (s : State) :
  race_cache_hashes (node s) = [] →
  (∀ peak peer,
     race_cache_hashes (node (new_peak_wallet fuel peak peer s).2) = []
     ∧ race_cache_included (node s) (node (new_peak_wallet fuel peak peer s).2))
  ∧ (∀ request peer,
       race_cache_hashes (node (state_update_received request peer s).2) = []
       ∧ race_cache_included (node s) (node (state_update_received request peer s).2))
  ∧ (∀ target_height full_node syncing fork_height,
       race_cache_hashes
         (node (long_sync fuel target_height full_node syncing fork_height s).2) = []
       ∧ race_cache_included (node s)
           (node (long_sync fuel target_height full_node syncing fork_height s).2)).
Proof.
  intros Hnil. split; [|split].
  - intros peak peer.
    apply (framed_new_peak_wallet race_cache_grows race_cache_grows_add_state
             (λ p, race_cache_grows_node _ (λ n, conj eq_refl eq_refl))
             race_cache_grows_rollback
             (λ k fp su br, race_cache_grows_node _ (λ n, conj eq_refl eq_refl))
             fuel peak peer (race_cache_grows_node _ (λ n, conj eq_refl eq_refl)) s Hnil).
  - intros request peer.
    apply (framed_state_update_received race_cache_grows race_cache_grows_add_state
             race_cache_grows_rollback request peer s Hnil).
  - intros target_height full_node syncing fork_height.
    apply (framed_long_sync race_cache_grows race_cache_grows_add_state
             (λ p, race_cache_grows_node _ (λ n, conj eq_refl eq_refl))
             fuel target_height full_node syncing fork_height
             (or_intror race_cache_grows_rollback) s Hnil).
Qed.

#[local] Instance synced_peers_grow_framed : Framed synced_peers_grow.
Proof.
  split.
  - split; unfold synced_peers_grow; [intros ?; reflexivity|intros ? ? ? ? ?; by etrans].
  - intros X e _. apply keeps_call_of_node. intros s w tr.
    unfold synced_peers_grow. cbn. reflexivity.
  - intros f s. unfold synced_peers_grow, modify_node. cbn. reflexivity.
  - intros s. unfold synced_peers_grow, modify_node. cbn. reflexivity.
  - intros v s. unfold synced_peers_grow, modify_node. cbn. reflexivity.
  - intros v s. unfold synced_peers_grow, modify_node. cbn. reflexivity.
Qed.

Lemma synced_peers_grow_node (f : WalletNode → WalletNode) :
  (∀ n, synced_peers n ⊆ synced_peers (f n)) → keeps synced_peers_grow (modify_node f).
Proof. intros Hf s. apply Hf. Qed.

Lemma synced_peers_grow_add_state header_hash height coin_state :
  keeps synced_peers_grow (add_state_to_race_cache header_hash height coin_state).
Proof.
  unfold add_state_to_race_cache. cbv zeta.
  assert (∀ f, keeps synced_peers_grow (modify_node (λ n, set_race_cache (f n) n))) as H1
    by (intros f; apply synced_peers_grow_node; intros n; cbn; reflexivity).
  assert (∀ f, keeps synced_peers_grow (modify_node (λ n, set_race_cache_hashes (f n) n))) as H2
    by (intros f; apply synced_peers_grow_node; intros n; cbn; reflexivity).
  repeat framed_step; first [apply H1|apply H2].
Qed.

(** X18.  No handler removes a peer from [synced_peers]: a peer that has synced
    stays synced through [new_peak_wallet], [state_update_received] and
    [long_sync], whatever their outcome. *)
Theorem handlers_keep_synced_peers (fuel : nat) (s : State) (synced : Z) :
  synced ∈ synced_peers (node s) →
  (∀ peak peer, synced ∈ synced_peers (node (new_peak_wallet fuel peak peer s).2))
  ∧ (∀ request peer, synced ∈ synced_peers (node (state_update_received request peer s).2))
  ∧ (∀ target_height full_node syncing fork_height,
       synced
       ∈ synced_peers (node (long_sync fuel target_height full_node syncing fork_height s).2)).
Proof.
  intros Hin.
  assert (∀ h, keeps synced_peers_grow (call (ReorgRollback h))) as Hrollback.
  { intros h. apply keeps_call_of_node. intros ? ? ?. unfold synced_peers_grow. cbn.
    reflexivity. }
  assert (∀ p, keeps synced_peers_grow
                 (modify_node (λ n, set_synced_peers ({[p]} ∪ synced_peers n) n))) as Hadd.
  { intros p. apply synced_peers_grow_node. intros n. cbn. apply union_subseteq_r. }
  split; [|split].
  - intros peak peer.
    apply (framed_new_peak_wallet synced_peers_grow synced_peers_grow_add_state Hadd Hrollback
             (λ k fp su br, synced_peers_grow_node _ (λ n, reflexivity _))
             fuel peak peer (synced_peers_grow_node _ (λ n, reflexivity _)) s), Hin.
  - intros request peer.
    apply (framed_state_update_received synced_peers_grow synced_peers_grow_add_state
             Hrollback request peer s), Hin.
  - intros target_height full_node syncing fork_height.
    apply (framed_long_sync synced_peers_grow synced_peers_grow_add_state Hadd
             fuel target_height full_node syncing fork_height (or_intror Hrollback) s), Hin.
Qed.

#[local] Instance same_node_peaks_framed : Framed same_node_peaks.
Proof.
  split.
  - split; unfold same_node_peaks; [done|intros ? ? ?; congruence].
  - intros X e _. apply keeps_call_of_node. by intros s w tr.
  - by intros f s.
  - by intros s.
  - by intros v s.
  - by intros v s.
Qed.

Lemma same_node_peaks_node (f : WalletNode → WalletNode) :
  (∀ n, _node_peaks (f n) = _node_peaks n) → keeps same_node_peaks (modify_node f).
Proof. intros Hf s. apply Hf. Qed.

Lemma same_node_peaks_add_state header_hash height coin_state :
  keeps same_node_peaks (add_state_to_race_cache header_hash height coin_state).
Proof.
  unfold add_state_to_race_cache. cbv zeta.
  assert (∀ f, keeps same_node_peaks (modify_node (λ n, set_race_cache (f n) n))) as H1
    by (intros f; by apply same_node_peaks_node).
  assert (∀ f, keeps same_node_peaks (modify_node (λ n, set_race_cache_hashes (f n) n))) as H2
    by (intros f; by apply same_node_peaks_node).
  repeat framed_step; first [apply H1|apply H2].
Qed.

(** X19.  [new_peak_wallet] writes [_node_peaks] exactly once: once the wallet
    state manager and the server are there, the entry of the peer is the
    advertised peak and the entries of the other peers are as before,
    however the handler ends; [state_update_received] and [long_sync] do
    not write [_node_peaks]. *)
Theorem new_peak_wallet_records_the_peak (fuel : nat) (s : State) :
  (∀ peak peer,
     wallet_state_manager (node s) = true →
     server (node s) = true →
     _node_peaks (node (new_peak_wallet fuel peak peer s).2)
     = <[peer := (np_height peak, np_header_hash peak)]> (_node_peaks (node s)))
  ∧ (∀ request peer,
       _node_peaks (node (state_update_received request peer s).2) = _node_peaks (node s))
  ∧ (∀ target_height full_node syncing fork_height,
       _node_peaks (node (long_sync fuel target_height full_node syncing fork_height s).2)
       = _node_peaks (node s)).
Proof.
  assert (∀ h, keeps same_node_peaks (call (ReorgRollback h))) as Hrollback.
  { intros h. apply keeps_call_of_node. by intros ? ? ?. }
  assert (∀ p, keeps same_node_peaks
                 (modify_node (λ n, set_synced_peers ({[p]} ∪ synced_peers n) n))) as Hadd.
  { intros p. by apply same_node_peaks_node. }
  assert (∀ k fork_point summaries block_records,
            keeps same_node_peaks (modify_node (λ n,
              set_valid_wp_cache (<[k := (true, fork_point, summaries, block_records)]>
                                    (valid_wp_cache n)) n))) as Hwp.
  { intros. by apply same_node_peaks_node. }
  split; [|split].
  - intros peak peer Hwsm Hserver. unfold new_peak_wallet.
    rewrite run_bind_get_node, run_bind_assert, run_bind_assert, run_bind_modify_node by done.
    match goal with
    | |- context [bind (call TimeTime) ?k ?st] =>
        assert (keeps same_node_peaks (bind (call TimeTime) k)) as Hk;
        [|exact (Hk st)]
    end.
    pose proof (framed_is_trusted same_node_peaks).
    pose proof (framed_is_peer_synced same_node_peaks).
    pose proof (framed_sync_to_trusted same_node_peaks same_node_peaks_add_state Hadd
                  Hrollback).
    pose proof (framed_sync_with_weight_proof same_node_peaks same_node_peaks_add_state Hadd
                  Hrollback Hwp).
    pose proof (framed_short_sync same_node_peaks same_node_peaks_add_state Hadd Hrollback).
    pose proof (framed_finish_new_peak same_node_peaks).
    repeat framed_step.
  - intros request peer.
    apply (framed_state_update_received same_node_peaks same_node_peaks_add_state
             Hrollback request peer s).
  - intros target_height full_node syncing fork_height.
    apply (framed_long_sync same_node_peaks same_node_peaks_add_state Hadd
             fuel target_height full_node syncing fork_height (or_intror Hrollback) s).
Qed.

End NodeFrames.

(** The node that holds a coin state in its race cache. *)
Lemma race_cache_only_grows_witness :
  (∀ peak peer,
     race_cache_hashes
       (node (new_peak_wallet (env := toy_env) 5 peak peer
                (toy_init racing_node scenario_world)).2) = []
     ∧ race_cache_included racing_node
         (node (new_peak_wallet (env := toy_env) 5 peak peer
                  (toy_init racing_node scenario_world)).2))
  ∧ (∀ request peer,
       race_cache_hashes
         (node (state_update_received (env := toy_env) request peer
                  (toy_init racing_node scenario_world)).2) = []
       ∧ race_cache_included racing_node
           (node (state_update_received (env := toy_env) request peer
                    (toy_init racing_node scenario_world)).2))
  ∧ (∀ target_height full_node syncing fork_height,
       race_cache_hashes
         (node (long_sync (env := toy_env) 5 target_height full_node syncing fork_height
                  (toy_init racing_node scenario_world)).2) = []
       ∧ race_cache_included racing_node
           (node (long_sync (env := toy_env) 5 target_height full_node syncing fork_height
                    (toy_init racing_node scenario_world)).2)).
Proof.
  apply (race_cache_only_grows (env := toy_env) 5 (toy_init racing_node scenario_world)).
  reflexivity.
Defined.

(** Peer 7 has synced. *)
Lemma handlers_keep_synced_peers_witness :
  (∀ peak peer,
     7 ∈ synced_peers (node (new_peak_wallet (env := toy_env) 5 peak peer
                               (toy_init synced_node scenario_world)).2))
  ∧ (∀ request peer,
       7 ∈ synced_peers (node (state_update_received (env := toy_env) request peer
                                 (toy_init synced_node scenario_world)).2))
  ∧ (∀ target_height full_node syncing fork_height,
       7 ∈ synced_peers
             (node (long_sync (env := toy_env) 5 target_height full_node syncing fork_height
                      (toy_init synced_node scenario_world)).2)).
Proof.
  apply (handlers_keep_synced_peers (env := toy_env) 5 (toy_init synced_node scenario_world) 7).
  by_evaluation.
Defined.

(** Peer 8 advertises the peak at height 103 to a node that knows the
    peaks of the peers 7 and 8. *)
Lemma new_peak_wallet_records_the_peak_witness :
  _node_peaks (node (new_peak_wallet (env := toy_env) 5 peak_103 8
                       (toy_init peered_node scenario_world)).2)
  = <[8 := (103, 1103)]> (_node_peaks peered_node).
Proof.
  apply (proj1 (new_peak_wallet_records_the_peak (env := toy_env) 5
                  (toy_init peered_node scenario_world)) peak_103 8).
  - reflexivity.
  - reflexivity.
Defined.

Section LongSync.
Context `{env : Env}.

#[local] Instance same_node_preorder : PreOrder same_node.
Proof. split; unfold same_node; [done|intros ? ? ?; congruence]. Qed.

Lemma same_node_call {X} (e : Ext X) : keeps same_node (call e).
Proof. intros s. unfold same_node, call. by destruct (handle e (world s)). Qed.

Lemma same_node_update_ui : keeps same_node update_ui.
Proof.
  unfold update_ui. apply keeps_bind; [apply _|apply same_node_call|intros ids].
  apply keeps_for_each; [apply _|intros id].
  apply keeps_bind; [apply _|apply same_node_call|intros _]. apply same_node_call.
Qed.


(** X20.  A [long_sync] that returns has added the peer to [synced_peers], and
    has set [local_node_synced] when the peer is trusted. *)
Theorem long_sync_marks_the_peer_synced
    (fuel : nat) (target_height full_node : Z) (syncing : bool) (fork_height : option Z)
    (s s' : State) :
  long_sync fuel target_height full_node syncing fork_height s = (Ok tt, s') →
  full_node ∈ synced_peers (node s')
  ∧ (∀ w, handle (IsTrustedPeer full_node) (world s) = (Ok true, w) →
          local_node_synced (node s') = true).
Proof.
  unfold long_sync. intros H.
  apply bind_Ok in H as (trusted & s1 & Htrusted & H).
  rewrite run_bind_get_node in H.
  apply bind_Ok in H as ([] & ? & _ & H).
  apply bind_Ok in H as (current_height & ? & _ & H).
  apply bind_Ok in H as (min_height & ? & _ & H).
  apply bind_Ok in H as ([] & ? & _ & H).
  apply bind_Ok in H as (all_puzzle_hashes & ? & _ & H).
  apply bind_Ok in H as (? & ? & _ & H).
  apply bind_Ok in H as (all_coin_ids & ? & _ & H).
  apply bind_Ok in H as (? & ? & _ & H).
  apply bind_Ok in H as ([] & sa & _ & H).
  apply bind_Ok in H as ([] & sb & Hlns & H).
  apply bind_Ok in H as ([] & sc & Hc & H). apply call_Ok in Hc as (wc & _ & ->).
  rewrite run_bind_modify_node in H. cbn [node world trace] in H.
  pose proof (same_node_update_ui
                {| node := set_synced_peers ({[full_node]} ∪ synced_peers (node sb)) (node sb);
                   world := wc;
                   trace := trace sb ++ [Called (StateChanged "new_block" None) (Ok tt)] |})
    as Hnode.
  rewrite H in Hnode. unfold same_node in Hnode. cbn [snd node] in Hnode.
  rewrite Hnode. cbn [synced_peers local_node_synced set_synced_peers].
  split; [apply elem_of_union_l, elem_of_singleton; done|].
  intros w Hw. unfold is_trusted in Htrusted. rewrite run_bind_get_node in Htrusted.
  apply bind_Ok in Htrusted as ([] & ? & Hassert & Htrusted).
  apply assert_Ok in Hassert as [_ ->].
  apply call_Ok in Htrusted as (w' & Hw' & ->). rewrite Hw in Hw'. simplify_eq.
  unfold modify_node in Hlns. by simplify_eq.
Qed.

End LongSync.

(** A long sync to the trusted peer 7. *)
Lemma long_sync_marks_the_peer_synced_witness :
  7 ∈ synced_peers
        (node (long_sync (env := toy_env) 5 10 7 false None
                 (toy_init started_node (subscription_world true (Some [])))).2)
  ∧ (∀ w, handle (Env := toy_env) (IsTrustedPeer 7) (subscription_world true (Some []))
          = (Ok true, w) →
          local_node_synced
            (node (long_sync (env := toy_env) 5 10 7 false None
                     (toy_init started_node (subscription_world true (Some [])))).2)
          = true).
Proof.
  apply (long_sync_marks_the_peer_synced (env := toy_env) 5 10 7 false None
           (toy_init started_node (subscription_world true (Some [])))).
  apply run_returns. vm_compute. reflexivity.
Defined.

Section Locks.
Context `{env : Env}.

#[local] Instance trace_extends_preorder : PreOrder trace_extends.
Proof.
  split.
  - intros s. exists []. by rewrite app_nil_r.
  - intros s1 s2 s3 [tr1 H1] [tr2 H2]. exists (tr1 ++ tr2). by rewrite H2, H1, app_assoc.
Qed.

Lemma trace_extends_call {X} (e : Ext X) : keeps trace_extends (call e).
Proof.
  intros s. unfold call. destruct (handle e (world s)) as [r w]. by eexists.
Qed.

#[local] Instance trace_extends_throughout : MaintainedThroughout trace_extends.
Proof.
  split.
  - split.
    + apply _.
    + intros X e _ _. apply trace_extends_call.
    + intros f s. exists []. by rewrite app_nil_r.
    + intros s. exists []. by rewrite app_nil_r.
  - intros. apply trace_extends_call.
  - intros height. unfold advance_finished_sync_up_to.
    apply keeps_bind; [apply _|apply trace_extends_call|intros finished].
    destruct (bool_decide _); [apply trace_extends_call|apply keeps_ret; apply _].
  - intros f s. exists []. by rewrite app_nil_r.
Qed.

(** X21.  [state_update_received] takes the high-priority new-peak lock and then
    the lock of the wallet state manager, and gives both back, the inner
    one first, whether the processing of the coin states returned or
    raised. *)
Theorem state_update_releases_both_locks
    (request : CoinStateUpdate) (peer : Z) (s : State) (w1 w2 : W) :
  wallet_state_manager (node s) = true →
  server (node s) = true →
  handle (LockAcquire (NewPeakLock 1)) (world s) = (Ok tt, w1) →
  handle (LockAcquire WalletStateManagerLock) w1 = (Ok tt, w2) →
  (∀ w l, ∃ w', handle (LockRelease l) w = (Ok tt, w')) →
  (state_update_received request peer s).1 ≠ OutOfFuel →
  ∃ processing,
    trace (state_update_received request peer s).2
    = trace s
      ++ [Called (LockAcquire (NewPeakLock 1)) (Ok tt);
          Called (LockAcquire WalletStateManagerLock) (Ok tt)]
      ++ processing
      ++ [Called (LockRelease WalletStateManagerLock) (Ok tt);
          Called (LockRelease (NewPeakLock 1)) (Ok tt)].
Proof.
  intros Hwsm Hserver H1 H2 Hrelease.
  remember (state_update_received request peer s) as out eqn:Hout.
  unfold state_update_received in Hout.
  rewrite run_bind_get_node, !run_bind_assert in Hout by done.
  rewrite (run_with_lock _ _ _ _ H1) in Hout. unfold try_finally at 1 in Hout.
  rewrite (run_with_lock (A := unit) WalletStateManagerLock _ _ w2) in Hout by done.
  cbn [node world trace] in Hout.
  unfold try_finally in Hout.
  match type of Hout with
  | context [receive_state_from_peer ?i ?p ?f ?h ?hh ?st] =>
      destruct (keeps_receive_state_from_peer trace_extends i p f h hh st) as [processing Hp];
      destruct (receive_state_from_peer i p f h hh st) as [r sb]
  end.
  cbn [snd trace] in Hp.
  destruct (Hrelease (world sb) WalletStateManagerLock) as (w3 & H3).
  destruct (Hrelease w3 (NewPeakLock 1)) as (w4 & H4).
  destruct r as [[]|e|]; [| |by subst out; intros Hn; cbn in Hn].
  - rewrite (run_call (LockRelease WalletStateManagerLock) sb _ _ H3) in Hout.
    erewrite (run_call (LockRelease (NewPeakLock 1))) in Hout by (cbn [world]; exact H4).
    subst out. intros _. exists processing. cbn [snd trace]. rewrite Hp, <- !app_assoc. done.
  - rewrite (run_call (LockRelease WalletStateManagerLock) sb _ _ H3) in Hout.
    erewrite (run_call (LockRelease (NewPeakLock 1))) in Hout by (cbn [world]; exact H4).
    subst out. intros _. exists processing. cbn [snd trace]. rewrite Hp, <- !app_assoc. done.
Qed.

End Locks.

(** An update with one coin state, from peer 7. *)
Lemma state_update_releases_both_locks_witness :
  ∃ processing,
    trace (state_update_received (env := toy_env)
             {| csu_height := 101; csu_fork_height := 100; csu_peak_hash := 1101;
                csu_items := [coin_state_5] |} 7
             (toy_init synced_node scenario_world)).2
    = trace (toy_init synced_node scenario_world)
      ++ [Called (LockAcquire (NewPeakLock 1)) (Ok tt);
          Called (LockAcquire WalletStateManagerLock) (Ok tt)]
      ++ processing
      ++ [Called (LockRelease WalletStateManagerLock) (Ok tt);
          Called (LockRelease (NewPeakLock 1)) (Ok tt)].
Proof.
  apply (state_update_releases_both_locks (env := toy_env)
           {| csu_height := 101; csu_fork_height := 100; csu_peak_hash := 1101;
              csu_items := [coin_state_5] |} 7
           (toy_init synced_node scenario_world) scenario_world scenario_world).
  - reflexivity.
  - reflexivity.
  - reflexivity.
  - reflexivity.
  - intros w l. exists w. reflexivity.
  - vm_compute. discriminate.
Defined.

Section Disconnect.
Context `{env : Env}.

Lemma peer_closes_snoc_close peer code r tr :
  peer_closes (tr ++ [Called (PeerClose peer code) r]) = peer_closes tr ++ [(peer, code, r)].
Proof. unfold peer_closes. by rewrite omap_app. Qed.

(** X22.  [disconnect_and_stop_wpeers] closes the connections of the untrusted
    peers, and of no other, when there is more than one connection to a
    full node; with a single connection it closes none, trusted or not.
    Afterwards [wallet_peers] is [None].  It leaves [synced_peers], the
    request caches and [_node_peaks] as they are. *)
Theorem only_untrusted_peers_are_disconnected
    (s : State) (connections : list Z) (trusted : Z → bool) :
  server (node s) = true →
  (∀ w, ∃ w', handle GetFullNodeConnections w = (Ok connections, w')) →
  (∀ w peer, ∃ w', handle (IsTrustedPeer peer) w = (Ok (trusted peer), w')) →
  (∀ w peer code, ∃ w', handle (PeerClose peer code) w = (Ok tt, w')) →
  (∀ w, ∃ w', handle WalletPeersEnsureIsClosed w = (Ok tt, w')) →
  ∃ s',
    disconnect_and_stop_wpeers s = (Ok tt, s')
    ∧ peer_closes (trace s')
      = peer_closes (trace s)
        ++ (if bool_decide (1 < length connections)%nat
            then (λ peer, (peer, None, Ok tt)) <$> filter (λ peer, trusted peer = false) connections
            else [])
    ∧ wallet_peers (node s') = false
    ∧ synced_peers (node s') = synced_peers (node s)
    ∧ untrusted_caches (node s') = untrusted_caches (node s)
    ∧ _node_peaks (node s') = _node_peaks (node s).
Proof.
  intros Hserver Hconn Htrusted Hclose Hensure.
  assert (∀ (l : list Z) s1,
            server (node s1) = true →
            ∃ s2,
              for_each l (λ peer,
                let* trusted := is_trusted peer in
                if trusted then ret tt else call (PeerClose peer None)) s1 = (Ok tt, s2)
              ∧ peer_closes (trace s2)
                = peer_closes (trace s1)
                  ++ ((λ peer, (peer, None, Ok tt)) <$> filter (λ peer, trusted peer = false) l)
              ∧ node s2 = node s1) as Hloop.
  { induction l as [|peer l IH]; intros s1 Hs1; cbn [for_each].
    - exists s1. by rewrite app_nil_r.
    - destruct (Htrusted (world s1) peer) as (w2 & H2). unfold is_trusted.
      rewrite filter_cons. msteps. destruct (trusted peer) eqn:Et.
      + rewrite run_bind_ret.
        match goal with
        | |- ∃ s2, for_each _ _ ?st = _ ∧ _ => destruct (IH st Hs1) as (s2 & Hrun & Hc & Hn)
        end.
        exists s2. split; [done|]. cbn [trace node] in *. split; [|done].
        rewrite Hc, peer_closes_snoc_plain by done.
        destruct (decide (true = false)); done.
      + destruct (Hclose w2 peer None) as (w3 & H3). msteps.
        match goal with
        | |- ∃ s2, for_each _ _ ?st = _ ∧ _ => destruct (IH st Hs1) as (s2 & Hrun & Hc & Hn)
        end.
        exists s2. split; [done|]. cbn [trace node] in *. split; [|done].
        rewrite Hc, peer_closes_snoc_close, peer_closes_snoc_plain by done.
        destruct (decide (false = false)); [|done]. cbn. by rewrite <- app_assoc. }
  unfold disconnect_and_stop_wpeers.
  destruct (Hconn (world s)) as (w1 & H1). msteps.
  assert (∃ s1,
            (if bool_decide (Z.of_nat (length connections) > 1)
             then let* connections := call GetFullNodeConnections in
                  for_each connections (λ peer,
                    let* trusted := is_trusted peer in
                    if trusted then ret tt else call (PeerClose peer None))
             else ret tt)
              {| node := node s; world := w1;
                 trace := trace s ++ [Called GetFullNodeConnections (Ok connections)] |}
            = (Ok tt, s1)
            ∧ peer_closes (trace s1)
              = peer_closes (trace s)
                ++ (if bool_decide (1 < length connections)%nat
                    then (λ peer, (peer, None, Ok tt))
                           <$> filter (λ peer, trusted peer = false) connections
                    else [])
            ∧ node s1 = node s) as (s1 & Hrun & Hc & Hn).
  { destruct (bool_decide_reflect (Z.of_nat (length connections) > 1)) as [Hgt|Hle].
    - rewrite (bool_decide_eq_true_2 (1 < length connections)%nat) by lia.
      destruct (Hconn w1) as (w2 & H2). msteps.
      match goal with
      | |- ∃ s1, for_each _ _ ?st = _ ∧ _ => destruct (Hloop connections st Hserver)
                                               as (s1 & Hrun & Hc & Hn)
      end.
      exists s1. split; [done|]. cbn [trace node] in *. split; [|done].
      by rewrite Hc, !peer_closes_snoc_plain.
    - rewrite (bool_decide_eq_false_2 (1 < length connections)%nat) by lia.
      eexists. split; [reflexivity|]. cbn [trace node]. split; [|done].
      by rewrite peer_closes_snoc_plain, app_nil_r. }
  unfold bind at 1. rewrite Hrun. rewrite run_bind_get_node.
  destruct (wallet_peers (node s1)) eqn:Ewp.
  - destruct (Hensure (world s1)) as (w2 & H2). msteps. eexists. split; [reflexivity|].
    cbn [trace node wallet_peers set_wallet_peers synced_peers untrusted_caches _node_peaks].
    rewrite peer_closes_snoc_plain by done. rewrite Hn. done.
  - exists s1. split; [done|]. rewrite Hn in *. done.
Qed.

End Disconnect.

(** Three connections, of which peer 7 is trusted. *)
Lemma only_untrusted_peers_are_disconnected_witness :
  ∃ s',
    disconnect_and_stop_wpeers (env := busy_env) (busy_init started_node scenario_world)
    = (Ok tt, s')
    ∧ peer_closes (trace s')
      = peer_closes (trace (busy_init started_node scenario_world))
        ++ (if bool_decide (1 < length [7; 8; 9])%nat
            then (λ peer, (peer, None, Ok tt))
                   <$> filter (λ peer, bool_decide (peer = 7) = false) [7; 8; 9]
            else [])
    ∧ wallet_peers (node s') = false
    ∧ synced_peers (node s') = synced_peers started_node
    ∧ untrusted_caches (node s') = untrusted_caches started_node
    ∧ _node_peaks (node s') = _node_peaks started_node.
Proof.
  apply (only_untrusted_peers_are_disconnected (env := busy_env)
           (busy_init started_node scenario_world) [7; 8; 9] (λ peer, bool_decide (peer = 7))).
  - reflexivity.
  - intros w. exists w. reflexivity.
  - intros w peer. exists w. reflexivity.
  - intros w peer code. exists w. reflexivity.
  - intros w. exists w. reflexivity.
Defined.

Section Batch.
Context `{env : Env}.

#[local] Instance primitives_kept_framed : Framed primitives_kept.
Proof.
  split.
  - split; unfold primitives_kept.
    + done.
    + intros s1 s2 s3 (Ha & Hb & H1 & H2) (Hc & Hd & H3 & H4).
      split; [congruence|]. split; [congruence|]. auto.
  - intros X e _. apply keeps_call_of_node. by intros s w tr.
  - by intros f s.
  - by intros s.
  - by intros v s.
  - by intros v s.
Qed.






End Batch.


Section Trusted.
Context `{env : Env}.


#[local] Instance same_validation_log_preorder : PreOrder same_validation_log.
Proof. split; unfold same_validation_log; [done|intros ? ? ?; congruence]. Qed.




End Trusted.


Section SubEpoch.

Lemma find_sub_epoch_Some all idx rest ses_0 current inserted :
  drop idx all = rest →
  find_sub_epoch all idx rest ses_0 = Some (current, inserted) →
  ∃ found,
    (idx ≤ found)%nat
    ∧ all !! found = Some current
    ∧ reward_chain_hash current = ses_0
    ∧ (found + 3 ≤ length all)%nat
    ∧ inserted = all !! (found + 2)%nat
    ∧ ∀ earlier ses, (idx ≤ earlier < found)%nat → all !! earlier = Some ses →
                     reward_chain_hash ses ≠ ses_0.
Proof.
  revert idx. induction rest as [|ses rest IH]; intros idx Hdrop H; cbn [find_sub_epoch] in H;
    [done|].
  destruct (bool_decide_reflect (Z.of_nat idx > Z.of_nat (length all) - 3)) as [|Hidx]; [done|].
  assert (all !! idx = Some ses) as Hses.
  { rewrite <- (Nat.add_0_r idx), <- lookup_drop, Hdrop. done. }
  destruct (bool_decide_reflect (reward_chain_hash ses = ses_0)) as [Heq|Hne].
  - simplify_eq. exists idx. repeat split; try done; try lia.
  - assert (drop (S idx) all = rest) as Hdrop'.
    { replace (S idx) with (idx + 1)%nat by lia. rewrite <- drop_drop, Hdrop. done. }
    destruct (IH _ Hdrop' H) as (found & Hle & Hf & Hh & Hlen & Hins & Hfirst).
    exists found. repeat split; try done; try lia.
    intros earlier ses' Hrange Hl. destruct (decide (earlier = idx)) as [->|Hne'].
    + by simplify_eq.
    + apply (Hfirst earlier); [lia|done].
Qed.

(** X25.  The search of [validate_block_inclusion] for the sub-epoch of the
    block: when it finds one, it is the first sub-epoch of the weight proof
    whose reward-chain hash is [ses_0], at least two sub-epochs follow it,
    and [inserted] is the sub-epoch two positions later (it is never
    missing). *)
Theorem found_sub_epoch_has_its_successor
    (sub_epochs_ : list SubEpochData) (ses_0 : Z) (current : SubEpochData)
    (inserted : option SubEpochData) :
  find_sub_epoch sub_epochs_ 0 sub_epochs_ ses_0 = Some (current, inserted) →
  ∃ found next,
    sub_epochs_ !! found = Some current
    ∧ reward_chain_hash current = ses_0
    ∧ inserted = Some next
    ∧ sub_epochs_ !! (found + 2)%nat = Some next
    ∧ ∀ earlier ses, (earlier < found)%nat → sub_epochs_ !! earlier = Some ses →
                     reward_chain_hash ses ≠ ses_0.
Proof.
  intros H. apply find_sub_epoch_Some in H as (found & _ & Hf & Hh & Hlen & Hins & Hfirst);
    [|done].
  destruct (lookup_lt_is_Some_2 sub_epochs_ (found + 2)) as [next Hnext]; [lia|].
  exists found, next. repeat split; try done; try congruence.
  intros earlier ses Hlt. apply Hfirst. lia.
Qed.

End SubEpoch.

(** Four sub-epochs; the second has the hash looked for. *)
Lemma found_sub_epoch_has_its_successor_witness :
  ∃ found next,
    [{| reward_chain_hash := 10 |}; {| reward_chain_hash := 20 |};
     {| reward_chain_hash := 30 |}; {| reward_chain_hash := 40 |}] !! found
    = Some {| reward_chain_hash := 20 |}
    ∧ reward_chain_hash {| reward_chain_hash := 20 |} = 20
    ∧ Some {| reward_chain_hash := 40 |} = Some next
    ∧ [{| reward_chain_hash := 10 |}; {| reward_chain_hash := 20 |};
       {| reward_chain_hash := 30 |}; {| reward_chain_hash := 40 |}] !! (found + 2)%nat
      = Some next
    ∧ ∀ earlier ses, (earlier < found)%nat →
        [{| reward_chain_hash := 10 |}; {| reward_chain_hash := 20 |};
         {| reward_chain_hash := 30 |}; {| reward_chain_hash := 40 |}] !! earlier = Some ses →
        reward_chain_hash ses ≠ 20.
Proof.
  apply (found_sub_epoch_has_its_successor
           [{| reward_chain_hash := 10 |}; {| reward_chain_hash := 20 |};
            {| reward_chain_hash := 30 |}; {| reward_chain_hash := 40 |}]
           20 {| reward_chain_hash := 20 |} (Some {| reward_chain_hash := 40 |})).
  reflexivity.
Defined.

Section Syncing.
Context `{env : Env}.
#[local] Existing Instance same_rollbacks_framed.



End Syncing.


Section Unsynced.
Context `{env : Env}.

(** X27.  [new_peak_wallet] drops the peak of a peer that is not synced: once the
    peak passed the weight test at both places, the handler only closes the
    connection with code 120, unless the peer is trusted, and releases the
    lock; it syncs nothing, notifies no [new_peak] and leaves
    [finished_sync_up_to] alone. *)
Theorem unsynced_peer_is_dropped
    (fuel : nat) (peak : NewPeakWallet) (peer : Z) (s : State)
    (now : Z) (trusted : bool) (first second : option HeaderBlock) (header : HeaderBlock)
    (last_tx : option HeaderBlock) (w1 w2 w3 w4 w5 w6 w7 w8 w9 : W) :
  wallet_state_manager (node s) = true →
  server (node s) = true →
  handle TimeTime (world s) = (Ok now, w1) →
  0 <= now < 2 ^ 64 →
  handle (IsTrustedPeer peer) w1 = (Ok trusted, w2) →
  handle GetPeakBlock w2 = (Ok first, w3) →
  discards peak first = false →
  handle (LockAcquire (NewPeakLock 2)) w3 = (Ok tt, w4) →
  handle GetPeakBlock w4 = (Ok second, w5) →
  discards peak second = false →
  handle (RequestBlockHeader peer (np_height peak)) w5 = (Ok (Some header), w6) →
  handle (FetchLastTxFromPeer (np_height peak) peer) w6 = (Ok last_tx, w7) →
  not_synced last_tx now →
  (if trusted then w8 = w7 else handle (PeerClose peer (Some 120)) w7 = (Ok tt, w8)) →
  handle (LockRelease (NewPeakLock 2)) w8 = (Ok tt, w9) →
  new_peak_wallet fuel peak peer s
  = (Ok tt,
     {| node := set_node_peaks
                  (<[peer := (np_height peak, np_header_hash peak)]> (_node_peaks (node s)))
                  (node s);
        world := w9;
        trace := trace s
                 ++ [Called TimeTime (Ok now);
                     Called (IsTrustedPeer peer) (Ok trusted);
                     Called GetPeakBlock (Ok first);
                     Called (LockAcquire (NewPeakLock 2)) (Ok tt);
                     Called GetPeakBlock (Ok second);
                     Called (RequestBlockHeader peer (np_height peak)) (Ok (Some header));
                     Called (FetchLastTxFromPeer (np_height peak) peer) (Ok last_tx)]
                 ++ (if trusted then [] else [Called (PeerClose peer (Some 120)) (Ok tt)])
                 ++ [Called (LockRelease (NewPeakLock 2)) (Ok tt)] |}).
Proof.
  intros Hwsm Hsrv Ht Hrange Htr Hpk Hkeep Hacq Hpk2 Hkeep2 Hreq Hlast Hns Hclose Hrel.
  unfold new_peak_wallet, is_trusted, uint64.
  msteps.
  rewrite (bool_decide_eq_true_2 (0 <= now < 2 ^ 64)) by done.
  msteps. rewrite Hkeep. msteps.
  unfold try_finally.
  msteps. rewrite Hkeep2. msteps.
  cbn [wallet_state_manager set_node_peaks]. rewrite Hwsm. cbn [negb].
  unfold is_peer_synced. msteps.
  assert (∀ (k : option Z → M unit) st,
            bind (bind (match last_tx with
                        | Some tx =>
                            match foliage_transaction_block tx with
                            | Some ftb => ret (Some (timestamp ftb))
                            | None => raise AssertionError
                            end
                        | None => ret None
                        end)
                    (λ latest_timestamp,
                       match latest_timestamp with
                       | Some ts =>
                           if negb config_testing && bool_decide (ts < now - 600)
                           then ret None else ret (Some ts)
                       | None => ret None
                       end)) k st = k None st) as Hsynced.
  { intros k st. destruct last_tx as [tx|]; [|done].
    destruct Hns as (ftb & -> & -> & Hold). cbn [negb andb].
    rewrite run_bind_bind, run_bind_ret. by rewrite bool_decide_eq_true_2. }
  rewrite <- run_bind_bind. rewrite Hsynced.
  destruct trusted.
  - subst w8. unfold ret at 1. msteps. mfinish.
  - msteps. mfinish.
Qed.

End Unsynced.

(** The last transaction block of peer 8 is from second 603, the request
    from second 5000. *)
Lemma unsynced_peer_is_dropped_witness :
  new_peak_wallet (env := busy_env) 5 peak_103 8 (busy_init synced_node late_world)
  = (Ok tt,
     busy_state (set_node_peaks {[8 := (103, 1103)]} synced_node) late_world
       [Called TimeTime (Ok 5000);
        Called (IsTrustedPeer 8) (Ok false);
        Called GetPeakBlock (Ok (Some (header true false 100 100)));
        Called (LockAcquire (NewPeakLock 2)) (Ok tt);
        Called GetPeakBlock (Ok (Some (header true false 100 100)));
        Called (RequestBlockHeader 8 103) (Ok (Some (header false false 103 103)));
        Called (FetchLastTxFromPeer 103 8) (Ok (Some (header false false 103 103)));
        Called (PeerClose 8 (Some 120)) (Ok tt);
        Called (LockRelease (NewPeakLock 2)) (Ok tt)]).
Proof.
  apply (unsynced_peer_is_dropped (env := busy_env) 5 peak_103 8
           (busy_init synced_node late_world) 5000 false
           (Some (header true false 100 100)) (Some (header true false 100 100))
           (header false false 103 103) (Some (header false false 103 103))
           late_world late_world late_world late_world late_world late_world late_world
           late_world late_world).
  - reflexivity.
  - reflexivity.
  - reflexivity.
  - lia.
  - reflexivity.
  - reflexivity.
  - reflexivity.
  - reflexivity.
  - reflexivity.
  - reflexivity.
  - reflexivity.
  - reflexivity.
  - exists {| additions_root := 7; removals_root := 8; timestamp := 603 |}.
    split; [reflexivity|]. split; [reflexivity|]. cbn [timestamp]. lia.
  - reflexivity.
  - reflexivity.
Defined.

(** ** The helpers of the RPC layer *)

Section RpcFacts.
Context `{rpc : RpcEnv}.

Lemma call_rpc_Ok {X} (e : Rpc X) s a s' :
  call_rpc e s = (Ok a, s') →
  ∃ w, handle_rpc e (world s) = (Ok a, w)
       ∧ s' = {| node := node s; world := w; trace := trace s |}.
Proof.
  unfold call_rpc. destruct (handle_rpc e (world s)) as [r w]. intros H. simplify_eq.
  by exists w.
Qed.

Lemma fetch_children_loop_sublist peer fork_height coin_states validated s result s' :
  fetch_children_loop peer fork_height coin_states validated s = (Ok result, s') →
  ∃ kept, result = validated ++ kept ∧ kept `sublist_of` coin_states.
Proof.
  revert validated s. induction coin_states as [|state rest IH]; intros validated s H;
    cbn [fetch_children_loop] in H.
  - apply ret_Ok in H as [<- _]. exists []. by rewrite app_nil_r.
  - apply bind_Ok in H as (valid & s1 & _ & H).
    apply IH in H as (kept & -> & Hsub). destruct valid.
    + exists (state :: kept). rewrite <- app_assoc. split; [done|]. by apply sublist_skip.
    + exists kept. split; [done|]. by apply sublist_cons.
Qed.

Lemma get_coin_state_loop_sublist first_node fork_height coin_states valid_list s result s' :
  get_coin_state_loop first_node fork_height coin_states valid_list s = (Ok result, s') →
  ∃ kept, result = valid_list ++ kept ∧ kept `sublist_of` coin_states.
Proof.
  revert valid_list s. induction coin_states as [|coin rest IH]; intros valid_list s H;
    cbn [get_coin_state_loop] in H.
  - apply ret_Ok in H as [<- _]. exists []. by rewrite app_nil_r.
  - apply bind_Ok in H as (cache & s0 & _ & H).
    apply bind_Ok in H as (valid & s1 & _ & H).
    apply IH in H as (kept & -> & Hsub). destruct valid.
    + exists (coin :: kept). rewrite <- app_assoc. split; [done|]. by apply sublist_skip.
    + exists kept. split; [done|]. by apply sublist_cons.
Qed.

(** X28.  [fetch_children] raises [ValueError], before anything else, when the
    peer sends no children.  When it returns, the coin states it returns
    are coin states of the response, in the order of the response and none
    twice; for a trusted peer they are the whole response, returned after
    the trust lookup alone, without any validation. *)
Theorem fetch_children_returns_states_of_the_response
    (peer coin_name : Z) (fork_height : option Z) (s : State) :
  (∀ w1, handle_rpc (RequestChildren peer coin_name) (world s) = (Ok None, w1) →
         fetch_children peer coin_name fork_height s
         = (Raise ValueError, {| node := node s; world := w1; trace := trace s |}))
  ∧ (∀ result s',
       fetch_children peer coin_name fork_height s = (Ok result, s') →
       ∃ coin_states w1,
         handle_rpc (RequestChildren peer coin_name) (world s) = (Ok (Some coin_states), w1)
         ∧ result `sublist_of` coin_states
         ∧ ∀ w2, handle (IsTrustedPeer peer) w1 = (Ok true, w2) →
                 result = coin_states
                 ∧ s' = {| node := node s; world := w2;
                           trace := trace s ++ [Called (IsTrustedPeer peer) (Ok true)] |}).
Proof.
  split.
  - intros w1 H1. unfold fetch_children, bind, call_rpc. by rewrite H1.
  - intros result s' H. unfold fetch_children in H.
    apply bind_Ok in H as (response & s1 & Hc & H).
    apply call_rpc_Ok in Hc as (w1 & H1 & ->).
    destruct response as [coin_states|]; [|done].
    exists coin_states, w1. split; [done|].
    apply bind_Ok in H as (trusted & s2 & Ht & H).
    unfold is_trusted in Ht. rewrite run_bind_get_node in Ht.
    apply bind_Ok in Ht as ([] & s3 & Ha & Ht). apply assert_Ok in Ha as [_ ->].
    apply call_Ok in Ht as (w2 & H2 & ->). cbn [world node trace] in *.
    destruct trusted; cbn [negb] in H.
    + apply ret_Ok in H as [<- ->]. split; [done|].
      intros w2' H2'. rewrite H2 in H2'. by simplify_eq.
    + apply bind_Ok in H as (cache & s4 & _ & H).
      apply fetch_children_loop_sublist in H as (kept & -> & Hsub). split; [done|].
      intros w2' H2'. rewrite H2 in H2'. by simplify_eq.
Qed.

(** X29.  [get_coin_state] raises [ValueError] when no full node is connected
    and [AssertionError] when the first full node does not answer the
    registration.  When it returns, the coin states it returns are coin
    states of the answer of the first full node, in the order of the
    answer and none twice; for a trusted node they are the whole answer. *)
Theorem get_coin_state_returns_states_of_the_response
    (coin_names : list Z) (fork_height : option Z) (s : State) :
  server (node s) = true →
  (∀ w1, handle_rpc ConnectionByTypeFullNode (world s) = (Ok [], w1) →
         get_coin_state coin_names fork_height s
         = (Raise ValueError, {| node := node s; world := w1; trace := trace s |}))
  ∧ (∀ first_node others w1 w2,
       handle_rpc ConnectionByTypeFullNode (world s) = (Ok (first_node :: others), w1) →
       handle (RegisterInterestInCoin first_node coin_names 0) w1 = (Ok None, w2) →
       (get_coin_state coin_names fork_height s).1 = Raise AssertionError)
  ∧ (∀ result s',
       get_coin_state coin_names fork_height s = (Ok result, s') →
       ∃ first_node others w1 coin_states w2,
         handle_rpc ConnectionByTypeFullNode (world s) = (Ok (first_node :: others), w1)
         ∧ handle (RegisterInterestInCoin first_node coin_names 0) w1
           = (Ok (Some coin_states), w2)
         ∧ result `sublist_of` coin_states
         ∧ ∀ w3, handle (IsTrustedPeer first_node) w2 = (Ok true, w3) →
                 result = coin_states).
Proof.
  intros Hserver. split; [|split].
  - intros w1 H1. unfold get_coin_state.
    rewrite run_bind_get_node, run_bind_assert by done.
    unfold bind, call_rpc. by rewrite H1.
  - intros first_node others w1 w2 H1 H2. unfold get_coin_state.
    rewrite run_bind_get_node, run_bind_assert by done.
    unfold bind at 1, call_rpc. rewrite H1.
    erewrite run_bind_call by (cbn [world]; exact H2). done.
  - intros result s' H. unfold get_coin_state in H.
    rewrite run_bind_get_node, run_bind_assert in H by done.
    apply bind_Ok in H as (all_nodes & s1 & Hc & H).
    apply call_rpc_Ok in Hc as (w1 & H1 & ->).
    destruct all_nodes as [|first_node others]; [done|].
    apply bind_Ok in H as (coin_state & s2 & Hc & H).
    apply call_Ok in Hc as (w2 & H2 & ->). cbn [world node trace] in *.
    destruct coin_state as [coin_states|]; [|done].
    exists first_node, others, w1, coin_states, w2. split; [done|]. split; [done|].
    apply bind_Ok in H as (trusted & s3 & Ht & H).
    unfold is_trusted in Ht. rewrite run_bind_get_node in Ht.
    apply bind_Ok in Ht as ([] & s4 & Ha & Ht). apply assert_Ok in Ha as [_ ->].
    apply call_Ok in Ht as (w3 & H3 & ->). cbn [world node trace] in *.
    destruct trusted; cbn [negb] in H.
    + apply ret_Ok in H as [<- ->]. split; [done|]. done.
    + apply get_coin_state_loop_sublist in H as (kept & -> & Hsub). split; [done|].
      intros w3' H3'. rewrite H3 in H3'. by simplify_eq.
Qed.

End RpcFacts.

(** Of the two children the untrusted peer 7 reports, the one created at
    height 5 passes the validation. *)
Lemma fetch_children_returns_states_of_the_response_witness :
  ∃ coin_states w1,
    handle_rpc (RpcEnv := toy_rpc) (RequestChildren 7 100) children_world
    = (Ok (Some coin_states), w1)
    ∧ [coin_state_5] `sublist_of` coin_states
    ∧ ∀ w2, handle (Env := toy_env) (IsTrustedPeer 7) w1 = (Ok true, w2) →
            [coin_state_5] = coin_states
            ∧ (fetch_children (rpc := toy_rpc) 7 100 None
                 (toy_init synced_node children_world)).2
              = toy_state synced_node w2 [Called (IsTrustedPeer 7) (Ok true)].
Proof.
  apply (proj2 (fetch_children_returns_states_of_the_response (rpc := toy_rpc) 7 100 None
                  (toy_init synced_node children_world))
           [coin_state_5]
           (fetch_children (rpc := toy_rpc) 7 100 None
              (toy_init synced_node children_world)).2).
  apply run_returns. vm_compute. reflexivity.
Defined.

(** The same two coin states, asked of the first full node. *)
Lemma get_coin_state_returns_states_of_the_response_witness :
  ∃ first_node others w1 coin_states w2,
    handle_rpc (RpcEnv := toy_rpc) ConnectionByTypeFullNode children_world
    = (Ok (first_node :: others), w1)
    ∧ handle (Env := toy_env) (RegisterInterestInCoin first_node [300; 100] 0) w1
      = (Ok (Some coin_states), w2)
    ∧ [coin_state_5] `sublist_of` coin_states
    ∧ ∀ w3, handle (Env := toy_env) (IsTrustedPeer first_node) w2 = (Ok true, w3) →
            [coin_state_5] = coin_states.
Proof.
  apply (proj2 (proj2 (get_coin_state_returns_states_of_the_response (rpc := toy_rpc)
                         [300; 100] None (toy_init synced_node children_world) eq_refl))
           [coin_state_5]
           (get_coin_state (rpc := toy_rpc) [300; 100] None
              (toy_init synced_node children_world)).2).
  apply run_returns. vm_compute. reflexivity.
Defined.

End WalletNodeFacts.
